(** * PPVmedia: the paid-media conversation flow

    A shallow embedding of [ppv_flow.py], [business_settings.py],
    [telegram_client.py] and the request handler of [main.py].

    The program drives a scripted dialogue with an external bot through a
    Telethon session.  Everything the program asks of the outside world (the
    session, the bot, the HTTP download) is a call answered by an environment
    [Env]; the environment sees the whole history of calls made so far, so it
    stands for any deterministic transport stub, and for fault injection at
    any call.  Python exceptions are the [Raise] results of an error monad
    that keeps the history when it fails, which is what [try]/[finally] needs. *)

From Stdlib Require Import String Ascii List ZArith Bool Arith Lia.
From Stdlib Require Import DecimalString.
Import ListNotations.
Open Scope string_scope.

(** ** Strings as Python uses them here *)

(** [str.lower()] on the ASCII range: bytes outside [A-Z] (the UTF-8 bytes
    of an emoji, say) are kept.  It is used where the flow lowers a text to
    look in it for one of its own cues, all of them ASCII; the button
    resolver, whose search text is an argument, takes the lowering function
    as a parameter instead. *)
Definition lower_ascii (c : ascii) : ascii :=
  let n := nat_of_ascii c in
  if ((65 <=? n)%nat && (n <=? 90)%nat)%bool then ascii_of_nat (n + 32) else c.

Fixpoint lower (s : string) : string :=
  match s with
  | EmptyString => EmptyString
  | String c rest => String (lower_ascii c) (lower rest)
  end.

(** [needle in haystack] *)
Fixpoint str_in (needle haystack : string) : bool :=
  prefix needle haystack ||
  match haystack with
  | EmptyString => false
  | String _ rest => str_in needle rest
  end.

(** [username.lstrip("@")] *)
Fixpoint lstrip_at (s : string) : string :=
  match s with
  | String "@"%char rest => lstrip_at rest
  | _ => s
  end.

(** [str(n)] for a Python int *)
Definition str_int (n : Z) : string := NilZero.string_of_int (Z.to_int n).

(** ** Data model *)

(** The Telethon button classes the flow distinguishes. *)
Inductive ButtonKind : Type :=
| KeyboardButtonCallback (data : string)
| KeyboardButtonRequestPeer (button_id : Z) (peer_type : string) (max_quantity : Z)
| KeyboardButtonOther (type_name : string).

Record Button : Type := mkButton { btn_text : string; btn_kind : ButtonKind }.

(** The markup classes a message can carry ([telethon.tl.types]).  Only the
    first two have [rows]; the other two tell the client to hide the keyboard
    or to show a reply box. *)
Inductive ReplyMarkup : Type :=
| ReplyInlineMarkup (rows : list (list Button))
| ReplyKeyboardMarkup (rows : list (list Button))
| ReplyKeyboardHide
| ReplyKeyboardForceReply.

(** [message.text] is [None] for a message without text and
    [message.reply_markup] is [None] for a message without markup; a markup
    object is always truthy. *)
Record Message : Type := mkMessage {
  msg_id : Z;
  msg_text : option string;
  reply_markup : option ReplyMarkup
}.

(** [message.buttons]: Telethon builds it from the rows of an inline or a
    reply keyboard, and leaves it [None] for every other markup. *)
Definition buttons (m : Message) : option (list (list Button)) :=
  match reply_markup m with
  | Some (ReplyInlineMarkup rows) | Some (ReplyKeyboardMarkup rows) => Some rows
  | Some ReplyKeyboardHide | Some ReplyKeyboardForceReply | None => None
  end.

(** The markup objects on which [reply_markup.rows] is an AttributeError,
    by the name of their class. *)
Definition rows_missing (m : Message) : option string :=
  match reply_markup m with
  | Some ReplyKeyboardHide => Some "ReplyKeyboardHide"
  | Some ReplyKeyboardForceReply => Some "ReplyKeyboardForceReply"
  | Some (ReplyInlineMarkup _) | Some (ReplyKeyboardMarkup _) | None => None
  end.

(** What [client.get_entity] returns, as far as the flow reads it. *)
Record Entity : Type := mkEntity { ent_id : Z; access_hash : Z }.

(** The dict returned by [send_ppv]. *)
Record FlowResult : Type := mkResult {
  status : string;
  message : string;
  username_of : string
}.

(** ** Exceptions *)

Inductive Exception : Type :=
| PPVFlowError (msg : string)
| RuntimeError (msg : string)
| TimeoutError
| AttributeError (msg : string)
| OtherException (msg : string).

(** [str(e)] *)
Definition str_exc (e : Exception) : string :=
  match e with
  | PPVFlowError msg | RuntimeError msg | AttributeError msg | OtherException msg => msg
  | TimeoutError => ""
  end.

Inductive Res (A : Type) : Type :=
| Ok (a : A)
| Raise (e : Exception).
Arguments Ok {A} a.
Arguments Raise {A} e.

(** ** Calls, log lines and the history *)

(** The log lines the properties below refer to. *)
Inductive LogLine : Type :=
| LogSwitching (bot_username : string)     (* business_settings.py:38 *)
| LogTimeout (timeout : Z)                 (* ppv_flow.py:172 *)
| LogHandlingSelection (username : string) (* ppv_flow.py:223 *)
| LogNoEmptyButton                         (* ppv_flow.py:373 *)
| LogEstablishing (username : string)      (* ppv_flow.py:420 *)
| LogQuickMessageFailed                    (* ppv_flow.py:439 *)
| LogClickingTryAgain                      (* ppv_flow.py:443 *)
| LogSwitchBackFailed.                     (* main.py:126 *)

Inductive Event : Type :=
| EvIsConnected
| EvConnect
| EvIsUserAuthorized
| EvHttpGet (url : string)
| EvGetEntity (name : string)
| EvUpdateConnectedBot (bot : Entity)
| EvConversation (bot : Entity)
| EvConvSendMessage (text : string)
| EvConvSendFile (name content : string)
| EvGetResponse (timeout : Z)
| EvButtonClick (message_id : Z) (row_idx btn_idx : nat) (b : Button)
| EvMessageClick (message_id : Z) (data : string)
| EvSendBotRequestedPeer (bot : Entity) (message_id button_id user_id user_hash : Z)
| EvClientSendMessage (to : Entity) (text : string)
| EvSleep (seconds : Z)
| EvDelete (message_id : Z)
| EvLog (line : LogLine).

(** Newest event first. *)
Definition History : Type := list Event.

(** The outside world: it answers a call knowing the history, whose head is
    the call being answered.  One field per type of answer. *)
Record Env : Type := mkEnv {
  ext_unit : History -> Res unit;
  ext_bool : History -> Res bool;
  ext_bytes : History -> Res string;
  ext_entity : History -> Res Entity;
  ext_message : History -> Res Message;
  ext_sent : History -> Res Z
}.

(** ** The monad of the flow *)

Definition M (A : Type) : Type := History -> Res A * History.

Definition ret {A} (a : A) : M A := fun h => (Ok a, h).

Definition raise {A} (e : Exception) : M A := fun h => (Raise e, h).

Definition bind {A B} (m : M A) (f : A -> M B) : M B :=
  fun h =>
    match m h with
    | (Ok a, h') => f a h'
    | (Raise e, h') => (Raise e, h')
    end.

(** [try: m  except <class> as e: handler e]; [select] says which exceptions
    the clause catches. *)
Definition catch {A} (m : M A) (select : Exception -> option (M A)) : M A :=
  fun h =>
    match m h with
    | (Ok a, h') => (Ok a, h')
    | (Raise e, h') =>
        match select e with
        | Some handler => handler h'
        | None => (Raise e, h')
        end
    end.

(** [try: m  finally: cleanup] *)
Definition try_finally {A} (m : M A) (cleanup : M unit) : M A :=
  fun h =>
    let (r, h1) := m h in
    match cleanup h1 with
    | (Ok _, h2) => (r, h2)
    | (Raise e, h2) => (Raise e, h2)
    end.

Definition log (line : LogLine) : M unit := fun h => (Ok tt, EvLog line :: h).

Declare Scope flow_scope.
Delimit Scope flow_scope with flow.
Notation "x <- m ;; k" := (bind m (fun x => k))
  (at level 100, m at next level, right associativity) : flow_scope.
Notation "m ;; k" := (bind m (fun _ => k))
  (at level 100, right associativity) : flow_scope.
Open Scope flow_scope.

(** [except Exception as e] *)
Definition any_exception {A} (handler : Exception -> M A) : Exception -> option (M A) :=
  fun e => Some (handler e).

(** [except PPVFlowError] *)
Definition only_PPVFlowError {A} (handler : M A) : Exception -> option (M A) :=
  fun e => match e with PPVFlowError _ => Some handler | _ => None end.

(** [except asyncio.TimeoutError] *)
Definition only_TimeoutError {A} (handler : M A) : Exception -> option (M A) :=
  fun e => match e with TimeoutError => Some handler | _ => None end.

(** [message.text.lower()], which raises on [None]. *)
Definition text_lower (m : Message) : M string :=
  match msg_text m with
  | Some t => ret (lower t)
  | None => raise (AttributeError "'NoneType' object has no attribute 'lower'")
  end.

(** config.py, with the defaults it falls back to. *)
Definition STACCERBOT_USERNAME : string := "staccerbot".
Definition KIMFEETGURU_BOT_USERNAME : string := "kimfeetguru_bot".

Section Flow.

Variable env : Env.

Definition call {A} (ev : Event) (answer : Env -> History -> Res A) : M A :=
  fun h => (answer env (ev :: h), ev :: h).

(** *** telegram_client.py *)

(** [ensure_connected], on the client that [get_client] returns; building
    the client is modelled with the session tooling, further down. *)
Definition ensure_connected : M unit :=
  connected <- call EvIsConnected ext_bool ;;
  (if negb connected then call EvConnect ext_unit else ret tt) ;;
  authorized <- call EvIsUserAuthorized ext_bool ;;
  if negb authorized
  then raise (RuntimeError
    "Client is not authorized. Please run generate_session() first to authenticate and generate a SESSION_STRING.")
  else ret tt.

(** *** business_settings.py *)

Definition _switch_business_bot (bot_username : string) : M bool :=
  log (LogSwitching bot_username) ;;
  catch (bot_entity <- call (EvGetEntity bot_username) ext_entity ;;
         call (EvUpdateConnectedBot bot_entity) ext_unit ;;
         ret true)
        (any_exception (fun e => raise e)).

Definition switch_to_staccerbot : M bool := _switch_business_bot STACCERBOT_USERNAME.

Definition switch_to_kimfeetguru : M bool := _switch_business_bot KIMFEETGURU_BOT_USERNAME.

(** *** ppv_flow.py *)

Definition download_photo (url : string) : M string := call (EvHttpGet url) ext_bytes.

Definition wait_for_response (timeout : Z) : M Message :=
  catch (call (EvGetResponse timeout) ext_message)
        (only_TimeoutError
           (log (LogTimeout timeout) ;;
            raise (PPVFlowError ("Bot did not respond within " ++ str_int timeout ++ " seconds")))).

(** The label test of [find_and_click_button].  [str_lower] stands for
    [str.lower], whose case table covers all of Unicode and is not part of
    this program: the resolver is defined for any lowering function. *)
Definition label_matches_with (str_lower : string -> string) (button_text : string)
    (b : Button) : bool :=
  str_in (str_lower button_text) (str_lower (btn_text b)).

(** The inner [for] of [find_and_click_button]: [true] is its [return True].
    [button.click()] is one call of the library, answered by the
    environment; what the click sends to the bot depends on the class of the
    button (a callback query for an inline button, the label as a text
    message for a plain keyboard button). *)
Fixpoint click_in_row (str_lower : string -> string) (message_id : Z)
    (button_text : string) (row_idx btn_idx : nat) (row : list Button) : M bool :=
  match row with
  | [] => ret false
  | button :: rest =>
      if label_matches_with str_lower button_text button
      then call (EvButtonClick message_id row_idx btn_idx button) ext_unit ;; ret true
      else click_in_row str_lower message_id button_text row_idx (S btn_idx) rest
  end.

Fixpoint click_in_rows (str_lower : string -> string) (message_id : Z)
    (button_text : string) (row_idx : nat) (rows : list (list Button)) : M bool :=
  match rows with
  | [] => ret false
  | row :: rest =>
      clicked <- click_in_row str_lower message_id button_text row_idx 0 row ;;
      if clicked then ret true
      else click_in_rows str_lower message_id button_text (S row_idx) rest
  end.

Definition find_and_click_button_with (str_lower : string -> string) (m : Message)
    (button_text : string) : M bool :=
  match buttons m with
  | None | Some [] => ret false
  | Some rows => click_in_rows str_lower (msg_id m) button_text 0 rows
  end.

(** The searches of the flow itself, for "Empty" and for "Try again", go
    through [lower]. *)
Definition label_matches : string -> Button -> bool := label_matches_with lower.

Definition find_and_click_button : Message -> string -> M bool :=
  find_and_click_button_with lower.

(** The scan of [handle_user_selection] for the RequestPeer button: rows in
    order, buttons of a row in order, stop at the first one. *)
Fixpoint request_peer_in_row (row : list Button) : option Z :=
  match row with
  | [] => None
  | button :: rest =>
      match btn_kind button with
      | KeyboardButtonRequestPeer button_id _ _ => Some button_id
      | _ => request_peer_in_row rest
      end
  end.

Fixpoint request_peer_in_rows (rows : list (list Button)) : option Z :=
  match rows with
  | [] => None
  | row :: rest =>
      match request_peer_in_row row with
      | Some button_id => Some button_id
      | None => request_peer_in_rows rest
      end
  end.

(** The AttributeError of [reply_markup.rows] on an object of the class
    [type_name]. *)
Definition rows_attribute_error (type_name : string) : Exception :=
  AttributeError ("'" ++ type_name ++ "' object has no attribute 'rows'").

(** What the scan leaves in [button_id] when [reply_markup.rows] can be read. *)
Definition find_request_peer (m : Message) : option Z :=
  match buttons m with
  | Some rows => request_peer_in_rows rows
  | None => None
  end.

(** Line 235 reads [message.reply_markup.rows] of any markup there is, so a
    markup without rows ends the call there, before [button_id] is tested. *)
Definition handle_user_selection (m : Message) (username : string) : M Message :=
  log (LogHandlingSelection username) ;;
  let clean_username := lstrip_at username in
  match rows_missing m with
  | Some type_name => raise (rows_attribute_error type_name)
  | None =>
  match find_request_peer m with
  | None => raise (PPVFlowError "Could not find user selection button")
  | Some button_id =>
      target_user <-
        catch (call (EvGetEntity clean_username) ext_entity)
              (any_exception (fun e =>
                 raise (PPVFlowError
                   ("Could not find user @" ++ clean_username ++ ": " ++ str_exc e)))) ;;
      staccerbot <- call (EvGetEntity STACCERBOT_USERNAME) ext_entity ;;
      catch (call (EvSendBotRequestedPeer staccerbot (msg_id m) button_id
                     (ent_id target_user) (access_hash target_user)) ext_unit)
            (any_exception (fun e =>
               raise (PPVFlowError ("Failed to select user: " ++ str_exc e)))) ;;
      wait_for_response 30
  end
  end.

(** Lines 419-440 of [send_ppv]: the quick message to the target and its
    withdrawal, inside their [try]/[except Exception]. *)
Definition establish_contact (username : string) : M unit :=
  log (LogEstablishing username) ;;
  catch (let clean_username := lstrip_at username in
         target_user <- call (EvGetEntity clean_username) ext_entity ;;
         quick_msg <- call (EvClientSendMessage target_user "Hey! ðŸ‘‹") ext_sent ;;
         call (EvSleep 2) ext_unit ;;
         call (EvDelete quick_msg) ext_unit)
        (any_exception (fun _ => log LogQuickMessageFailed)).

(** Lines 442-450: the retry control, by payload and then by label. *)
Definition click_try_again (response : Message) : M unit :=
  log LogClickingTryAgain ;;
  catch (call (EvMessageClick (msg_id response) "sell_refresh") ext_unit)
        (any_exception (fun _ =>
           clicked <- find_and_click_button response "Try again" ;;
           if negb clicked
           then raise (PPVFlowError "Could not find 'Try again' button")
           else ret tt)).

Definition max_retries : nat := 2.

(** The test of line 411 on the lowered text. *)
Definition is_rejection (t : string) : bool :=
  str_in "no exchange" t || str_in "48h" t.

(** The [while retry_count <= max_retries] loop of step 5.  [fuel] counts the
    iterations left; [send_ppv] gives it [S max_retries], and
    [peer_selection_loop_fuel] shows that no more is ever needed. *)
Fixpoint peer_selection_loop (username : string) (fuel retry_count : nat)
    (response : Message) : M Message :=
  match fuel with
  | 0 => ret response
  | S fuel' =>
      if (retry_count <=? max_retries)%nat then
        response <- handle_user_selection response username ;;
        t <- text_lower response ;;
        if is_rejection t then
          let retry_count := retry_count + 1 in
          if (max_retries <? retry_count)%nat then
            raise (PPVFlowError
              "Cannot send PPV: no recent exchange with user and retries exhausted")
          else
            establish_contact username ;;
            click_try_again response ;;
            response <- wait_for_response 30 ;;
            peer_selection_loop username fuel' retry_count response
        else ret response
      else ret response
  end.

(** Step 3, lines 372-376. *)
Definition caption_step (response : Message) : M Message :=
  clicked <- find_and_click_button response "Empty" ;;
  (if negb clicked
   then log LogNoEmptyButton ;; call (EvConvSendMessage "Empty") ext_unit
   else ret tt) ;;
  wait_for_response 30.

(** Lines 310-390: download, the bot entity, the conversation and steps 1-4;
    the result is the prompt of step 5. *)
Definition steps_1_to_4 (photo_url : string) (stars : Z) : M Message :=
  photo_bytes <-
    catch (download_photo photo_url)
          (any_exception (fun e =>
             raise (PPVFlowError ("Failed to download photo: " ++ str_exc e)))) ;;
  staccerbot <-
    catch (call (EvGetEntity STACCERBOT_USERNAME) ext_entity)
          (any_exception (fun e =>
             raise (PPVFlowError
               ("Failed to find @" ++ STACCERBOT_USERNAME ++ ": " ++ str_exc e)))) ;;
  call (EvConversation staccerbot) ext_unit ;;
  call (EvConvSendMessage "/sell") ext_unit ;;
  response <- wait_for_response 30 ;;
  text_lower response ;;
  call (EvConvSendFile "photo.jpg" photo_bytes) ext_unit ;;
  response <- wait_for_response 30 ;;
  response <- caption_step response ;;
  call (EvConvSendMessage (str_int stars)) ext_unit ;;
  wait_for_response 30.

Definition sent_successfully (username : string) : FlowResult :=
  mkResult "success" "PPV sent successfully" username.

Definition submitted_for_sending (username : string) : FlowResult :=
  mkResult "success" "PPV submitted for sending" username.

Definition flow_completed (username : string) : FlowResult :=
  mkResult "success" "PPV flow completed" username.

(** Lines 471-498: the wait for the final confirmation.  The [try] yields
    [Some] at its two [return]s and [None] when it falls through. *)
Definition final_confirmation (username : string) (response : Message) : M FlowResult :=
  returned <-
    catch (final_response <- wait_for_response 60 ;;
           t <- text_lower final_response ;;
           if str_in "done" t || str_in "sent" t
           then ret (Some (sent_successfully username))
           else ret None)
          (only_PPVFlowError
             (t <- text_lower response ;;
              if str_in "preparing" t
              then ret (Some (submitted_for_sending username))
              else ret None)) ;;
  match returned with
  | Some result => ret result
  | None => ret (flow_completed username)
  end.

Definition send_ppv (photo_url username : string) (stars : Z) : M FlowResult :=
  response <- steps_1_to_4 photo_url stars ;;
  response <- peer_selection_loop username (S max_retries) 0 response ;;
  final_confirmation username response.

(** *** main.py *)

Record SendPPVRequest : Type := mkRequest {
  photo_url : string;
  username : string;
  stars : Z
}.

(** What the service answers: the body of a 200, or the message of the 500
    that [http_exception_handler] builds. *)
Inductive HttpResponse : Type :=
| Http200 (body : FlowResult)
| Http500 (detail : string).

(** The [finally] block of the endpoint. *)
Definition switch_back : M unit :=
  catch (switch_to_kimfeetguru ;; ret tt)
        (any_exception (fun _ => log LogSwitchBackFailed)).

(** The [except] clauses of the endpoint, in their order. *)
Definition respond (r : Res FlowResult) : HttpResponse :=
  match r with
  | Ok result => Http200 result
  | Raise (RuntimeError msg) => Http500 msg
  | Raise (PPVFlowError msg) => Http500 msg
  | Raise e => Http500 ("Unexpected error: " ++ str_exc e)
  end.

Definition send_ppv_endpoint (request : SendPPVRequest) : History -> HttpResponse * History :=
  fun h =>
    let (r, h') :=
      (ensure_connected ;;
       switch_to_staccerbot ;;
       try_finally
         (send_ppv (photo_url request) (username request) (stars request))
         switch_back) h in
    (respond r, h').

End Flow.

(** ** Transport stubs

    A scripted environment: the bot's replies are read off [script] in order
    (a timeout once the script is exhausted), the calls selected by [faults]
    fail, every other call succeeds. *)

Definition is_get_response (ev : Event) : bool :=
  match ev with EvGetResponse _ => true | _ => false end.

Definition answer {A} (faults : Event -> option Exception) (a : A) (h : History) : Res A :=
  match h with
  | ev :: _ => match faults ev with Some e => Raise e | None => Ok a end
  | [] => Ok a
  end.

Definition scripted (faults : Event -> option Exception) (script : list (Res Message)) : Env :=
  {| ext_unit := answer faults tt;
     ext_bool := answer faults true;
     ext_bytes := answer faults "JFIF";
     ext_entity := answer faults (mkEntity 42 4242);
     ext_message := fun h =>
       nth (length (filter is_get_response h) - 1) script (Raise TimeoutError);
     ext_sent := answer faults 1001%Z |}.

Definition no_faults : Event -> option Exception := fun _ => None.

Definition text_message (id : Z) (text : string) : Message :=
  mkMessage id (Some text) None.

Definition keyboard_message (id : Z) (text : string) (rows : list (list Button)) : Message :=
  mkMessage id (Some text) (Some (ReplyInlineMarkup rows)).

(** The same with a reply keyboard, where Telegram puts a RequestPeer button. *)
Definition reply_keyboard_message (id : Z) (text : string) (rows : list (list Button)) : Message :=
  mkMessage id (Some text) (Some (ReplyKeyboardMarkup rows)).

Definition select_user_button : Button :=
  mkButton "Select User" (KeyboardButtonRequestPeer 7 "RequestPeerTypeUser" 1).

(** The six replies of the scripted scenario. *)
Definition scenario_script : list (Res Message) :=
  [ Ok (text_message 1 "Will do... send a photo");
    Ok (keyboard_message 2 "Looks good... caption"
          [[mkButton "Empty" (KeyboardButtonCallback "sell_empty")]]);
    Ok (text_message 3 "How many stars");
    Ok (keyboard_message 4 "Bet, select user" [[select_user_button]]);
    Ok (text_message 5 "On it boss, preparing");
    Ok (text_message 6 "Done deal, PPV sent") ].

Definition alice_request : SendPPVRequest :=
  mkRequest "https://i.ibb.co/27798Dwj/file.jpg" "@alice" 100.

Definition select_user_prompt : Message :=
  keyboard_message 4 "Bet, select user" [[select_user_button]].

(** The scenario without its last reply: the final wait runs out of time
    after "On it boss, preparing". *)
Definition preparing_script : list (Res Message) := firstn 5 scenario_script.

(** The same with an accepted response that does not say "preparing". *)
Definition on_it_script : list (Res Message) :=
  firstn 4 scenario_script ++ [Ok (text_message 5 "On it boss")].

(** A prompt that carries a markup without rows. *)
Definition hidden_keyboard_prompt : Message :=
  mkMessage 4 (Some "Bet, select user") (Some ReplyKeyboardHide).

Definition try_again_button : Button :=
  mkButton "Try again" (KeyboardButtonCallback "sell_refresh").

(** The rejection, with the peer request offered again. *)
Definition rejecting_message : Message :=
  keyboard_message 9 "No exchange in 48h with this user"
    [[select_user_button]; [try_again_button]].

(** A rejection that offers no retry control. *)
Definition bare_rejection : Message :=
  keyboard_message 5 "No exchange in 48h with this user" [[select_user_button]].

(** The transport that answers every wait with [rejecting_message]. *)
Definition rejecting_env : Env :=
  {| ext_unit := fun _ => Ok tt;
     ext_bool := fun _ => Ok true;
     ext_bytes := fun _ => Ok "JFIF";
     ext_entity := fun _ => Ok (mkEntity 42 4242);
     ext_message := fun _ => Ok rejecting_message;
     ext_sent := fun _ => Ok 1001%Z |}.

(** Fault injections. *)
Definition restore_fails (ev : Event) : option Exception :=
  match ev with
  | EvGetEntity name =>
      if String.eqb name KIMFEETGURU_BOT_USERNAME
      then Some (OtherException "FLOOD_WAIT") else None
  | _ => None
  end.

Definition target_unknown (ev : Event) : option Exception :=
  match ev with
  | EvGetEntity name =>
      if String.eqb name "alice"
      then Some (OtherException "No user has alice as username") else None
  | _ => None
  end.

Definition greeting_fails (ev : Event) : option Exception :=
  match ev with
  | EvClientSendMessage _ _ => Some (OtherException "PEER_FLOOD")
  | _ => None
  end.

Definition retry_click_fails (ev : Event) : option Exception :=
  match ev with
  | EvMessageClick _ _ => Some (OtherException "DATA_INVALID")
  | _ => None
  end.

(** A lowering that also folds the capitals of Latin-1, two bytes each in
    UTF-8 ([C3 80] to [C3 9E], the multiplication sign [C3 97] apart), the
    way [str.lower] does. *)
Definition is_latin1_capital (c1 c2 : ascii) : bool :=
  let n := nat_of_ascii c2 in
  Nat.eqb (nat_of_ascii c1) 195 && Nat.leb 128 n && Nat.leb n 158 && negb (Nat.eqb n 151).

Fixpoint lower_latin1 (s : string) : string :=
  match s with
  | EmptyString => EmptyString
  | String c1 tail =>
      match tail with
      | String c2 rest =>
          if is_latin1_capital c1 c2
          then String c1 (String (ascii_of_nat (nat_of_ascii c2 + 32)) (lower_latin1 rest))
          else String (lower_ascii c1) (lower_latin1 tail)
      | EmptyString => String (lower_ascii c1) EmptyString
      end
  end.

(** A caption prompt whose second control is the one to click. *)
Definition caption_prompt : Message :=
  keyboard_message 2 "Looks good... caption"
    [[mkButton "Cancel" (KeyboardButtonCallback "sell_cancel");
      mkButton "Empty ✨" (KeyboardButtonCallback "sell_empty")]].

(** ** Vocabulary of the properties *)

Open Scope list_scope.
Open Scope nat_scope.

Definition count_events (P : Event -> bool) (h : History) : nat :=
  length (filter P h).

(** An entry into [switch_to_kimfeetguru]. *)
Definition is_restore (ev : Event) : bool :=
  match ev with
  | EvLog (LogSwitching name) => String.eqb name KIMFEETGURU_BOT_USERNAME
  | _ => false
  end.

(** An entry into [handle_user_selection]. *)
Definition is_selection_attempt (ev : Event) : bool :=
  match ev with EvLog (LogHandlingSelection _) => true | _ => false end.

Definition is_peer_reply (ev : Event) : bool :=
  match ev with EvSendBotRequestedPeer _ _ _ _ _ => true | _ => false end.

(** [m] only adds events, at most [n] of them of the kind [P], wherever it
    starts. *)
Definition emits_at_most {A} (P : Event -> bool) (n : nat) (m : M A) : Prop :=
  forall h, exists evs, snd (m h) = evs ++ h /\ count_events P evs <= n.

Definition bot_timeout : Exception :=
  PPVFlowError "Bot did not respond within 30 seconds".

(** The newest call of [h] is a wait of 30 seconds that the transport let
    run out of time.  The answer to a call is a function of the history that
    ends with it, so the history tells. *)
Definition wait_timed_out (env : Env) (h : History) : bool :=
  match h with
  | EvGetResponse t :: _ =>
      Z.eqb t 30 &&
      match ext_message env h with Raise TimeoutError => true | _ => false end
  | _ => false
  end.

(** A wait that is not one of 30 seconds. *)
Definition is_other_wait (ev : Event) : bool :=
  match ev with EvGetResponse t => negb (Z.eqb t 30) | _ => false end.

(** The number of waits of 30 seconds in [h] that ran out of time. *)
Fixpoint timed_out_waits (env : Env) (h : History) : nat :=
  match h with
  | [] => 0
  | _ :: earlier =>
      (if wait_timed_out env h then 1 else 0) + timed_out_waits env earlier
  end.

(** [m] only adds events, and either no wait of 30 seconds among them ran
    out of time or [m] raised [bot_timeout]. *)
Definition timeout_aborts (env : Env) {A} (m : M A) : Prop :=
  forall h, exists evs,
    snd (m h) = evs ++ h /\
    (timed_out_waits env (evs ++ h) = timed_out_waits env h \/
     fst (m h) = Raise bot_timeout).

(** [m] returns normally from every history, with a value in [Q]. *)
Definition returns {A} (m : M A) (Q : A -> Prop) : Prop :=
  forall h, exists a, fst (m h) = Ok a /\ Q a.

(** The selection made on [prompt] at [h] goes through and is answered, at
    [h'], by [response], whose text carries a rejection marker. *)
Definition selection_rejected (env : Env) (u : string) (prompt : Message) (h : History)
    (response : Message) (h' : History) : Prop :=
  handle_user_selection env prompt u h = (Ok response, h') /\
  exists t, msg_text response = Some t /\ is_rejection (lower t) = true.

(** The recovery after the rejection [response] at [h]: after the Contact
    Establisher the retry control goes through, and the bot answers, at
    [h'], with the prompt [next]. *)
Definition retried (env : Env) (u : string) (response : Message) (h : History)
    (next : Message) (h' : History) : Prop :=
  exists clicked,
    click_try_again env response (snd (establish_contact env u h)) = (Ok tt, clicked) /\
    wait_for_response env 30 clicked = (Ok next, h').

(** From [prompt] at [h], the selection is rejected [S k] times, with a
    recovery after each rejection but the last, which is reached at
    [h_end].  Nothing is said of the transport outside these calls. *)
Fixpoint rejected_rounds (env : Env) (u : string) (k : nat) (prompt : Message)
    (h h_end : History) : Prop :=
  match k with
  | 0 => exists response, selection_rejected env u prompt h response h_end
  | S k' =>
      exists response h1 next h2,
        selection_rejected env u prompt h response h1 /\
        retried env u response h1 next h2 /\
        rejected_rounds env u k' next h2 h_end
  end.

(** A transport that rejects every selection: the peers resolve and the
    structured reply goes through, the response that follows a structured
    reply carries a rejection marker, the retry payload goes through and is
    followed by a prompt that offers the peer request again.  Nothing is
    said of the dialogue before the selection prompt. *)
Definition rejects_selections (env : Env) : Prop :=
  (forall name h, exists e, ext_entity env (EvGetEntity name :: h) = Ok e) /\
  (forall bot mid bid uid uh h,
      ext_unit env (EvSendBotRequestedPeer bot mid bid uid uh :: h) = Ok tt) /\
  (forall bot mid bid uid uh h, exists m t,
      ext_message env (EvGetResponse 30 :: EvSendBotRequestedPeer bot mid bid uid uh :: h)
      = Ok m /\
      msg_text m = Some t /\ is_rejection (lower t) = true) /\
  (forall mid h, ext_unit env (EvMessageClick mid "sell_refresh" :: h) = Ok tt) /\
  (forall mid h, exists m,
      ext_message env (EvGetResponse 30 :: EvMessageClick mid "sell_refresh" :: h) = Ok m /\
      find_request_peer m <> None).

(** A response that rejects the selection and offers it again. *)
Definition rejected_prompt (m : Message) : Prop :=
  exists t, msg_text m = Some t /\ is_rejection (lower t) = true /\
            find_request_peer m <> None.

(** The control at row [i], column [j]. *)
Definition control_at (rows : list (list Button)) (i j : nat) : option Button :=
  match nth_error rows i with
  | Some row => nth_error row j
  | None => None
  end.

Definition row_major_before (i' j' i j : nat) : Prop :=
  i' < i \/ (i' = i /\ j' < j).

(** [b], at [(i, j)], is the first control in row-major order that
    satisfies [p]. *)
Definition first_control (p : Button -> bool) (rows : list (list Button))
    (i j : nat) (b : Button) : Prop :=
  control_at rows i j = Some b /\ p b = true /\
  forall i' j' b',
    row_major_before i' j' i j -> control_at rows i' j' = Some b' -> p b' = false.

Definition no_control (p : Button -> bool) (m : Message) : Prop :=
  forall rows i j b,
    buttons m = Some rows -> control_at rows i j = Some b -> p b = false.

Definition is_request_peer (b : Button) : bool :=
  match btn_kind b with KeyboardButtonRequestPeer _ _ _ => true | _ => false end.

Definition request_peer_id (b : Button) : option Z :=
  match btn_kind b with KeyboardButtonRequestPeer id _ _ => Some id | _ => None end.

(** Row-major search, with the position. *)
Fixpoint first_in_row (p : Button -> bool) (j : nat) (row : list Button)
    : option (nat * Button) :=
  match row with
  | [] => None
  | b :: rest => if p b then Some (j, b) else first_in_row p (S j) rest
  end.

Fixpoint first_in_rows (p : Button -> bool) (i : nat) (rows : list (list Button))
    : option (nat * nat * Button) :=
  match rows with
  | [] => None
  | row :: rest =>
      match first_in_row p 0 row with
      | Some (j, b) => Some (i, j, b)
      | None => first_in_rows p (S i) rest
      end
  end.

(** The ContactNotEstablished failure of line 417. *)
Definition contact_not_established : Exception :=
  PPVFlowError "Cannot send PPV: no recent exchange with user and retries exhausted".

(** The ControlNotFound failure of line 247. *)
Definition control_not_found : Exception :=
  PPVFlowError "Could not find user selection button".

(** The PeerNotFound failure of line 255. *)
Definition peer_not_found (username : string) (e : Exception) : Exception :=
  PPVFlowError ("Could not find user @" ++ lstrip_at username ++ ": " ++ str_exc e)%string.

(** The failure of line 450. *)
Definition retry_control_not_found : Exception :=
  PPVFlowError "Could not find 'Try again' button".

(** Any wait that ran out of time, the final one included. *)
Definition is_timeout (ev : Event) : bool :=
  match ev with EvLog (LogTimeout _) => true | _ => false end.

(** A call of the Contact Establisher that only it makes. *)
Definition is_establisher_call (ev : Event) : bool :=
  match ev with
  | EvClientSendMessage _ _ | EvSleep _ | EvDelete _ => true
  | _ => false
  end.

(** A transport that answers every wait with a rejection that still offers
    the peer request, and on which nothing fails outside the Contact
    Establisher. *)
Definition always_rejects (env : Env) : Prop :=
  (forall h, exists m t,
      ext_message env h = Ok m /\ msg_text m = Some t /\
      is_rejection (lower t) = true /\ find_request_peer m <> None) /\
  (forall h, exists e, ext_entity env h = Ok e) /\
  (forall h, exists b, ext_bytes env h = Ok b) /\
  (forall ev h, is_establisher_call ev = false -> ext_unit env (ev :: h) = Ok tt).

(** ** Vocabulary of the further properties *)

(** A wait with the given timeout. *)
Definition is_wait (timeout : Z) (ev : Event) : bool :=
  match ev with EvGetResponse t => Z.eqb t timeout | _ => false end.

Definition is_send_file (ev : Event) : bool :=
  match ev with EvConvSendFile _ _ => true | _ => false end.

(** A click by payload, [message.click(data=...)]. *)
Definition is_retry_click (ev : Event) : bool :=
  match ev with EvMessageClick _ _ => true | _ => false end.

(** A message sent to the target user. *)
Definition is_greeting (ev : Event) : bool :=
  match ev with EvClientSendMessage _ _ => true | _ => false end.

Definition is_delete (ev : Event) : bool :=
  match ev with EvDelete _ => true | _ => false end.

(** An entry into the Contact Establisher. *)
Definition is_establishing (ev : Event) : bool :=
  match ev with EvLog (LogEstablishing _) => true | _ => false end.

(** An entry into [_switch_business_bot], for either bot. *)
Definition is_switching (ev : Event) : bool :=
  match ev with EvLog (LogSwitching _) => true | _ => false end.

(** The RuntimeError of [ensure_connected]. *)
Definition not_authorized : string :=
  "Client is not authorized. Please run generate_session() first to authenticate and generate a SESSION_STRING.".

(** The scenario with one rejection before the selection is accepted. *)
Definition retry_script : list (Res Message) :=
  firstn 4 scenario_script ++
  [ Ok rejecting_message;
    Ok (keyboard_message 10 "Bet, select user" [[select_user_button]]);
    Ok (text_message 11 "On it boss, preparing");
    Ok (text_message 12 "Done deal, PPV sent") ].

(** The rejection as the bot shows it: the text and the retry control. *)
Definition rejection_notice (id : Z) : Message :=
  keyboard_message id "No exchange in 48h with this user" [[try_again_button]].

(** The selection prompt, on a reply keyboard. *)
Definition selection_prompt (id : Z) : Message :=
  reply_keyboard_message id "Bet, select user" [[select_user_button]].

(** The scenario up to the selection prompt, then three rejected selections
    with the prompt shown again after each retry. *)
Definition three_rejections_script : list (Res Message) :=
  firstn 4 scenario_script ++
  [ Ok (rejection_notice 5); Ok (selection_prompt 6);
    Ok (rejection_notice 7); Ok (selection_prompt 8);
    Ok (rejection_notice 9) ].

(** A transport that plays the scenario up to the selection prompt, rejects
    every selection and shows the prompt again after every retry. *)
Definition selection_rejecting_env : Env :=
  {| ext_unit := fun _ => Ok tt;
     ext_bool := fun _ => Ok true;
     ext_bytes := fun _ => Ok "JFIF";
     ext_entity := fun _ => Ok (mkEntity 42 4242);
     ext_message := fun h =>
       match h with
       | EvGetResponse _ :: EvSendBotRequestedPeer _ _ _ _ _ :: _ => Ok (rejection_notice 5)
       | EvGetResponse _ :: EvMessageClick _ _ :: _ => Ok (selection_prompt 6)
       | _ => nth (length (filter is_get_response h) - 1) scenario_script (Raise TimeoutError)
       end;
     ext_sent := fun _ => Ok 1001%Z |}.

(** main.py, lines 48-57: the startup half of [lifespan].  Both [except]
    clauses only log. *)
Definition lifespan_startup (env : Env) : M unit :=
  catch (ensure_connected env)
        (fun e => match e with
                  | RuntimeError _ => Some (ret tt)
                  | _ => Some (ret tt)
                  end).

(** Fault injections for the service. *)
Definition not_connected_unauthorized : Env :=
  {| ext_unit := fun _ => Ok tt;
     ext_bool := fun _ => Ok false;
     ext_bytes := fun _ => Ok "JFIF";
     ext_entity := fun _ => Ok (mkEntity 42 4242);
     ext_message := fun _ => Raise TimeoutError;
     ext_sent := fun _ => Ok 1001%Z |}.

Definition update_fails (ev : Event) : option Exception :=
  match ev with
  | EvUpdateConnectedBot _ => Some (OtherException "BOT_BUSINESS_MISSING")
  | _ => None
  end.

Definition download_fails (ev : Event) : option Exception :=
  match ev with
  | EvHttpGet _ => Some (OtherException "404 Not Found")
  | _ => None
  end.

Definition bot_unknown (ev : Event) : option Exception :=
  match ev with
  | EvGetEntity name =>
      if String.eqb name STACCERBOT_USERNAME
      then Some (OtherException "No user has staccerbot as username") else None
  | _ => None
  end.

(** [k] at-signs. *)
Fixpoint at_signs (k : nat) : string :=
  match k with
  | 0 => EmptyString
  | S k' => String "@"%char (at_signs k')
  end.

(** The exception Python raises for [None.lower()]. *)
Definition no_lower : Exception :=
  AttributeError "'NoneType' object has no attribute 'lower'".

(** telegram_client.py, line 73: the test of [generate_session] for a
    sign-in that asks for the password. *)
Definition needs_password_client (error : string) : bool :=
  str_in "Two-steps verification" error || str_in "password" (lower error).

(** generate_session.py, lines 46-47: the same test in the script. *)
Definition needs_password_script (error : string) : bool :=
  let error_msg := lower error in
  str_in "two-steps verification" error_msg || str_in "password" error_msg
  || str_in "2fa" error_msg.

(** ** The client singleton and the session generators

    telegram_client.py and generate_session.py.  The calls are those made
    on the Telethon client and the [input] prompts; [print] is left out.
    The world also holds the module variable [_client]. *)

Inductive SetupCall : Type :=
| ScIsConnected
| ScConnect
| ScIsUserAuthorized
| ScInput (prompt : string)
| ScSendCodeRequest (phone : string)
| ScSignIn (phone code : string)
| ScSignInPassword (password : string)
| ScSessionSave
| ScDisconnect.

(** [TelegramClient(session, API_ID, API_HASH)]: [Some s] is
    [StringSession(s)], [None] the empty [StringSession()]. *)
Record TelegramClient : Type := mkClient { client_session : option string }.

Record SetupWorld : Type := mkWorld {
  slot : option TelegramClient;   (* _client *)
  calls : list SetupCall          (* newest first *)
}.

Record SetupEnv : Type := mkSetupEnv {
  su_unit : list SetupCall -> Res unit;
  su_bool : list SetupCall -> Res bool;
  su_text : list SetupCall -> Res string
}.

Definition Setup (A : Type) : Type := SetupWorld -> Res A * SetupWorld.

Definition sret {A} (a : A) : Setup A := fun w => (Ok a, w).

Definition sraise {A} (e : Exception) : Setup A := fun w => (Raise e, w).

Definition sbind {A B} (m : Setup A) (f : A -> Setup B) : Setup B :=
  fun w =>
    match m w with
    | (Ok a, w') => f a w'
    | (Raise e, w') => (Raise e, w')
    end.

(** [try: m  except Exception as e: handler e] *)
Definition scatch {A} (m : Setup A) (handler : Exception -> Setup A) : Setup A :=
  fun w =>
    match m w with
    | (Ok a, w') => (Ok a, w')
    | (Raise e, w') => handler e w'
    end.

Declare Scope setup_scope.
Delimit Scope setup_scope with setup.
Notation "x <- m ;; k" := (sbind m (fun x => k))
  (at level 100, m at next level, right associativity) : setup_scope.
Notation "m ;; k" := (sbind m (fun _ => k))
  (at level 100, right associativity) : setup_scope.

Section Setup.

Variable senv : SetupEnv.

(** config.py: [SESSION_STRING], read from the environment. *)
Variable SESSION_STRING : string.

(** [StringSession(s)] decodes [s]: [session_error s] is the exception it
    raises when [s] is not a session string (a [ValueError] for a wrong
    version, the decoder's error for a wrong length or alphabet), and
    [None] when [s] decodes.  The decoder is Telethon's. *)
Variable session_error : string -> option Exception.

(** [str.strip()], which removes white space of all of Unicode. *)
Variable str_strip : string -> string.

Definition scall {A} (c : SetupCall) (answer : SetupEnv -> list SetupCall -> Res A) : Setup A :=
  fun w => (answer senv (c :: calls w), mkWorld (slot w) (c :: calls w)).

(** telegram_client.py, lines 13-27.  [_client] is assigned after the
    session was built, so a string that does not decode leaves it [None]. *)
Definition get_client : Setup TelegramClient :=
  fun w =>
    match slot w with
    | Some client => (Ok client, w)
    | None =>
        match SESSION_STRING with
        | EmptyString =>
            let client := mkClient None in
            (Ok client, mkWorld (Some client) (calls w))
        | _ =>
            match session_error SESSION_STRING with
            | Some e => (Raise e, w)
            | None =>
                let client := mkClient (Some SESSION_STRING) in
                (Ok client, mkWorld (Some client) (calls w))
            end
        end
    end.

(** telegram_client.py, lines 47-53. *)
Definition disconnect : Setup unit :=
  fun w =>
    match slot w with
    | None => (Ok tt, w)
    | Some _ =>
        (connected <- scall ScIsConnected su_bool ;;
         if connected then scall ScDisconnect su_unit else sret tt)%setup w
    end.

(** telegram_client.py, lines 56-89. *)
Definition generate_session_client : Setup string :=
  (client <- get_client ;;
   scall ScConnect su_unit ;;
   authorized <- scall ScIsUserAuthorized su_bool ;;
   (if negb authorized then
      phone <- scall (ScInput "Enter your phone number (with country code): ") su_text ;;
      scall (ScSendCodeRequest phone) su_unit ;;
      code <- scall (ScInput "Enter the code you received: ") su_text ;;
      scatch (scall (ScSignIn phone code) su_unit)
             (fun e =>
                if needs_password_client (str_exc e) then
                  password <- scall (ScInput "Enter your 2FA password: ") su_text ;;
                  scall (ScSignInPassword password) su_unit
                else sraise e)
    else sret tt) ;;
   session_string <- scall ScSessionSave su_text ;;
   scall ScDisconnect su_unit ;;
   sret session_string)%setup.

(** generate_session.py, lines 18-74: a client of its own, with an empty
    session; the phone number and the code are stripped. *)
Definition generate_session_script : Setup string :=
  (scall ScConnect su_unit ;;
   authorized <- scall ScIsUserAuthorized su_bool ;;
   (if negb authorized then
      phone <- scall (ScInput
        "Enter your phone number (with country code, e.g., +1234567890): ") su_text ;;
      let phone := str_strip phone in
      scall (ScSendCodeRequest phone) su_unit ;;
      code <- scall (ScInput "Enter the verification code you received: ") su_text ;;
      let code := str_strip code in
      scatch (scall (ScSignIn phone code) su_unit)
             (fun e =>
                if needs_password_script (str_exc e) then
                  password <- scall (ScInput "Enter your 2FA password: ") su_text ;;
                  scall (ScSignInPassword password) su_unit
                else sraise e)
    else sret tt) ;;
   session_string <- scall ScSessionSave su_text ;;
   scall ScDisconnect su_unit ;;
   sret session_string)%setup.

End Setup.

(** Stubs of the two library functions.  [strip] is [str.strip()] on ASCII
    input: it removes tab to carriage return, the four separators and the
    space. *)
Definition is_space (c : ascii) : bool :=
  let n := nat_of_ascii c in
  (((9 <=? n)%nat && (n <=? 13)%nat) || ((28 <=? n)%nat && (n <=? 32)%nat))%bool.

Fixpoint lstrip (s : string) : string :=
  match s with
  | EmptyString => EmptyString
  | String c rest => if is_space c then lstrip rest else s
  end.

Fixpoint rstrip (s : string) : string :=
  match s with
  | EmptyString => EmptyString
  | String c rest =>
      match rstrip rest with
      | EmptyString => if is_space c then EmptyString else String c EmptyString
      | kept => String c kept
      end
  end.

Definition strip (s : string) : string := rstrip (lstrip s).

(** A decoder that takes every string for a session string, and one that
    refuses the strings that have not the length of one (353 characters for
    an IPv4 address, 369 for IPv6). *)
Definition any_session : string -> option Exception := fun _ => None.

Definition by_length (s : string) : option Exception :=
  if (Nat.eqb (String.length s) 353 || Nat.eqb (String.length s) 369)%bool then None
  else Some (OtherException "unpack requires a buffer of 275 bytes").

(** A scripted setup: the answers to [input] and [session.save] are read
    off [typed] in order, the client reports [authorized], the first
    [sign_in] fails with [sign_in_error] when one is given. *)
Definition is_text_call (c : SetupCall) : bool :=
  match c with ScInput _ | ScSessionSave => true | _ => false end.

Definition scripted_setup (authorized : bool) (sign_in_error : option Exception)
    (typed : list string) : SetupEnv :=
  {| su_unit := fun cs =>
       match cs, sign_in_error with
       | ScSignIn _ _ :: _, Some e => Raise e
       | _, _ => Ok tt
       end;
     su_bool := fun _ => Ok authorized;
     su_text := fun cs => Ok (nth (length (filter is_text_call cs) - 1) typed "") |}.

Definition fresh_world : SetupWorld := mkWorld None [].

Definition is_prompt (c : SetupCall) : bool :=
  match c with ScInput _ => true | _ => false end.

(** A text message to the bot that is none of "/sell", "Empty" and the
    decimal price. *)
Definition is_foreign_text (stars : Z) (ev : Event) : bool :=
  match ev with
  | EvConvSendMessage text =>
      negb (String.eqb text "/sell" || String.eqb text "Empty"
            || String.eqb text (str_int stars))
  | _ => false
  end.

(** A click on a control whose label has neither "empty" nor "try again"
    in it. *)
Definition is_foreign_click (ev : Event) : bool :=
  match ev with
  | EvButtonClick _ _ _ b =>
      negb (str_in "empty" (lower (btn_text b)) || str_in "try again" (lower (btn_text b)))
  | _ => false
  end.

(** ** Basic facts *)

Example lower_example : lower "Empty ✨" = "empty ✨".
Proof. reflexivity. Qed.

Example str_int_example : str_int 100 = "100" /\ str_int 30 = "30".
Proof. split; reflexivity. Qed.

Lemma count_events_cons P ev h :
  count_events P (ev :: h) = (if P ev then 1 else 0) + count_events P h.
Proof. unfold count_events. simpl. destruct (P ev); reflexivity. Qed.

Lemma count_events_app P h1 h2 :
  count_events P (h1 ++ h2) = count_events P h1 + count_events P h2.
Proof. unfold count_events. rewrite filter_app, length_app. reflexivity. Qed.

Lemma bind_ext {A B} (m : M A) (f g : A -> M B) h :
  (forall a h', f a h' = g a h') -> bind m f h = bind m g h.
Proof.
  intros Hfg. unfold bind. destruct (m h) as [[a | e] h']; [apply Hfg | reflexivity].
Qed.

Lemma bind_ok {A B} (m : M A) (f : A -> M B) h a h' :
  m h = (Ok a, h') -> bind m f h = f a h'.
Proof. intros H. unfold bind. rewrite H. reflexivity. Qed.

Lemma bind_raise {A B} (m : M A) (f : A -> M B) h e h' :
  m h = (Raise e, h') -> bind m f h = (Raise e, h').
Proof. intros H. unfold bind. rewrite H. reflexivity. Qed.

Lemma bind_assoc {A B C} (m : M A) (f : A -> M B) (g : B -> M C) h :
  bind (bind m f) g h = bind m (fun a => bind (f a) g) h.
Proof. unfold bind. destruct (m h) as [[a | e] h']; reflexivity. Qed.

(** *** Counting events through the combinators *)

Section Counting.

Variable P : Event -> bool.

Lemma emits_weaken {A} (m : M A) n n' :
  n <= n' -> emits_at_most P n m -> emits_at_most P n' m.
Proof.
  intros Hle Hm h. destruct (Hm h) as (evs & Heq & Hn).
  exists evs. split; [assumption | lia].
Qed.

Lemma emits_ret {A} (a : A) : emits_at_most P 0 (ret a).
Proof. intros h. exists []. split; [reflexivity | apply Nat.le_refl]. Qed.

Lemma emits_raise {A} e : emits_at_most P 0 (@raise A e).
Proof. intros h. exists []. split; [reflexivity | apply Nat.le_refl]. Qed.

Lemma emits_log line : P (EvLog line) = false -> emits_at_most P 0 (log line).
Proof.
  intros HP h. exists [EvLog line]. split; [reflexivity |].
  rewrite count_events_cons, HP. apply Nat.le_refl.
Qed.

Lemma emits_call env {A} ev (answer : Env -> History -> Res A) :
  P ev = false -> emits_at_most P 0 (call env ev answer).
Proof.
  intros HP h. exists [ev]. split; [reflexivity |].
  rewrite count_events_cons, HP. apply Nat.le_refl.
Qed.

Lemma emits_bind {A B} (m : M A) (f : A -> M B) n1 n2 :
  emits_at_most P n1 m -> (forall a, emits_at_most P n2 (f a)) ->
  emits_at_most P (n1 + n2) (bind m f).
Proof.
  intros Hm Hf h. destruct (Hm h) as (evs1 & Heq1 & Hn1). unfold bind.
  destruct (m h) as [[a | e] h1]; simpl in Heq1; subst h1.
  - destruct (Hf a (evs1 ++ h)) as (evs2 & Heq2 & Hn2).
    exists (evs2 ++ evs1). rewrite Heq2, app_assoc, count_events_app.
    split; [reflexivity | lia].
  - exists evs1. split; [reflexivity | lia].
Qed.

Lemma emits_bind0 {A B} (m : M A) (f : A -> M B) :
  emits_at_most P 0 m -> (forall a, emits_at_most P 0 (f a)) ->
  emits_at_most P 0 (bind m f).
Proof. intros Hm Hf. apply (emits_bind m f 0 0); assumption. Qed.

Lemma emits_catch {A} (m : M A) select n1 n2 :
  emits_at_most P n1 m ->
  (forall e handler, select e = Some handler -> emits_at_most P n2 handler) ->
  emits_at_most P (n1 + n2) (catch m select).
Proof.
  intros Hm Hs h. destruct (Hm h) as (evs1 & Heq1 & Hn1). unfold catch.
  destruct (m h) as [[a | e] h1]; simpl in Heq1; subst h1.
  - exists evs1. split; [reflexivity | lia].
  - destruct (select e) as [handler |] eqn:Hsel.
    + destruct (Hs e handler Hsel (evs1 ++ h)) as (evs2 & Heq2 & Hn2).
      exists (evs2 ++ evs1). rewrite Heq2, app_assoc, count_events_app.
      split; [reflexivity | lia].
    + exists evs1. split; [reflexivity | lia].
Qed.

Lemma emits_catch_any {A} (m : M A) (handler : Exception -> M A) :
  emits_at_most P 0 m -> (forall e, emits_at_most P 0 (handler e)) ->
  emits_at_most P 0 (catch m (any_exception handler)).
Proof.
  intros Hm Hh. apply (emits_catch m _ 0 0); [assumption |].
  intros e handler' Hsel. injection Hsel as <-. apply Hh.
Qed.

Lemma emits_catch_ppv {A} (m handler : M A) :
  emits_at_most P 0 m -> emits_at_most P 0 handler ->
  emits_at_most P 0 (catch m (only_PPVFlowError handler)).
Proof.
  intros Hm Hh. apply (emits_catch m _ 0 0); [assumption |].
  intros e handler' Hsel. destruct e; simpl in Hsel; try discriminate.
  injection Hsel as <-. assumption.
Qed.

Lemma emits_catch_timeout {A} (m handler : M A) :
  emits_at_most P 0 m -> emits_at_most P 0 handler ->
  emits_at_most P 0 (catch m (only_TimeoutError handler)).
Proof.
  intros Hm Hh. apply (emits_catch m _ 0 0); [assumption |].
  intros e handler' Hsel. destruct e; simpl in Hsel; try discriminate.
  injection Hsel as <-. assumption.
Qed.

(** The button search of [find_and_click_button] only ever clicks. *)
Hypothesis clicks_not_counted :
  forall message_id i j b, P (EvButtonClick message_id i j b) = false.

Lemma emits_click_in_row env str_lower message_id button_text i row :
  forall j, emits_at_most P 0 (click_in_row env str_lower message_id button_text i j row).
Proof.
  induction row as [| b rest IH]; intros j; simpl.
  - apply emits_ret.
  - destruct (label_matches_with str_lower button_text b).
    + apply emits_bind0; [apply emits_call, clicks_not_counted |].
      intros _. apply emits_ret.
    + apply IH.
Qed.

Lemma emits_click_in_rows env str_lower message_id button_text rows :
  forall i, emits_at_most P 0 (click_in_rows env str_lower message_id button_text i rows).
Proof.
  induction rows as [| row rest IH]; intros i; simpl.
  - apply emits_ret.
  - apply emits_bind0; [apply emits_click_in_row |].
    intros [|]; [apply emits_ret | apply IH].
Qed.

Lemma emits_find_and_click_button_with env str_lower m button_text :
  emits_at_most P 0 (find_and_click_button_with env str_lower m button_text).
Proof.
  unfold find_and_click_button_with. destruct (buttons m) as [[| row rows] |].
  - apply emits_ret.
  - apply emits_click_in_rows.
  - apply emits_ret.
Qed.

Lemma emits_find_and_click_button env m button_text :
  emits_at_most P 0 (find_and_click_button env m button_text).
Proof. apply emits_find_and_click_button_with. Qed.

End Counting.

(** Goals [emits_at_most P 0 m] for a concrete [P], by the structure of [m]. *)
Ltac quiet :=
  repeat
    match goal with
    | |- emits_at_most _ _ (ret _) => apply emits_ret
    | |- emits_at_most _ _ (raise _) => apply emits_raise
    | |- emits_at_most _ _ (log _) => apply emits_log; reflexivity
    | |- emits_at_most _ _ (call _ _ _) => apply emits_call; reflexivity
    | |- emits_at_most _ _ (find_and_click_button _ _ _) =>
        apply emits_find_and_click_button; intros; reflexivity
    | |- emits_at_most _ _ (bind _ _) => apply emits_bind0; [ | intro ]
    | |- emits_at_most _ _ (catch _ (any_exception _)) =>
        apply emits_catch_any; [ | intro ]
    | |- emits_at_most _ _ (catch _ (only_PPVFlowError _)) => apply emits_catch_ppv
    | |- emits_at_most _ _ (catch _ (only_TimeoutError _)) => apply emits_catch_timeout
    | |- emits_at_most _ _ (if ?b then _ else _) => destruct b
    | |- emits_at_most _ _ (match ?x with _ => _ end) => destruct x
    end.

(** *** The flow never switches the business bot *)

Lemma wait_for_response_no_restore env t :
  emits_at_most is_restore 0 (wait_for_response env t).
Proof. unfold wait_for_response. quiet. Qed.

Lemma text_lower_quiet P m : emits_at_most P 0 (text_lower m).
Proof. unfold text_lower. quiet. Qed.

Lemma handle_user_selection_no_restore env m u :
  emits_at_most is_restore 0 (handle_user_selection env m u).
Proof.
  unfold handle_user_selection. quiet; apply wait_for_response_no_restore.
Qed.

Lemma establish_contact_no_restore env u :
  emits_at_most is_restore 0 (establish_contact env u).
Proof. unfold establish_contact. quiet. Qed.

Lemma click_try_again_no_restore env m :
  emits_at_most is_restore 0 (click_try_again env m).
Proof. unfold click_try_again. quiet. Qed.

Lemma peer_selection_loop_no_restore env u fuel :
  forall rc m, emits_at_most is_restore 0 (peer_selection_loop env u fuel rc m).
Proof.
  induction fuel as [| fuel IH]; intros rc m; simpl; [apply emits_ret |].
  destruct (rc <=? max_retries); [| apply emits_ret].
  apply emits_bind0; [apply handle_user_selection_no_restore | intros response].
  apply emits_bind0; [apply text_lower_quiet | intros t].
  destruct (is_rejection t); [| apply emits_ret].
  destruct (max_retries <? rc + 1); [apply emits_raise |].
  apply emits_bind0; [apply establish_contact_no_restore | intros _].
  apply emits_bind0; [apply click_try_again_no_restore | intros _].
  apply emits_bind0; [apply wait_for_response_no_restore | intros response'].
  apply IH.
Qed.

Lemma send_ppv_no_restore env url u n :
  emits_at_most is_restore 0 (send_ppv env url u n).
Proof.
  unfold send_ppv.
  apply emits_bind0; [| intros prompt; apply emits_bind0;
                         [apply peer_selection_loop_no_restore | intros response]].
  - unfold steps_1_to_4, caption_step, download_photo.
    quiet; try apply wait_for_response_no_restore; apply text_lower_quiet.
  - unfold final_confirmation.
    quiet; try apply wait_for_response_no_restore; apply text_lower_quiet.
Qed.

(** *** The guard of the endpoint *)

Lemma switch_back_once env h :
  exists evs, switch_back env h = (Ok tt, evs ++ h) /\ count_events is_restore evs = 1.
Proof.
  unfold switch_back, switch_to_kimfeetguru, _switch_business_bot.
  unfold catch, bind, log, call, any_exception, raise, ret.
  destruct (ext_entity env
              (EvGetEntity KIMFEETGURU_BOT_USERNAME
               :: EvLog (LogSwitching KIMFEETGURU_BOT_USERNAME) :: h)) as [bot | e].
  - destruct (ext_unit env
                (EvUpdateConnectedBot bot
                 :: EvGetEntity KIMFEETGURU_BOT_USERNAME
                 :: EvLog (LogSwitching KIMFEETGURU_BOT_USERNAME) :: h)) as [[] | e].
    + exists [EvUpdateConnectedBot bot; EvGetEntity KIMFEETGURU_BOT_USERNAME;
              EvLog (LogSwitching KIMFEETGURU_BOT_USERNAME)].
      split; reflexivity.
    + exists [EvLog LogSwitchBackFailed; EvUpdateConnectedBot bot;
              EvGetEntity KIMFEETGURU_BOT_USERNAME;
              EvLog (LogSwitching KIMFEETGURU_BOT_USERNAME)].
      split; reflexivity.
  - exists [EvLog LogSwitchBackFailed; EvGetEntity KIMFEETGURU_BOT_USERNAME;
            EvLog (LogSwitching KIMFEETGURU_BOT_USERNAME)].
    split; reflexivity.
Qed.


(** *** Row-major search *)

Section RowMajor.

Variable p : Button -> bool.

Lemma first_in_row_some row :
  forall j0 j b,
    first_in_row p j0 row = Some (j, b) ->
    exists k, j = j0 + k /\ nth_error row k = Some b /\ p b = true /\
              forall k' b', k' < k -> nth_error row k' = Some b' -> p b' = false.
Proof.
  induction row as [| c rest IH]; intros j0 j b H; simpl in H; [discriminate |].
  destruct (p c) eqn:Hc.
  - injection H as <- <-. exists 0. repeat split; [lia | assumption |].
    intros k' b' Hlt. lia.
  - destruct (IH _ _ _ H) as (k & -> & Hnth & Hp & Hbefore).
    exists (S k). repeat split; [lia | assumption | assumption |].
    intros [| k'] b' Hlt Hk'; simpl in Hk'.
    + injection Hk' as <-. assumption.
    + apply (Hbefore k'); [lia | assumption].
Qed.

Lemma first_in_row_none row :
  forall j0, first_in_row p j0 row = None ->
  forall k b, nth_error row k = Some b -> p b = false.
Proof.
  induction row as [| c rest IH]; intros j0 H k b Hk.
  - destruct k; discriminate.
  - simpl in H. destruct (p c) eqn:Hc; [discriminate |].
    destruct k as [| k]; simpl in Hk.
    + injection Hk as <-. assumption.
    + apply (IH _ H k). assumption.
Qed.

Lemma first_in_rows_some rows :
  forall i0 i j b,
    first_in_rows p i0 rows = Some (i, j, b) ->
    exists k, i = i0 + k /\ first_control p rows k j b.
Proof.
  induction rows as [| row rest IH]; intros i0 i j b H; simpl in H; [discriminate |].
  destruct (first_in_row p 0 row) as [[j' b'] |] eqn:Hrow.
  - injection H as <- <- <-.
    destruct (first_in_row_some _ _ _ _ Hrow) as (k & -> & Hnth & Hp & Hbefore).
    exists 0. split; [lia |]. repeat split; [assumption | assumption |].
    intros i' j' c [Hlt | [-> Hlt]] Hat; [lia |].
    apply (Hbefore j'); assumption.
  - destruct (IH _ _ _ _ H) as (k & -> & Hat & Hp & Hbefore).
    exists (S k). split; [lia |]. repeat split; [assumption | assumption |].
    intros [| i'] j' c Hord Hc.
    + unfold control_at in Hc. simpl in Hc.
      apply (first_in_row_none _ _ Hrow j'). assumption.
    + apply (Hbefore i' j'); [| assumption].
      destruct Hord as [Hlt | [Heq Hlt]]; [left; lia | right; split; [lia | assumption]].
Qed.

Lemma first_in_rows_none rows :
  forall i0, first_in_rows p i0 rows = None ->
  forall i j b, control_at rows i j = Some b -> p b = false.
Proof.
  induction rows as [| row rest IH]; intros i0 H i j b Hat.
  - unfold control_at in Hat. destruct i; discriminate.
  - simpl in H. destruct (first_in_row p 0 row) as [[j' b'] |] eqn:Hrow; [discriminate |].
    destruct i as [| i].
    + apply (first_in_row_none _ _ Hrow j). assumption.
    + apply (IH _ H i j). assumption.
Qed.

Lemma first_control_unique rows i j b i' j' b' :
  first_control p rows i j b -> first_control p rows i' j' b' ->
  i = i' /\ j = j' /\ b = b'.
Proof.
  intros (Hat & Hp & Hbefore) (Hat' & Hp' & Hbefore').
  assert (Hpos : i = i' /\ j = j').
  { destruct (lt_eq_lt_dec i i') as [[Hlt | Heq] | Hgt].
    - rewrite (Hbefore' i j b) in Hp; [discriminate | left; assumption | assumption].
    - subst i'. destruct (lt_eq_lt_dec j j') as [[Hlt | Heq] | Hgt].
      + rewrite (Hbefore' i j b) in Hp;
          [discriminate | right; split; [reflexivity | assumption] | assumption].
      + split; [reflexivity | assumption].
      + rewrite (Hbefore i j' b') in Hp';
          [discriminate | right; split; [reflexivity | assumption] | assumption].
    - rewrite (Hbefore i' j' b') in Hp'; [discriminate | left; assumption | assumption]. }
  destruct Hpos as [<- <-]. rewrite Hat in Hat'. injection Hat' as <-.
  repeat split.
Qed.

Lemma first_control_found rows i j b :
  first_control p rows i j b -> first_in_rows p 0 rows = Some (i, j, b).
Proof.
  intros Hfirst.
  destruct (first_in_rows p 0 rows) as [[[i' j'] b'] |] eqn:Hsearch.
  - destruct (first_in_rows_some _ _ _ _ _ Hsearch) as (k & -> & Hfirst').
    simpl in *. destruct (first_control_unique _ _ _ _ _ _ _ Hfirst Hfirst') as (-> & -> & ->).
    reflexivity.
  - destruct Hfirst as (Hat & Hp & _).
    rewrite (first_in_rows_none _ _ Hsearch _ _ _ Hat) in Hp. discriminate.
Qed.

Lemma no_control_not_found m rows :
  buttons m = Some rows -> no_control p m -> first_in_rows p 0 rows = None.
Proof.
  intros Hrows Hnone.
  destruct (first_in_rows p 0 rows) as [[[i j] b] |] eqn:Hsearch; [| reflexivity].
  destruct (first_in_rows_some _ _ _ _ _ Hsearch) as (k & _ & Hat & Hp & _).
  rewrite (Hnone _ _ _ _ Hrows Hat) in Hp. discriminate.
Qed.

Lemma first_in_rows_first_control rows i j b :
  first_in_rows p 0 rows = Some (i, j, b) -> first_control p rows i j b.
Proof.
  intros H. destruct (first_in_rows_some _ _ _ _ _ H) as (k & Hk & Hfirst).
  simpl in Hk. subst k. assumption.
Qed.

Lemma no_control_without_buttons m : buttons m = None -> no_control p m.
Proof. intros Hnone rows i j b Hrows. rewrite Hnone in Hrows. discriminate. Qed.

Lemma no_control_searched m rows :
  buttons m = Some rows -> first_in_rows p 0 rows = None -> no_control p m.
Proof.
  intros Hrows Hsearch rows' i j b Hrows' Hat.
  rewrite Hrows in Hrows'. injection Hrows' as <-.
  apply (first_in_rows_none _ _ Hsearch i j). assumption.
Qed.

End RowMajor.

(** *** [find_and_click_button] *)

Lemma click_in_row_run env str_lower message_id button_text i row :
  forall j0 h,
    click_in_row env str_lower message_id button_text i j0 row h =
    match first_in_row (label_matches_with str_lower button_text) j0 row with
    | Some (j, b) => (call env (EvButtonClick message_id i j b) ext_unit ;; ret true) h
    | None => (Ok false, h)
    end.
Proof.
  induction row as [| b rest IH]; intros j0 h; simpl; [reflexivity |].
  destruct (label_matches_with str_lower button_text b); [reflexivity | apply IH].
Qed.

Lemma click_in_rows_run env str_lower message_id button_text rows :
  forall i0 h,
    click_in_rows env str_lower message_id button_text i0 rows h =
    match first_in_rows (label_matches_with str_lower button_text) i0 rows with
    | Some (i, j, b) => (call env (EvButtonClick message_id i j b) ext_unit ;; ret true) h
    | None => (Ok false, h)
    end.
Proof.
  induction rows as [| row rest IH]; intros i0 h; simpl; [reflexivity |].
  unfold bind at 1. rewrite click_in_row_run.
  destruct (first_in_row (label_matches_with str_lower button_text) 0 row) as [[j b] |].
  - unfold bind, call, ret.
    destruct (ext_unit env (EvButtonClick message_id i0 j b :: h)); reflexivity.
  - apply IH.
Qed.

Lemma find_and_click_button_with_found env str_lower m button_text rows i j b h :
  buttons m = Some rows ->
  first_control (label_matches_with str_lower button_text) rows i j b ->
  find_and_click_button_with env str_lower m button_text h =
  (call env (EvButtonClick (msg_id m) i j b) ext_unit ;; ret true) h.
Proof.
  intros Hrows Hfirst. unfold find_and_click_button_with. rewrite Hrows.
  pose proof (first_control_found _ _ _ _ _ Hfirst) as Hsearch.
  destruct rows as [| row rest]; [discriminate |].
  rewrite click_in_rows_run, Hsearch. reflexivity.
Qed.

Lemma find_and_click_button_with_not_found env str_lower m button_text h :
  no_control (label_matches_with str_lower button_text) m ->
  find_and_click_button_with env str_lower m button_text h = (Ok false, h).
Proof.
  intros Hnone. unfold find_and_click_button_with.
  destruct (buttons m) as [[| row rest] |] eqn:Hrows; try reflexivity.
  rewrite click_in_rows_run, (no_control_not_found _ _ _ Hrows Hnone). reflexivity.
Qed.

Lemma find_and_click_button_found env m button_text rows i j b h :
  buttons m = Some rows ->
  first_control (label_matches button_text) rows i j b ->
  find_and_click_button env m button_text h =
  (call env (EvButtonClick (msg_id m) i j b) ext_unit ;; ret true) h.
Proof. apply find_and_click_button_with_found. Qed.

Lemma find_and_click_button_not_found env m button_text h :
  no_control (label_matches button_text) m ->
  find_and_click_button env m button_text h = (Ok false, h).
Proof. apply find_and_click_button_with_not_found. Qed.


(** *** [handle_user_selection] *)

Lemma request_peer_in_row_search row :
  forall j0,
    request_peer_in_row row =
    match first_in_row is_request_peer j0 row with
    | Some (_, b) => request_peer_id b
    | None => None
    end.
Proof.
  induction row as [| b rest IH]; intros j0; simpl; [reflexivity |].
  unfold is_request_peer at 1.
  destruct (btn_kind b) eqn:Hkind; try apply IH.
  unfold request_peer_id. rewrite Hkind. reflexivity.
Qed.

Lemma first_in_row_request_peer row j0 j b :
  first_in_row is_request_peer j0 row = Some (j, b) ->
  exists id, request_peer_id b = Some id.
Proof.
  intros H. destruct (first_in_row_some _ _ _ _ _ H) as (_ & _ & _ & Hp & _).
  unfold is_request_peer in Hp. unfold request_peer_id.
  destruct (btn_kind b); try discriminate. eexists. reflexivity.
Qed.

Lemma request_peer_in_rows_search rows :
  forall i0,
    request_peer_in_rows rows =
    match first_in_rows is_request_peer i0 rows with
    | Some (_, _, b) => request_peer_id b
    | None => None
    end.
Proof.
  induction rows as [| row rest IH]; intros i0; simpl; [reflexivity |].
  rewrite (request_peer_in_row_search row 0).
  destruct (first_in_row is_request_peer 0 row) as [[j b] |] eqn:Hrow.
  - destruct (first_in_row_request_peer _ _ _ _ Hrow) as [id Hid].
    rewrite Hid. reflexivity.
  - apply IH.
Qed.

Lemma find_request_peer_first m rows i j b id :
  buttons m = Some rows ->
  first_control is_request_peer rows i j b ->
  request_peer_id b = Some id ->
  find_request_peer m = Some id.
Proof.
  intros Hrows Hfirst Hid. unfold find_request_peer. rewrite Hrows.
  rewrite (request_peer_in_rows_search rows 0), (first_control_found _ _ _ _ _ Hfirst).
  assumption.
Qed.

Lemma find_request_peer_none m :
  no_control is_request_peer m -> find_request_peer m = None.
Proof.
  intros Hnone. unfold find_request_peer.
  destruct (buttons m) as [rows |] eqn:Hrows; [| reflexivity].
  rewrite (request_peer_in_rows_search rows 0),
          (no_control_not_found _ _ _ Hrows Hnone).
  reflexivity.
Qed.

(** A message that shows buttons has a markup with rows. *)
Lemma buttons_rows_present m rows : buttons m = Some rows -> rows_missing m = None.
Proof.
  unfold buttons, rows_missing.
  destruct (reply_markup m) as [[| | |] |]; intros H; try discriminate; reflexivity.
Qed.

Lemma rows_missing_no_buttons m type_name :
  rows_missing m = Some type_name -> buttons m = None.
Proof.
  unfold buttons, rows_missing.
  destruct (reply_markup m) as [[| | |] |]; intros H; try discriminate; reflexivity.
Qed.

Lemma find_request_peer_rows_present m :
  find_request_peer m <> None -> rows_missing m = None.
Proof.
  unfold find_request_peer. intros H.
  destruct (buttons m) as [rows |] eqn:Hrows; [| contradiction].
  exact (buttons_rows_present _ _ Hrows).
Qed.

Lemma find_request_peer_some_rows_present m id :
  find_request_peer m = Some id -> rows_missing m = None.
Proof. intros H. apply find_request_peer_rows_present. congruence. Qed.

Lemma wait_for_response_no_peer_reply env t :
  emits_at_most is_peer_reply 0 (wait_for_response env t).
Proof. unfold wait_for_response. quiet. Qed.

(** C6.  [handle_user_selection] answers the first RequestPeer button of the
    prompt in row-major order: with the target and the bot resolved, its next
    call is the structured reply carrying that button's id, the prompt's id
    and the resolved peer; when the target does not resolve it raises the
    PeerNotFound error, and no structured reply is issued.  A prompt without
    such a button gives the ControlNotFound error before any call only when
    it has no markup or a markup with rows: on a markup without rows (a
    ReplyKeyboardHide or a ReplyKeyboardForceReply), which has no RequestPeer
    button either, the scan stops at [reply_markup.rows] with an
    AttributeError, which is no PPVFlowError and so not ControlNotFound. *)
Theorem handle_user_selection_first_request_peer env m u h :
  let h0 := EvLog (LogHandlingSelection u) :: h in
  let lookup := EvGetEntity (lstrip_at u) :: h0 in
  (forall type_name,
      rows_missing m = Some type_name ->
      no_control is_request_peer m /\
      handle_user_selection env m u h = (Raise (rows_attribute_error type_name), h0) /\
      fst (handle_user_selection env m u h) <> Raise control_not_found) /\
  (rows_missing m = None ->
   no_control is_request_peer m ->
   handle_user_selection env m u h = (Raise control_not_found, h0) /\
   count_events is_peer_reply [EvLog (LogHandlingSelection u)] = 0) /\
  (forall rows i j b id,
      buttons m = Some rows ->
      first_control is_request_peer rows i j b ->
      request_peer_id b = Some id ->
      (forall e,
          ext_entity env lookup = Raise e ->
          handle_user_selection env m u h = (Raise (peer_not_found u e), lookup) /\
          count_events is_peer_reply
            [EvGetEntity (lstrip_at u); EvLog (LogHandlingSelection u)] = 0) /\
      (forall target bot,
          ext_entity env lookup = Ok target ->
          ext_entity env (EvGetEntity STACCERBOT_USERNAME :: lookup) = Ok bot ->
          exists evs,
            snd (handle_user_selection env m u h)
            = evs ++ EvSendBotRequestedPeer bot (msg_id m) id
                       (ent_id target) (access_hash target)
                     :: EvGetEntity STACCERBOT_USERNAME :: lookup /\
            count_events is_peer_reply evs = 0)).
Proof.
  intros h0 lookup. split; [| split].
  - intros type_name Hmissing.
    assert (Hrun : handle_user_selection env m u h
                   = (Raise (rows_attribute_error type_name), h0)).
    { unfold handle_user_selection. rewrite Hmissing. reflexivity. }
    split; [| split; [exact Hrun |]].
    + intros rows i j b Hrows.
      rewrite (rows_missing_no_buttons _ _ Hmissing) in Hrows. discriminate.
    + rewrite Hrun. discriminate.
  - intros Hpresent Hnone. split; [| reflexivity].
    unfold handle_user_selection.
    rewrite Hpresent, (find_request_peer_none _ Hnone).
    reflexivity.
  - intros rows i j b id Hrows Hfirst Hid.
    pose proof (find_request_peer_first _ _ _ _ _ _ Hrows Hfirst Hid) as Hfound.
    pose proof (buttons_rows_present _ _ Hrows) as Hpresent.
    split.
    + intros e He. split; [| reflexivity].
      unfold handle_user_selection. rewrite Hpresent, Hfound.
      unfold bind, log, catch, call, any_exception, raise.
      fold h0. fold lookup. rewrite He. reflexivity.
    + intros target bot Htarget Hbot.
      unfold handle_user_selection. rewrite Hpresent, Hfound.
      unfold bind at 1. unfold log. fold h0.
      unfold bind at 1. unfold catch at 1. unfold call at 1. fold lookup.
      rewrite Htarget.
      unfold bind at 1. unfold call at 1. rewrite Hbot.
      set (reply := EvSendBotRequestedPeer bot (msg_id m) id (ent_id target)
                      (access_hash target)).
      set (sent := reply :: EvGetEntity STACCERBOT_USERNAME :: lookup).
      unfold bind, catch at 1, call at 1. fold sent.
      destruct (ext_unit env sent) as [[] | e].
      * destruct (wait_for_response_no_peer_reply env 30 sent) as (evs & Hevs & Hcount).
        exists evs. split; [destruct (wait_for_response env 30 sent); assumption | lia].
      * exists []. split; reflexivity.
Qed.

(** *** The caption step *)

(** C8.  On the caption prompt the flow clicks the first control whose
    lowered label contains "empty" and then waits for the next response;
    when the prompt has no such control it sends the text "Empty" instead
    and then waits for the next response. *)
Theorem caption_step_empty_or_text env m h :
  (forall b, label_matches "Empty" b = str_in "empty" (lower (btn_text b))) /\
  (forall rows i j b,
      buttons m = Some rows ->
      first_control (label_matches "Empty") rows i j b ->
      caption_step env m h =
      (call env (EvButtonClick (msg_id m) i j b) ext_unit ;;
       wait_for_response env 30) h) /\
  (no_control (label_matches "Empty") m ->
   caption_step env m h =
   (log LogNoEmptyButton ;;
    call env (EvConvSendMessage "Empty") ext_unit ;;
    wait_for_response env 30) h).
Proof.
  split; [reflexivity |]. split.
  - intros rows i j b Hrows Hfirst. unfold caption_step.
    unfold bind at 1. rewrite (find_and_click_button_found _ _ _ _ _ _ _ _ Hrows Hfirst).
    unfold bind, call, ret.
    destruct (ext_unit env (EvButtonClick (msg_id m) i j b :: h)); reflexivity.
  - intros Hnone. unfold caption_step.
    unfold bind at 1. rewrite (find_and_click_button_not_found _ _ _ _ Hnone).
    reflexivity.
Qed.

(** *** The Contact Establisher *)

Lemma establish_contact_total env u h :
  exists evs, establish_contact env u h = (Ok tt, evs ++ h).
Proof.
  destruct (establish_contact env u h) as [r h'] eqn:Hrun.
  assert (Hr : r = Ok tt).
  { revert Hrun. unfold establish_contact, bind, catch, any_exception, log, call.
    repeat match goal with
           | |- context [match ?x with Ok _ => _ | Raise _ => _ end] =>
               destruct x as [[] | ?] || destruct x
           end;
      intros H; injection H as <- _; reflexivity. }
  subst r.
  assert (Hquiet : emits_at_most is_restore 0 (establish_contact env u))
    by apply establish_contact_no_restore.
  destruct (Hquiet h) as (evs & Hevs & _). rewrite Hrun in Hevs. simpl in Hevs.
  exists evs. rewrite Hevs. reflexivity.
Qed.

(** The rejected branch of the loop, when a retry is left. *)
Lemma peer_selection_loop_rejected env u fuel rc prompt h0 response h t :
  rc < max_retries ->
  handle_user_selection env prompt u h0 = (Ok response, h) ->
  msg_text response = Some t ->
  is_rejection (lower t) = true ->
  peer_selection_loop env u (S fuel) rc prompt h0 =
  (establish_contact env u ;;
   click_try_again env response ;;
   next <- wait_for_response env 30 ;;
   peer_selection_loop env u fuel (rc + 1) next) h.
Proof.
  intros Hrc Hsel Htext Hrej. simpl.
  destruct (Nat.leb_spec rc max_retries); [| lia].
  rewrite (bind_ok _ _ _ _ _ Hsel).
  unfold text_lower. rewrite Htext. unfold bind at 1, ret at 1. rewrite Hrej.
  destruct (Nat.ltb_spec max_retries (rc + 1)); [lia | reflexivity].
Qed.

(** C9.  The Contact Establisher never raises, whatever fails inside it
    (resolving the target, the greeting, the sleep, the deletion): after a
    rejection with a retry left, the loop goes on from the Establisher's
    final history with the click on the retry payload. *)
Theorem establish_contact_failures_swallowed env u h :
  exists evs,
    establish_contact env u h = (Ok tt, evs ++ h) /\
    (forall response,
        exists r more,
          click_try_again env response (evs ++ h)
          = (r, more ++ EvMessageClick (msg_id response) "sell_refresh"
                     :: EvLog LogClickingTryAgain :: evs ++ h)) /\
    (forall fuel rc prompt h0 response t,
        rc < max_retries ->
        handle_user_selection env prompt u h0 = (Ok response, h) ->
        msg_text response = Some t ->
        is_rejection (lower t) = true ->
        peer_selection_loop env u (S fuel) rc prompt h0 =
        (click_try_again env response ;;
         next <- wait_for_response env 30 ;;
         peer_selection_loop env u fuel (rc + 1) next) (evs ++ h)).
Proof.
  destruct (establish_contact_total env u h) as (evs & Hrun).
  exists evs. split; [assumption |]. split.
  - intros response. unfold click_try_again.
    unfold bind at 1, log at 1. unfold catch, call, any_exception.
    set (clicked := EvMessageClick (msg_id response) "sell_refresh"
                    :: EvLog LogClickingTryAgain :: evs ++ h).
    destruct (ext_unit env clicked) as [[] | e].
    + exists (Ok tt), []. reflexivity.
    + destruct (emits_find_and_click_button is_restore
                  ltac:(intros; reflexivity) env response "Try again" clicked)
        as (more & Hmore & _).
      unfold bind.
      destruct (find_and_click_button env response "Try again" clicked)
        as [[[|] | e'] h'] eqn:Hfind; simpl in Hmore; subst h'.
      * exists (Ok tt), more. reflexivity.
      * exists (Raise (PPVFlowError "Could not find 'Try again' button")), more.
        reflexivity.
      * exists (Raise e'), more. reflexivity.
  - intros fuel rc prompt h0 response t Hrc Hsel Htext Hrej.
    rewrite (peer_selection_loop_rejected _ _ _ _ _ _ _ _ _ Hrc Hsel Htext Hrej).
    rewrite (bind_ok _ _ _ _ _ Hrun). reflexivity.
Qed.

(** *** Selection attempts *)

Lemma wait_for_response_no_attempt env t :
  emits_at_most is_selection_attempt 0 (wait_for_response env t).
Proof. unfold wait_for_response. quiet. Qed.

Lemma establish_contact_no_attempt env u :
  emits_at_most is_selection_attempt 0 (establish_contact env u).
Proof. unfold establish_contact. quiet. Qed.

Lemma click_try_again_no_attempt env m :
  emits_at_most is_selection_attempt 0 (click_try_again env m).
Proof. unfold click_try_again. quiet. Qed.

Lemma steps_1_to_4_no_attempt env url n :
  emits_at_most is_selection_attempt 0 (steps_1_to_4 env url n).
Proof.
  unfold steps_1_to_4, caption_step, download_photo.
  quiet; try apply wait_for_response_no_attempt; apply text_lower_quiet.
Qed.

Lemma final_confirmation_no_attempt env u m :
  emits_at_most is_selection_attempt 0 (final_confirmation env u m).
Proof.
  unfold final_confirmation.
  quiet; try apply wait_for_response_no_attempt; apply text_lower_quiet.
Qed.

Lemma handle_user_selection_one_attempt env m u :
  emits_at_most is_selection_attempt 1 (handle_user_selection env m u).
Proof.
  unfold handle_user_selection. apply (emits_bind _ _ _ 1 0).
  - intros h. exists [EvLog (LogHandlingSelection u)]. split; [reflexivity | apply le_n].
  - intros _. quiet. apply wait_for_response_no_attempt.
Qed.

(** Each pass of the loop makes one attempt, and a pass that starts with
    [rc] retries used leaves room for [max_retries - rc] more. *)
Lemma peer_selection_loop_attempts env u fuel :
  forall rc m,
    emits_at_most is_selection_attempt (S max_retries - rc)
      (peer_selection_loop env u fuel rc m).
Proof.
  induction fuel as [| fuel IH]; intros rc m; cbn [peer_selection_loop].
  - apply (emits_weaken _ _ 0); [lia | apply emits_ret].
  - destruct (Nat.leb_spec rc max_retries) as [Hle | Hgt];
      [| apply (emits_weaken _ _ 0); [lia | apply emits_ret]].
    apply (emits_weaken _ _ (1 + (max_retries - rc))); [lia |].
    apply emits_bind; [apply handle_user_selection_one_attempt | intros response].
    apply (emits_bind _ _ _ 0 (max_retries - rc)); [apply text_lower_quiet | intros t].
    destruct (is_rejection t);
      [| apply (emits_weaken _ _ 0); [lia | apply emits_ret]].
    destruct (Nat.ltb_spec max_retries (rc + 1)) as [Hlast | Hmore];
      [apply (emits_weaken _ _ 0); [lia | apply emits_raise] |].
    apply (emits_bind _ _ _ 0 (max_retries - rc));
      [apply establish_contact_no_attempt | intros _].
    apply (emits_bind _ _ _ 0 (max_retries - rc));
      [apply click_try_again_no_attempt | intros _].
    apply (emits_bind _ _ _ 0 (max_retries - rc));
      [apply wait_for_response_no_attempt | intros next].
    apply (emits_weaken _ _ (S max_retries - (rc + 1))); [lia | apply IH].
Qed.

(** The fuel [send_ppv] gives the loop is all the loop can use: more fuel
    changes nothing. *)
Lemma peer_selection_loop_fuel env u fuel :
  forall rc m h,
    S max_retries - rc <= fuel ->
    peer_selection_loop env u fuel rc m h
    = peer_selection_loop env u (S max_retries - rc) rc m h.
Proof.
  induction fuel as [| fuel IH]; intros rc m h Hfuel.
  - replace (S max_retries - rc) with 0 by lia. reflexivity.
  - destruct (Nat.leb_spec rc max_retries) as [Hle | Hgt].
    + replace (S max_retries - rc) with (S (max_retries - rc)) by lia.
      cbn [peer_selection_loop]. destruct (Nat.leb_spec rc max_retries); [| lia].
      apply bind_ext. intros response h1. apply bind_ext. intros t h2.
      destruct (is_rejection t); [| reflexivity].
      destruct (max_retries <? rc + 1); [reflexivity |].
      apply bind_ext. intros _ h3. apply bind_ext. intros _ h4.
      apply bind_ext. intros next h5.
      rewrite IH by lia.
      replace (S max_retries - (rc + 1)) with (max_retries - rc) by lia.
      reflexivity.
    + replace (S max_retries - rc) with 0 by lia. cbn [peer_selection_loop].
      destruct (Nat.leb_spec rc max_retries); [lia | reflexivity].
Qed.

Lemma send_ppv_attempts env url u n :
  emits_at_most is_selection_attempt (S max_retries) (send_ppv env url u n).
Proof.
  unfold send_ppv.
  apply (emits_bind _ _ _ 0 (S max_retries)); [apply steps_1_to_4_no_attempt |].
  intros prompt.
  replace (S max_retries) with (S max_retries - 0 + 0) at 1 by reflexivity.
  apply emits_bind; [apply peer_selection_loop_attempts |].
  intros response. apply final_confirmation_no_attempt.
Qed.

(** *** Runs that return *)

Lemma returns_ret {A} (a : A) (Q : A -> Prop) : Q a -> returns (ret a) Q.
Proof. intros HQ h. exists a. split; [reflexivity | assumption]. Qed.

Lemma returns_log line : returns (log line) (fun _ => True).
Proof. intros h. exists tt. split; [reflexivity | exact I]. Qed.

Lemma returns_bind {A B} (m : M A) (f : A -> M B) (Q1 : A -> Prop) (Q2 : B -> Prop) :
  returns m Q1 -> (forall a, Q1 a -> returns (f a) Q2) -> returns (bind m f) Q2.
Proof.
  intros Hm Hf h. destruct (Hm h) as (a & Ha & HQ). unfold bind.
  destruct (m h) as [r h1]. simpl in Ha. subst r. apply (Hf a HQ h1).
Qed.

Lemma returns_catch {A} (m : M A) select (Q : A -> Prop) :
  returns m Q -> returns (catch m select) Q.
Proof.
  intros Hm h. destruct (Hm h) as (a & Ha & HQ). unfold catch.
  destruct (m h) as [r h1]. simpl in Ha. subst r.
  exists a. split; [reflexivity | assumption].
Qed.

Lemma returns_call env {A} ev (answer : Env -> History -> Res A) (Q : A -> Prop) :
  (forall h, exists a, answer env (ev :: h) = Ok a /\ Q a) ->
  returns (call env ev answer) Q.
Proof. intros H h. exact (H h). Qed.

(** *** A transport that always rejects *)

Section AlwaysRejects.

Variable env : Env.
Hypothesis rejects : always_rejects env.

Lemma wait_for_response_rejected t :
  returns (wait_for_response env t) rejected_prompt.
Proof.
  unfold wait_for_response. apply returns_catch, returns_call.
  intros h. destruct rejects as (Hmsg & _).
  destruct (Hmsg (EvGetResponse t :: h)) as (m & txt & Hm & Htxt & Hrej & Hpeer).
  exists m. split; [assumption |]. exists txt. repeat split; assumption.
Qed.

Lemma call_unit_returns ev :
  is_establisher_call ev = false ->
  returns (call env ev ext_unit) (fun _ => True).
Proof.
  intros Hev. apply returns_call. intros h. exists tt.
  destruct rejects as (_ & _ & _ & Hunit). split; [apply Hunit; assumption | exact I].
Qed.

Lemma call_entity_returns name :
  returns (call env (EvGetEntity name) ext_entity) (fun _ => True).
Proof.
  apply returns_call. intros h. destruct rejects as (_ & Hent & _).
  destruct (Hent (EvGetEntity name :: h)) as (e & He).
  exists e. split; [assumption | exact I].
Qed.

Lemma find_and_click_button_returns m button_text :
  returns (find_and_click_button env m button_text) (fun _ => True).
Proof.
  intros h. unfold find_and_click_button, find_and_click_button_with.
  destruct (buttons m) as [[| row rest] |];
    try (exists false; split; [reflexivity | exact I]).
  rewrite click_in_rows_run.
  destruct (first_in_rows (label_matches_with lower button_text) 0 (row :: rest))
    as [[[i j] b] |];
    [| exists false; split; [reflexivity | exact I]].
  destruct rejects as (_ & _ & _ & Hunit).
  unfold bind, call, ret. rewrite Hunit by reflexivity.
  exists true. split; [reflexivity | exact I].
Qed.

Lemma steps_1_to_4_rejected url n :
  returns (steps_1_to_4 env url n) rejected_prompt.
Proof.
  unfold steps_1_to_4, download_photo.
  apply returns_bind with (Q1 := fun _ => True).
  { apply returns_catch, returns_call. intros h.
    destruct rejects as (_ & _ & Hbytes & _).
    destruct (Hbytes (EvHttpGet url :: h)) as (b & Hb).
    exists b. split; [assumption | exact I]. }
  intros photo _.
  apply returns_bind with (Q1 := fun _ => True);
    [apply returns_catch, call_entity_returns | intros bot _].
  apply returns_bind with (Q1 := fun _ => True);
    [apply call_unit_returns; reflexivity | intros _ _].
  apply returns_bind with (Q1 := fun _ => True);
    [apply call_unit_returns; reflexivity | intros _ _].
  apply returns_bind with (Q1 := rejected_prompt);
    [apply wait_for_response_rejected | intros m1 (t1 & Ht1 & _)].
  apply returns_bind with (Q1 := fun _ => True).
  { unfold text_lower. rewrite Ht1. apply returns_ret. exact I. }
  intros _ _.
  apply returns_bind with (Q1 := fun _ => True);
    [apply call_unit_returns; reflexivity | intros _ _].
  apply returns_bind with (Q1 := rejected_prompt);
    [apply wait_for_response_rejected | intros m2 _].
  apply returns_bind with (Q1 := rejected_prompt).
  { unfold caption_step.
    apply returns_bind with (Q1 := fun _ => True);
      [apply find_and_click_button_returns | intros clicked _].
    apply returns_bind with (Q1 := fun _ => True);
      [| intros _ _; apply wait_for_response_rejected].
    destruct clicked; simpl; [apply returns_ret; exact I |].
    apply returns_bind with (Q1 := fun _ => True);
      [apply returns_log | intros _ _; apply call_unit_returns; reflexivity]. }
  intros m3 _.
  apply returns_bind with (Q1 := fun _ => True);
    [apply call_unit_returns; reflexivity | intros _ _].
  apply wait_for_response_rejected.
Qed.

End AlwaysRejects.

(** *** Timeouts of the steps before the final confirmation *)

Lemma timed_out_waits_app env evs h :
  timed_out_waits env h <= timed_out_waits env (evs ++ h).
Proof.
  induction evs as [| ev evs IH]; [apply le_n |].
  change ((ev :: evs) ++ h) with (ev :: evs ++ h). cbn [timed_out_waits]. lia.
Qed.

Lemma timed_out_waits_quiet env evs h :
  count_events (is_wait 30) evs = 0 ->
  timed_out_waits env (evs ++ h) = timed_out_waits env h.
Proof.
  induction evs as [| ev evs IH]; intros Hcount; [reflexivity |].
  rewrite count_events_cons in Hcount.
  change ((ev :: evs) ++ h) with (ev :: evs ++ h). cbn [timed_out_waits].
  rewrite IH by lia.
  destruct ev; try reflexivity.
  unfold wait_timed_out. simpl in Hcount.
  destruct (Z.eqb timeout 30); [discriminate | reflexivity].
Qed.

(** A wait recorded in a history, answered by a timeout, is counted. *)
Lemma timed_out_waits_member env later earlier h :
  ext_message env (EvGetResponse 30 :: earlier ++ h) = Raise TimeoutError ->
  timed_out_waits env h < timed_out_waits env (later ++ EvGetResponse 30 :: earlier ++ h).
Proof.
  intros Htimeout.
  pose proof (timed_out_waits_app env later (EvGetResponse 30 :: earlier ++ h)) as Hlater.
  pose proof (timed_out_waits_app env earlier h) as Hearlier.
  cbn [timed_out_waits] in Hlater. unfold wait_timed_out at 1 in Hlater.
  rewrite Htimeout in Hlater. simpl in Hlater. lia.
Qed.

Lemma aborts_quiet env {A} (m : M A) :
  emits_at_most (is_wait 30) 0 m -> timeout_aborts env m.
Proof.
  intros Hm h. destruct (Hm h) as (evs & Hevs & Hcount).
  exists evs. split; [assumption | left].
  apply timed_out_waits_quiet. lia.
Qed.

Lemma aborts_bind env {A B} (m : M A) (f : A -> M B) :
  timeout_aborts env m -> (forall a, timeout_aborts env (f a)) ->
  timeout_aborts env (bind m f).
Proof.
  intros Hm Hf h. destruct (Hm h) as (evs1 & Hevs1 & Hcase1). unfold bind.
  destruct (m h) as [[a | e] h1]; simpl in Hevs1, Hcase1; subst h1.
  - destruct Hcase1 as [Hsame | Habs]; [| discriminate].
    destruct (Hf a (evs1 ++ h)) as (evs2 & Hevs2 & Hcase2).
    exists (evs2 ++ evs1). split.
    + rewrite Hevs2, app_assoc. reflexivity.
    + destruct Hcase2 as [Hsame2 | Hraise]; [left | right; exact Hraise].
      rewrite <- app_assoc. congruence.
  - exists evs1. split; [reflexivity |].
    destruct Hcase1 as [Hsame | Habs]; [left; exact Hsame | right].
    injection Habs as ->. reflexivity.
Qed.

Lemma wait_for_response_timeout env t h :
  ext_message env (EvGetResponse t :: h) = Raise TimeoutError ->
  wait_for_response env t h =
  (Raise (PPVFlowError ("Bot did not respond within " ++ str_int t ++ " seconds")%string),
   EvLog (LogTimeout t) :: EvGetResponse t :: h).
Proof.
  intros Htimeout. unfold wait_for_response, catch, call. rewrite Htimeout. reflexivity.
Qed.

Lemma wait_for_response_aborts env : timeout_aborts env (wait_for_response env 30).
Proof.
  intros h. unfold wait_for_response, catch, call.
  destruct (ext_message env (EvGetResponse 30 :: h)) as [m | e] eqn:Hanswer.
  - exists [EvGetResponse 30]. split; [reflexivity | left].
    simpl. rewrite Hanswer. reflexivity.
  - destruct e; simpl;
      try (exists [EvGetResponse 30]; split; [reflexivity | left];
           simpl; rewrite Hanswer; reflexivity).
    exists [EvLog (LogTimeout 30); EvGetResponse 30].
    split; [reflexivity | right; reflexivity].
Qed.

(** Goals [timeout_aborts env m], by the structure of [m]. *)
Ltac aborts :=
  repeat
    match goal with
    | |- timeout_aborts _ (bind _ _) => apply aborts_bind; [ | intro ]
    | |- timeout_aborts _ (wait_for_response _ 30) => apply wait_for_response_aborts
    | |- timeout_aborts _ (if ?b then _ else _) => destruct b
    | |- timeout_aborts _ (match ?x with _ => _ end) => destruct x
    | |- timeout_aborts _ _ => apply aborts_quiet; quiet
    end.

Lemma text_lower_aborts env m : timeout_aborts env (text_lower m).
Proof. apply aborts_quiet, text_lower_quiet. Qed.

Lemma handle_user_selection_aborts env m u :
  timeout_aborts env (handle_user_selection env m u).
Proof. unfold handle_user_selection. aborts. Qed.

Lemma peer_selection_loop_aborts env u fuel :
  forall rc m, timeout_aborts env (peer_selection_loop env u fuel rc m).
Proof.
  induction fuel as [| fuel IH]; intros rc m; cbn [peer_selection_loop];
    [apply aborts_quiet, emits_ret |].
  destruct (rc <=? max_retries); [| apply aborts_quiet, emits_ret].
  apply aborts_bind; [apply handle_user_selection_aborts | intros response].
  apply aborts_bind; [apply text_lower_aborts | intros t].
  destruct (is_rejection t); [| apply aborts_quiet, emits_ret].
  destruct (max_retries <? rc + 1); [apply aborts_quiet, emits_raise |].
  apply aborts_bind;
    [apply aborts_quiet; unfold establish_contact; quiet | intros _].
  apply aborts_bind;
    [apply aborts_quiet; unfold click_try_again; quiet | intros _].
  apply aborts_bind; [apply wait_for_response_aborts | intros next].
  apply IH.
Qed.

(** The final confirmation waits 60 seconds, not 30. *)
Lemma final_confirmation_no_step_wait env u m :
  emits_at_most (is_wait 30) 0 (final_confirmation env u m).
Proof.
  unfold final_confirmation, wait_for_response. quiet; apply text_lower_quiet.
Qed.

Lemma send_ppv_aborts env url u n : timeout_aborts env (send_ppv env url u n).
Proof.
  unfold send_ppv. apply aborts_bind; [| intros prompt; apply aborts_bind].
  - unfold steps_1_to_4, caption_step, download_photo.
    aborts; apply text_lower_quiet.
  - apply peer_selection_loop_aborts.
  - intros response. apply aborts_quiet, final_confirmation_no_step_wait.
Qed.

(** *** The final confirmation *)

Lemma send_ppv_final env url u n h prompt h0 response h1 :
  steps_1_to_4 env url n h = (Ok prompt, h0) ->
  peer_selection_loop env u (S max_retries) 0 prompt h0 = (Ok response, h1) ->
  send_ppv env url u n h = final_confirmation env u response h1.
Proof.
  intros Hsteps Hloop. unfold send_ppv.
  rewrite (bind_ok _ _ _ _ _ Hsteps), (bind_ok _ _ _ _ _ Hloop). reflexivity.
Qed.

Lemma final_confirmation_timeout env u response h t :
  ext_message env (EvGetResponse 60 :: h) = Raise TimeoutError ->
  msg_text response = Some t ->
  final_confirmation env u response h =
  (Ok (if str_in "preparing" (lower t)
       then submitted_for_sending u else flow_completed u),
   EvLog (LogTimeout 60) :: EvGetResponse 60 :: h).
Proof.
  intros Htimeout Htext. unfold final_confirmation.
  unfold bind at 1. unfold catch. unfold bind at 1.
  rewrite (wait_for_response_timeout _ _ _ Htimeout).
  unfold only_PPVFlowError, text_lower. rewrite Htext.
  unfold bind, ret. destruct (str_in "preparing" (lower t)); reflexivity.
Qed.

Lemma final_confirmation_arrives env u response h final t :
  ext_message env (EvGetResponse 60 :: h) = Ok final ->
  msg_text final = Some t ->
  final_confirmation env u response h =
  (Ok (if (str_in "done" (lower t) || str_in "sent" (lower t))%bool
       then sent_successfully u else flow_completed u),
   EvGetResponse 60 :: h).
Proof.
  intros Hfinal Htext. unfold final_confirmation.
  unfold bind at 1. unfold catch. unfold bind at 1.
  unfold wait_for_response, catch, call. rewrite Hfinal.
  unfold text_lower. rewrite Htext. unfold bind, ret.
  destruct (str_in "done" (lower t) || str_in "sent" (lower t))%bool; reflexivity.
Qed.

(** Steps 1 to 5 wait 30 seconds at every wait. *)
Lemma steps_1_to_4_waits env url n :
  emits_at_most is_other_wait 0 (steps_1_to_4 env url n).
Proof.
  unfold steps_1_to_4, caption_step, download_photo, wait_for_response.
  quiet; apply text_lower_quiet.
Qed.

Lemma peer_selection_loop_waits env u fuel :
  forall rc m, emits_at_most is_other_wait 0 (peer_selection_loop env u fuel rc m).
Proof.
  induction fuel as [| fuel IH]; intros rc m; cbn [peer_selection_loop];
    [apply emits_ret |].
  destruct (rc <=? max_retries); [| apply emits_ret].
  apply emits_bind0;
    [unfold handle_user_selection, wait_for_response; quiet | intros response].
  apply emits_bind0; [apply text_lower_quiet | intros t].
  destruct (is_rejection t); [| apply emits_ret].
  destruct (max_retries <? rc + 1); [apply emits_raise |].
  apply emits_bind0; [unfold establish_contact; quiet | intros _].
  apply emits_bind0; [unfold click_try_again; quiet | intros _].
  apply emits_bind0; [unfold wait_for_response; quiet | intros next].
  apply IH.
Qed.

(** C3, as the code has it.  A wait of 30 seconds that runs out of time
    raises the BotTimeout error, whatever was seen before; steps 1 to 5 make
    no wait but of 30 seconds; and when the transport answers any wait of 30
    seconds made in the run of the flow with a timeout, the flow ends with
    that error.  (The wait of 60 seconds for the final confirmation is not
    one of them; its timeout is caught inside [final_confirmation].) *)
Theorem step_timeout_fails_flow env url u n h :
  (forall h',
      ext_message env (EvGetResponse 30 :: h') = Raise TimeoutError ->
      wait_for_response env 30 h'
      = (Raise bot_timeout, EvLog (LogTimeout 30) :: EvGetResponse 30 :: h')) /\
  (emits_at_most is_other_wait 0 (steps_1_to_4 env url n) /\
   forall fuel rc prompt,
     emits_at_most is_other_wait 0 (peer_selection_loop env u fuel rc prompt)) /\
  (forall later earlier,
      snd (send_ppv env url u n h) = later ++ EvGetResponse 30 :: earlier ++ h ->
      ext_message env (EvGetResponse 30 :: earlier ++ h) = Raise TimeoutError ->
      fst (send_ppv env url u n h) = Raise bot_timeout).
Proof.
  split; [| split].
  - intros h' Htimeout. apply (wait_for_response_timeout env 30 h' Htimeout).
  - split; [apply steps_1_to_4_waits |].
    intros fuel rc prompt. apply peer_selection_loop_waits.
  - intros later earlier Hrun Htimeout.
    destruct (send_ppv_aborts env url u n h) as (evs & Hevs & [Hsame | Hraise]);
      [| assumption].
    pose proof (timed_out_waits_member env later earlier h Htimeout) as Hcounted.
    rewrite <- Hrun, Hevs, Hsame in Hcounted. lia.
Qed.

(** C4.  When the flow reached the final confirmation with the accepted
    selection response [response], the 60 second wait runs out of time and
    the text of [response] contains "preparing" in any letter case, the flow
    returns the success "PPV submitted for sending". *)
Theorem final_timeout_while_preparing env url u n h prompt h0 response h1 t :
  steps_1_to_4 env url n h = (Ok prompt, h0) ->
  peer_selection_loop env u (S max_retries) 0 prompt h0 = (Ok response, h1) ->
  ext_message env (EvGetResponse 60 :: h1) = Raise TimeoutError ->
  msg_text response = Some t ->
  str_in "preparing" (lower t) = true ->
  send_ppv env url u n h
  = (Ok (mkResult "success" "PPV submitted for sending" u),
     EvLog (LogTimeout 60) :: EvGetResponse 60 :: h1).
Proof.
  intros Hsteps Hloop Htimeout Htext Hprep.
  rewrite (send_ppv_final _ _ _ _ _ _ _ _ _ Hsteps Hloop).
  rewrite (final_confirmation_timeout _ _ _ _ _ Htimeout Htext), Hprep.
  reflexivity.
Qed.

(** C5.  When the final message arrives within the 60 second wait and its
    text contains "done" or "sent" in any letter case, the flow returns the
    success "PPV sent successfully" with the username it was given; the six
    scripted replies of the scenario give that result for every input. *)
Theorem final_done_or_sent env url u n h :
  (forall prompt h0 response h1 final t,
      steps_1_to_4 env url n h = (Ok prompt, h0) ->
      peer_selection_loop env u (S max_retries) 0 prompt h0 = (Ok response, h1) ->
      ext_message env (EvGetResponse 60 :: h1) = Ok final ->
      msg_text final = Some t ->
      (str_in "done" (lower t) || str_in "sent" (lower t))%bool = true ->
      send_ppv env url u n h
      = (Ok (mkResult "success" "PPV sent successfully" u), EvGetResponse 60 :: h1)) /\
  fst (send_ppv (scripted no_faults scenario_script) url u n [])
  = Ok (mkResult "success" "PPV sent successfully" u).
Proof.
  split.
  - intros prompt h0 response h1 final t Hsteps Hloop Hfinal Htext Hdone.
    rewrite (send_ppv_final _ _ _ _ _ _ _ _ _ Hsteps Hloop).
    rewrite (final_confirmation_arrives _ _ _ _ _ _ Hfinal Htext), Hdone.
    reflexivity.
  - reflexivity.
Qed.

(** C10.  After a rejection with a retry left, when the click on the retry
    payload fails and the response has no control whose label contains
    "try again", the loop stops there with the error "Could not find 'Try
    again' button": the failed click is its last event, no further selection
    attempt follows, and the flow ends with that error. *)
Theorem missing_retry_control_aborts env u h :
  exists evs,
    establish_contact env u h = (Ok tt, evs ++ h) /\
    forall response e,
      let clicked :=
        EvMessageClick (msg_id response) "sell_refresh"
        :: EvLog LogClickingTryAgain :: evs ++ h in
      ext_unit env clicked = Raise e ->
      no_control (label_matches "Try again") response ->
      count_events is_selection_attempt
        (EvMessageClick (msg_id response) "sell_refresh"
         :: EvLog LogClickingTryAgain :: evs) = 0 /\
      (forall fuel rc prompt h0 t,
          rc < max_retries ->
          handle_user_selection env prompt u h0 = (Ok response, h) ->
          msg_text response = Some t ->
          is_rejection (lower t) = true ->
          peer_selection_loop env u (S fuel) rc prompt h0
          = (Raise retry_control_not_found, clicked)) /\
      (forall url n hs prompt h0 t,
          steps_1_to_4 env url n hs = (Ok prompt, h0) ->
          handle_user_selection env prompt u h0 = (Ok response, h) ->
          msg_text response = Some t ->
          is_rejection (lower t) = true ->
          send_ppv env url u n hs = (Raise retry_control_not_found, clicked)).
Proof.
  destruct (establish_contact_no_attempt env u h) as (evs & Hevs & Hcount).
  destruct (establish_contact_total env u h) as (evs' & Hrun).
  rewrite Hrun in Hevs. simpl in Hevs. apply app_inv_tail in Hevs. subst evs'.
  exists evs. split; [assumption |].
  intros response e clicked Hfail Hnone.
  assert (Hclick : click_try_again env response (evs ++ h)
                   = (Raise retry_control_not_found, clicked)).
  { unfold click_try_again. unfold bind at 1, log at 1.
    unfold catch, call, any_exception. fold clicked. rewrite Hfail.
    unfold bind. rewrite (find_and_click_button_not_found _ _ _ _ Hnone).
    reflexivity. }
  assert (Hloop : forall fuel rc prompt h0 t,
             rc < max_retries ->
             handle_user_selection env prompt u h0 = (Ok response, h) ->
             msg_text response = Some t ->
             is_rejection (lower t) = true ->
             peer_selection_loop env u (S fuel) rc prompt h0
             = (Raise retry_control_not_found, clicked)).
  { intros fuel rc prompt h0 t Hrc Hsel Htext Hrej.
    rewrite (peer_selection_loop_rejected _ _ _ _ _ _ _ _ _ Hrc Hsel Htext Hrej).
    rewrite (bind_ok _ _ _ _ _ Hrun). apply (bind_raise _ _ _ _ _ Hclick). }
  split; [| split].
  - rewrite !count_events_cons. simpl. lia.
  - exact Hloop.
  - intros url n hs prompt h0 t Hsteps Hsel Htext Hrej. unfold send_ppv.
    rewrite (bind_ok _ _ _ _ _ Hsteps).
    apply bind_raise. apply (Hloop max_retries 0 prompt h0 t); try assumption.
    unfold max_retries. lia.
Qed.

(** ** Concrete runs *)


Lemma rejecting_env_always_rejects : always_rejects rejecting_env.
Proof.
  repeat split.
  - intros h. exists rejecting_message, "No exchange in 48h with this user"%string.
    repeat split. discriminate.
  - intros h. eexists. reflexivity.
  - intros h. eexists. reflexivity.
Qed.

(** C3 as stated fails at the final confirmation: the wait of 60 seconds
    runs out of time, the last response seen ("On it boss") has no
    "preparing", and the flow returns a success. *)
Lemma final_timeout_counterexample :
  let run := send_ppv (scripted no_faults on_it_script)
               (photo_url alice_request) "@alice" 100 [] in
  (exists h1, snd run = EvLog (LogTimeout 60) :: EvGetResponse 60 :: h1) /\
  count_events is_timeout (snd run) = 1 /\
  nth 4 on_it_script (Raise TimeoutError) = Ok (text_message 5 "On it boss") /\
  str_in "preparing" (lower "On it boss") = false /\
  fst run = Ok (mkResult "success" "PPV flow completed" "@alice") /\
  (forall e, fst run <> Raise e).
Proof.
  repeat split.
  - eexists. reflexivity.
  - intros e H. discriminate H.
Qed.

Lemma step_timeout_fails_flow_witness :
  let env := scripted no_faults (firstn 2 scenario_script) in
  let run := send_ppv env (photo_url alice_request) "@alice" 100 [] in
  let earlier :=
    [EvButtonClick 2 0 0 (mkButton "Empty" (KeyboardButtonCallback "sell_empty"));
     EvGetResponse 30; EvConvSendFile "photo.jpg" "JFIF"; EvGetResponse 30;
     EvConvSendMessage "/sell"; EvConversation (mkEntity 42 4242);
     EvGetEntity STACCERBOT_USERNAME; EvHttpGet (photo_url alice_request)] in
  wait_for_response env 30 (EvGetResponse 30 :: EvGetResponse 30 :: [])
  = (Raise bot_timeout,
     [EvLog (LogTimeout 30); EvGetResponse 30; EvGetResponse 30; EvGetResponse 30]) /\
  (* the wait of step 3 is the one the transport lets run out of time *)
  snd run = [EvLog (LogTimeout 30)] ++ EvGetResponse 30 :: earlier ++ [] /\
  ext_message env (EvGetResponse 30 :: earlier ++ []) = Raise TimeoutError /\
  fst run = Raise bot_timeout.
Proof.
  intros env run earlier.
  destruct (step_timeout_fails_flow env (photo_url alice_request) "@alice" 100 [])
    as (Hwait & _ & Hfails).
  split; [apply Hwait; reflexivity |].
  split; [reflexivity |]. split; [reflexivity |].
  apply (Hfails [EvLog (LogTimeout 30)] earlier); reflexivity.
Defined.

Lemma final_timeout_while_preparing_witness :
  let env := scripted no_faults preparing_script in
  let h0 := snd (steps_1_to_4 env (photo_url alice_request) 100 []) in
  let h1 := snd (peer_selection_loop env "@alice" 3 0 select_user_prompt h0) in
  send_ppv env (photo_url alice_request) "@alice" 100 []
  = (Ok (mkResult "success" "PPV submitted for sending" "@alice"),
     EvLog (LogTimeout 60) :: EvGetResponse 60 :: h1).
Proof.
  intros env h0 h1.
  apply (final_timeout_while_preparing env _ _ _ _ select_user_prompt h0
           (text_message 5 "On it boss, preparing") h1 "On it boss, preparing");
    reflexivity.
Defined.

Lemma final_done_or_sent_witness :
  let env := scripted no_faults scenario_script in
  let h0 := snd (steps_1_to_4 env (photo_url alice_request) 100 []) in
  let h1 := snd (peer_selection_loop env "@alice" 3 0 select_user_prompt h0) in
  send_ppv env (photo_url alice_request) "@alice" 100 []
  = (Ok (mkResult "success" "PPV sent successfully" "@alice"), EvGetResponse 60 :: h1).
Proof.
  intros env h0 h1.
  apply (proj1 (final_done_or_sent env (photo_url alice_request) "@alice" 100 [])
           select_user_prompt h0 (text_message 5 "On it boss, preparing") h1
           (text_message 6 "Done deal, PPV sent") "Done deal, PPV sent");
    reflexivity.
Defined.

Lemma handle_user_selection_first_request_peer_witness :
  let lookup := [EvGetEntity "alice"; EvLog (LogHandlingSelection "@alice")] in
  (* a prompt whose markup hides the keyboard: no RequestPeer button, and
     an AttributeError instead of ControlNotFound *)
  (no_control is_request_peer hidden_keyboard_prompt /\
   handle_user_selection (scripted no_faults []) hidden_keyboard_prompt "@alice" []
   = (Raise (AttributeError "'ReplyKeyboardHide' object has no attribute 'rows'"),
      [EvLog (LogHandlingSelection "@alice")]) /\
   fst (handle_user_selection (scripted no_faults []) hidden_keyboard_prompt "@alice" [])
   <> Raise control_not_found) /\
  (* no RequestPeer button on a prompt without markup *)
  handle_user_selection (scripted no_faults []) (text_message 4 "Bet") "@alice" []
  = (Raise control_not_found, [EvLog (LogHandlingSelection "@alice")]) /\
  (* the target does not resolve *)
  handle_user_selection (scripted target_unknown []) rejecting_message "@alice" []
  = (Raise (PPVFlowError
              "Could not find user @alice: No user has alice as username"), lookup) /\
  (* both resolve: the reply carries the id 7 of the first RequestPeer button *)
  exists evs,
    snd (handle_user_selection (scripted no_faults []) rejecting_message "@alice" [])
    = evs ++ EvSendBotRequestedPeer (mkEntity 42 4242) 9 7 42 4242
             :: EvGetEntity STACCERBOT_USERNAME :: lookup /\
    count_events is_peer_reply evs = 0.
Proof.
  intros lookup.
  assert (Hfirst : first_control is_request_peer
                     [[select_user_button]; [try_again_button]] 0 0 select_user_button)
    by (apply first_in_rows_first_control; reflexivity).
  split; [| split; [| split]].
  - apply (proj1 (handle_user_selection_first_request_peer
                    (scripted no_faults []) hidden_keyboard_prompt "@alice" [])
             "ReplyKeyboardHide"%string).
    reflexivity.
  - apply (proj1 (proj2 (handle_user_selection_first_request_peer
                    (scripted no_faults []) (text_message 4 "Bet") "@alice" []))).
    + reflexivity.
    + apply no_control_without_buttons. reflexivity.
  - destruct (proj2 (proj2 (handle_user_selection_first_request_peer
                       (scripted target_unknown []) rejecting_message "@alice" []))
                _ 0 0 select_user_button 7%Z eq_refl Hfirst eq_refl)
      as (Hunknown & _).
    apply (Hunknown (OtherException "No user has alice as username")). reflexivity.
  - destruct (proj2 (proj2 (handle_user_selection_first_request_peer
                       (scripted no_faults []) rejecting_message "@alice" []))
                _ 0 0 select_user_button 7%Z eq_refl Hfirst eq_refl)
      as (_ & Hreply).
    apply (Hreply (mkEntity 42 4242) (mkEntity 42 4242)); reflexivity.
Defined.


Lemma caption_step_empty_or_text_witness :
  let env := scripted no_faults [Ok (text_message 3 "How many stars")] in
  let empty := mkButton "Empty ✨" (KeyboardButtonCallback "sell_empty") in
  caption_step env caption_prompt []
  = (Ok (text_message 3 "How many stars"),
     [EvGetResponse 30; EvButtonClick 2 0 1 empty]) /\
  caption_step env (text_message 2 "Looks good... caption") []
  = (Ok (text_message 3 "How many stars"),
     [EvGetResponse 30; EvConvSendMessage "Empty"; EvLog LogNoEmptyButton]).
Proof.
  intros env empty.
  assert (Hfirst : first_control (label_matches "Empty")
                     [[mkButton "Cancel" (KeyboardButtonCallback "sell_cancel"); empty]]
                     0 1 empty)
    by (apply first_in_rows_first_control; reflexivity).
  split.
  - rewrite (proj1 (proj2 (caption_step_empty_or_text env caption_prompt []))
               _ 0 1 empty eq_refl Hfirst).
    reflexivity.
  - rewrite (proj2 (proj2 (caption_step_empty_or_text env
                             (text_message 2 "Looks good... caption") []))
               (no_control_without_buttons _
                  (text_message 2 "Looks good... caption") eq_refl)).
    reflexivity.
Defined.

(** The greeting to the target fails; the loop goes on with the retry click. *)
Lemma establish_contact_failures_swallowed_witness :
  let env := scripted greeting_fails [Ok rejecting_message] in
  let h := snd (handle_user_selection env select_user_prompt "@alice" []) in
  exists evs,
    establish_contact env "@alice" h = (Ok tt, evs ++ h) /\
    peer_selection_loop env "@alice" 3 0 select_user_prompt []
    = (click_try_again env rejecting_message ;;
       next <- wait_for_response env 30 ;;
       peer_selection_loop env "@alice" 2 1 next) (evs ++ h).
Proof.
  intros env h.
  destruct (establish_contact_failures_swallowed env "@alice" h)
    as (evs & Hrun & _ & Hloop).
  exists evs. split; [exact Hrun |].
  apply (Hloop 2 0 select_user_prompt [] rejecting_message
           "No exchange in 48h with this user"%string);
    [unfold max_retries; apply le_n_S, le_S, le_n | reflexivity ..].
Defined.

(** The retry click fails and the rejection has no "Try again" control. *)
Lemma missing_retry_control_aborts_witness :
  let env := scripted retry_click_fails [Ok bare_rejection] in
  let h := snd (handle_user_selection env select_user_prompt "@alice" []) in
  exists evs,
    establish_contact env "@alice" h = (Ok tt, evs ++ h) /\
    peer_selection_loop env "@alice" 3 0 select_user_prompt []
    = (Raise retry_control_not_found,
       EvMessageClick 5 "sell_refresh" :: EvLog LogClickingTryAgain :: evs ++ h).
Proof.
  intros env h.
  destruct (missing_retry_control_aborts env "@alice" h) as (evs & Hrun & Hrest).
  exists evs. split; [exact Hrun |].
  destruct (Hrest bare_rejection (OtherException "DATA_INVALID") eq_refl
              (no_control_searched (label_matches "Try again") bare_rejection _
                 eq_refl eq_refl))
    as (_ & Hloop & _).
  apply (Hloop 2 0 select_user_prompt [] "No exchange in 48h with this user"%string);
    [unfold max_retries; apply le_n_S, le_S, le_n | reflexivity ..].
Defined.

(** ** Further properties of the flow *)

(** *** Budgets of calls *)

Section Budgets.

Variable P : Event -> bool.

Lemma emits_call_1 env {A} ev (answer : Env -> History -> Res A) :
  emits_at_most P 1 (call env ev answer).
Proof.
  intros h. exists [ev]. split; [reflexivity |].
  unfold count_events. simpl. destruct (P ev); simpl; lia.
Qed.

Lemma emits_log_1 line : emits_at_most P 1 (log line).
Proof.
  intros h. exists [EvLog line]. split; [reflexivity |].
  unfold count_events. simpl. destruct (P (EvLog line)); simpl; lia.
Qed.

Lemma emits_if {A} (b : bool) (m1 m2 : M A) n1 n2 :
  emits_at_most P n1 m1 -> emits_at_most P n2 m2 ->
  emits_at_most P (Nat.max n1 n2) (if b then m1 else m2).
Proof.
  intros H1 H2. destruct b; [apply (emits_weaken P _ n1) | apply (emits_weaken P _ n2)];
    try assumption; lia.
Qed.

Lemma emits_option {A B} (x : option A) (f : A -> M B) (m : M B) n1 n2 :
  (forall a, emits_at_most P n1 (f a)) -> emits_at_most P n2 m ->
  emits_at_most P (Nat.max n1 n2) (match x with Some a => f a | None => m end).
Proof.
  intros H1 H2. destruct x as [a |];
    [apply (emits_weaken P _ n1) | apply (emits_weaken P _ n2)];
    try apply H1; try assumption; lia.
Qed.

Lemma emits_catch_any_n {A} (m : M A) (handler : Exception -> M A) n1 n2 :
  emits_at_most P n1 m -> (forall e, emits_at_most P n2 (handler e)) ->
  emits_at_most P (n1 + n2) (catch m (any_exception handler)).
Proof.
  intros Hm Hh. apply emits_catch; [assumption |].
  intros e handler' Hsel. injection Hsel as <-. apply Hh.
Qed.

Lemma emits_catch_ppv_n {A} (m handler : M A) n1 n2 :
  emits_at_most P n1 m -> emits_at_most P n2 handler ->
  emits_at_most P (n1 + n2) (catch m (only_PPVFlowError handler)).
Proof.
  intros Hm Hh. apply emits_catch; [assumption |].
  intros e handler' Hsel. destruct e; simpl in Hsel; try discriminate.
  injection Hsel as <-. assumption.
Qed.

Lemma emits_catch_timeout_n {A} (m handler : M A) n1 n2 :
  emits_at_most P n1 m -> emits_at_most P n2 handler ->
  emits_at_most P (n1 + n2) (catch m (only_TimeoutError handler)).
Proof.
  intros Hm Hh. apply emits_catch; [assumption |].
  intros e handler' Hsel. destruct e; simpl in Hsel; try discriminate.
  injection Hsel as <-. assumption.
Qed.

Lemma emits_count {A} (m : M A) n h evs :
  emits_at_most P n m -> snd (m h) = evs ++ h -> count_events P evs <= n.
Proof.
  intros Hm Hevs. destruct (Hm h) as (evs' & Hevs' & Hn).
  rewrite Hevs in Hevs'. apply app_inv_tail in Hevs'. subst evs'. assumption.
Qed.

(** The loop costs one selection per pass and one recovery per retry. *)
Lemma peer_selection_loop_budget env u a e1 e2 e3 :
  (forall m, emits_at_most P a (handle_user_selection env m u)) ->
  emits_at_most P e1 (establish_contact env u) ->
  (forall m, emits_at_most P e2 (click_try_again env m)) ->
  emits_at_most P e3 (wait_for_response env 30) ->
  forall fuel rc m,
    emits_at_most P (a + (a + e1 + e2 + e3) * (max_retries - rc))
      (peer_selection_loop env u fuel rc m).
Proof.
  intros Hsel Hest Hclick Hwait.
  induction fuel as [| fuel IH]; intros rc m; cbn [peer_selection_loop].
  - apply (emits_weaken _ _ 0); [apply Nat.le_0_l | apply emits_ret].
  - destruct (Nat.leb_spec rc max_retries) as [Hle | Hgt];
      [| apply (emits_weaken _ _ 0); [apply Nat.le_0_l | apply emits_ret]].
    apply (emits_bind _ _ _ a ((a + e1 + e2 + e3) * (max_retries - rc)));
      [apply Hsel | intros response].
    apply (emits_bind _ _ _ 0 ((a + e1 + e2 + e3) * (max_retries - rc)));
      [apply text_lower_quiet | intros t].
    destruct (is_rejection t);
      [| apply (emits_weaken _ _ 0); [apply Nat.le_0_l | apply emits_ret]].
    destruct (Nat.ltb_spec max_retries (rc + 1)) as [Hlast | Hmore];
      [apply (emits_weaken _ _ 0); [apply Nat.le_0_l | apply emits_raise] |].
    replace (max_retries - rc) with (S (max_retries - (rc + 1))) by lia.
    rewrite Nat.mul_succ_r.
    set (rest := (a + e1 + e2 + e3) * (max_retries - (rc + 1))).
    apply (emits_weaken _ _ (e1 + (e2 + (e3 + (a + rest))))); [lia |].
    apply emits_bind; [apply Hest | intros _].
    apply emits_bind; [apply Hclick | intros _].
    apply emits_bind; [apply Hwait | intros next].
    apply IH.
Qed.

End Budgets.

(** Goals [emits_at_most P ?n m] with the bound still to be found: the
    bound is read off the structure of [m]. *)
Ltac budget :=
  repeat
    match goal with
    | |- emits_at_most _ _ (ret _) => apply emits_ret
    | |- emits_at_most _ _ (raise _) => apply emits_raise
    | |- emits_at_most _ _ (text_lower _) => apply text_lower_quiet
    | |- emits_at_most _ _ (log _) =>
        first [apply emits_log; reflexivity | apply emits_log_1]
    | |- emits_at_most _ _ (call _ _ _) =>
        first [apply emits_call; reflexivity | apply emits_call_1]
    | |- emits_at_most _ _ (find_and_click_button _ _ _) =>
        apply emits_find_and_click_button; intros; reflexivity
    | |- emits_at_most _ _ (bind _ _) => eapply emits_bind; [ | intro ]
    | |- emits_at_most _ _ (catch _ (any_exception _)) =>
        eapply emits_catch_any_n; [ | intro ]
    | |- emits_at_most _ _ (catch _ (only_PPVFlowError _)) => eapply emits_catch_ppv_n
    | |- emits_at_most _ _ (catch _ (only_TimeoutError _)) =>
        eapply emits_catch_timeout_n
    | |- emits_at_most _ _ (if _ then _ else _) => eapply emits_if
    | |- emits_at_most _ _ (match _ with Some _ => _ | None => _ end) =>
        eapply emits_option; [intro | ]
    | |- emits_at_most _ _ (let _ := _ in _) => cbv zeta
    end.

(** [emits_at_most P n m] for a given [n]. *)
Ltac within_budget :=
  eapply emits_weaken; cycle 1; [budget | simpl; lia].

(** The pieces of [send_ppv], unfolded for [budget]. *)
Ltac piece_budget :=
  intros;
  unfold steps_1_to_4, caption_step, download_photo, handle_user_selection,
    establish_contact, click_try_again, final_confirmation, wait_for_response;
  within_budget.

Section FlowBudgets.

Variable env : Env.
Variable P : Event -> bool.

Lemma send_ppv_budget url u n s a e1 e2 e3 f :
  emits_at_most P s (steps_1_to_4 env url n) ->
  (forall m, emits_at_most P a (handle_user_selection env m u)) ->
  emits_at_most P e1 (establish_contact env u) ->
  (forall m, emits_at_most P e2 (click_try_again env m)) ->
  emits_at_most P e3 (wait_for_response env 30) ->
  (forall m, emits_at_most P f (final_confirmation env u m)) ->
  emits_at_most P (s + (a + (a + e1 + e2 + e3) * max_retries + f))
    (send_ppv env url u n).
Proof.
  intros Hsteps Hsel Hest Hclick Hwait Hfinal. unfold send_ppv.
  apply emits_bind; [assumption | intros prompt].
  apply emits_bind; [| intros response; apply Hfinal].
  replace max_retries with (max_retries - 0) at 1 by apply Nat.sub_0_r.
  apply peer_selection_loop_budget; assumption.
Qed.

End FlowBudgets.

Lemma send_ppv_waits_30 env url u n :
  emits_at_most (is_wait 30) 9 (send_ppv env url u n).
Proof. apply (send_ppv_budget env _ url u n 4 1 0 0 1 0); piece_budget. Qed.

Lemma send_ppv_waits_60 env url u n :
  emits_at_most (is_wait 60) 1 (send_ppv env url u n).
Proof. apply (send_ppv_budget env _ url u n 0 0 0 0 0 1); piece_budget. Qed.

Lemma send_ppv_files env url u n :
  emits_at_most is_send_file 1 (send_ppv env url u n).
Proof. apply (send_ppv_budget env _ url u n 1 0 0 0 0 0); piece_budget. Qed.

Lemma send_ppv_peer_replies env url u n :
  emits_at_most is_peer_reply 3 (send_ppv env url u n).
Proof. apply (send_ppv_budget env _ url u n 0 1 0 0 0 0); piece_budget. Qed.

Lemma send_ppv_retry_clicks env url u n :
  emits_at_most is_retry_click 2 (send_ppv env url u n).
Proof. apply (send_ppv_budget env _ url u n 0 0 0 1 0 0); piece_budget. Qed.

Lemma send_ppv_greetings env url u n :
  emits_at_most is_greeting 2 (send_ppv env url u n).
Proof. apply (send_ppv_budget env _ url u n 0 0 1 0 0 0); piece_budget. Qed.

Lemma send_ppv_deletes env url u n :
  emits_at_most is_delete 2 (send_ppv env url u n).
Proof. apply (send_ppv_budget env _ url u n 0 0 1 0 0 0); piece_budget. Qed.

Lemma send_ppv_establishing env url u n :
  emits_at_most is_establishing 2 (send_ppv env url u n).
Proof. apply (send_ppv_budget env _ url u n 0 0 1 0 0 0); piece_budget. Qed.

(** X1.  Whatever the transport does, one flow makes at most nine waits of
    30 seconds and one of 60, sends at most one file, answers the peer
    request at most three times and clicks the retry payload at most twice.
    A transport that always rejects reaches the bounds on the waits of 30
    seconds, the peer replies and the retry clicks. *)
Theorem flow_call_budget env url u n h :
  (exists evs,
      snd (send_ppv env url u n h) = evs ++ h /\
      count_events (is_wait 30) evs <= 9 /\
      count_events (is_wait 60) evs <= 1 /\
      count_events is_send_file evs <= 1 /\
      count_events is_peer_reply evs <= 3 /\
      count_events is_retry_click evs <= 2) /\
  (let evs := snd (send_ppv rejecting_env url u n []) in
   count_events (is_wait 30) evs = 9 /\
   count_events is_peer_reply evs = 3 /\
   count_events is_retry_click evs = 2).
Proof.
  split.
  - destruct (send_ppv_waits_30 env url u n h) as (evs & Hevs & Hwaits).
    exists evs. split; [assumption |]. split; [assumption |].
    split; [apply (emits_count _ _ _ h _ (send_ppv_waits_60 env url u n) Hevs) |].
    split; [apply (emits_count _ _ _ h _ (send_ppv_files env url u n) Hevs) |].
    split; [apply (emits_count _ _ _ h _ (send_ppv_peer_replies env url u n) Hevs) |].
    apply (emits_count _ _ _ h _ (send_ppv_retry_clicks env url u n) Hevs).
  - repeat split.
Qed.

(** X2.  One flow writes to the target user at most twice: the Contact
    Establisher is entered at most twice, so at most two greetings are sent
    and at most two messages deleted. *)
Theorem flow_target_budget env url u n h :
  exists evs,
    snd (send_ppv env url u n h) = evs ++ h /\
    count_events is_establishing evs <= 2 /\
    count_events is_greeting evs <= 2 /\
    count_events is_delete evs <= 2.
Proof.
  destruct (send_ppv_establishing env url u n h) as (evs & Hevs & Hest).
  exists evs. split; [assumption |]. split; [assumption |].
  split; [apply (emits_count _ _ _ h _ (send_ppv_greetings env url u n) Hevs) |].
  apply (emits_count _ _ _ h _ (send_ppv_deletes env url u n) Hevs).
Qed.

(** *** Reading a run backwards *)

Lemma bind_fst_ok {A B} (m : M A) (f : A -> M B) h b :
  fst (bind m f h) = Ok b ->
  exists a h1, m h = (Ok a, h1) /\ bind m f h = f a h1.
Proof.
  unfold bind. destruct (m h) as [[a | e] h1]; simpl; intros H; [| discriminate].
  exists a, h1. split; reflexivity.
Qed.

Lemma emits_zero_count {A} P (m : M A) h :
  emits_at_most P 0 m -> count_events P (snd (m h)) = count_events P h.
Proof.
  intros Hm. destruct (Hm h) as (evs & -> & Hn).
  rewrite count_events_app. lia.
Qed.

Lemma emits_le_count {A} P (m : M A) n h :
  emits_at_most P n m ->
  count_events P h <= count_events P (snd (m h)) <= count_events P h + n.
Proof.
  intros Hm. destruct (Hm h) as (evs & -> & Hn).
  rewrite count_events_app. lia.
Qed.

Lemma handle_user_selection_ok_inv env m u h response h' :
  handle_user_selection env m u h = (Ok response, h') ->
  exists id target bot,
    let lookup := EvGetEntity (lstrip_at u) :: EvLog (LogHandlingSelection u) :: h in
    let sent := EvSendBotRequestedPeer bot (msg_id m) id (ent_id target)
                  (access_hash target)
                :: EvGetEntity STACCERBOT_USERNAME :: lookup in
    find_request_peer m = Some id /\
    ext_entity env lookup = Ok target /\
    ext_entity env (EvGetEntity STACCERBOT_USERNAME :: lookup) = Ok bot /\
    ext_unit env sent = Ok tt /\
    ext_message env (EvGetResponse 30 :: sent) = Ok response /\
    h' = EvGetResponse 30 :: sent.
Proof.
  unfold handle_user_selection, wait_for_response.
  unfold bind, log, catch, call, any_exception, only_TimeoutError, raise.
  destruct (rows_missing m); [discriminate |].
  destruct (find_request_peer m) as [id |]; [| discriminate].
  destruct (ext_entity env
              (EvGetEntity (lstrip_at u) :: EvLog (LogHandlingSelection u) :: h))
    as [target | e] eqn:Htarget; [| discriminate].
  destruct (ext_entity env
              (EvGetEntity STACCERBOT_USERNAME
               :: EvGetEntity (lstrip_at u) :: EvLog (LogHandlingSelection u) :: h))
    as [bot | e] eqn:Hbot; [| discriminate].
  match goal with
  | |- context [ext_unit env ?sent] =>
      destruct (ext_unit env sent) as [[] | e] eqn:Hsent; [| discriminate]
  end.
  match goal with
  | |- context [ext_message env ?waited] =>
      destruct (ext_message env waited) as [got | e] eqn:Hgot;
        [| destruct e; discriminate]
  end.
  intros H. injection H as <- <-.
  exists id, target, bot. repeat split; assumption.
Qed.

(** Whatever the loop returns normally is the response of a selection that
    went through, and it is no rejection. *)
Lemma peer_selection_loop_ok_inv env u fuel :
  forall rc prompt h response h1,
    S max_retries - rc <= fuel ->
    rc <= max_retries ->
    peer_selection_loop env u fuel rc prompt h = (Ok response, h1) ->
    exists t asked hsel,
      msg_text response = Some t /\
      is_rejection (lower t) = false /\
      handle_user_selection env asked u hsel = (Ok response, h1).
Proof.
  induction fuel as [| fuel IH]; intros rc prompt h response h1 Hfuel Hrc Hrun;
    [lia |].
  cbn [peer_selection_loop] in Hrun.
  destruct (Nat.leb_spec rc max_retries); [| lia].
  unfold bind at 1 in Hrun.
  destruct (handle_user_selection env prompt u h) as [[got | e] hs] eqn:Hsel;
    [| discriminate].
  unfold text_lower in Hrun.
  destruct (msg_text got) as [t |] eqn:Htext; [| discriminate].
  unfold bind at 1, ret at 1 in Hrun.
  destruct (is_rejection (lower t)) eqn:Hrej.
  - destruct (Nat.ltb_spec max_retries (rc + 1)); [discriminate |].
    unfold bind at 1 in Hrun.
    destruct (establish_contact env u hs) as [[[] | e] h2]; [| discriminate].
    unfold bind at 1 in Hrun.
    destruct (click_try_again env got h2) as [[[] | e] h3]; [| discriminate].
    unfold bind at 1 in Hrun.
    destruct (wait_for_response env 30 h3) as [[next | e] h4]; [| discriminate].
    apply (IH (rc + 1) next h4 response h1); [lia | lia | assumption].
  - injection Hrun as <- <-. exists t, prompt, h. repeat split; assumption.
Qed.

Lemma final_confirmation_ok_inv env u response h r h' :
  final_confirmation env u response h = (Ok r, h') ->
  (r = sent_successfully u \/ r = submitted_for_sending u \/ r = flow_completed u) /\
  (h' = EvGetResponse 60 :: h \/ h' = EvLog (LogTimeout 60) :: EvGetResponse 60 :: h).
Proof.
  unfold final_confirmation, wait_for_response.
  unfold bind, catch, call, only_TimeoutError, only_PPVFlowError, log, raise, ret.
  destruct (ext_message env (EvGetResponse 60 :: h)) as [final | e].
  - unfold text_lower. destruct (msg_text final) as [t |]; [| discriminate].
    unfold ret.
    destruct (str_in "done" (lower t) || str_in "sent" (lower t))%bool;
      intros H; injection H as <- <-; auto.
  - destruct e; try discriminate; unfold text_lower;
      (destruct (msg_text response) as [t |]; [| discriminate]);
      unfold ret; (destruct (str_in "preparing" (lower t)));
      intros H; injection H as <- <-; auto.
Qed.

(** *** Three rejected selections *)

Lemma fst_run {A} (m : M A) h a : fst (m h) = Ok a -> m h = (Ok a, snd (m h)).
Proof. destruct (m h) as [r h']. simpl. intros ->. reflexivity. Qed.

Lemma establish_contact_no_peer_reply env u :
  emits_at_most is_peer_reply 0 (establish_contact env u).
Proof. unfold establish_contact. quiet. Qed.

Lemma click_try_again_no_peer_reply env m :
  emits_at_most is_peer_reply 0 (click_try_again env m).
Proof. unfold click_try_again. quiet. Qed.

Lemma steps_1_to_4_no_peer_reply env url n :
  emits_at_most is_peer_reply 0 (steps_1_to_4 env url n).
Proof.
  unfold steps_1_to_4, caption_step, download_photo.
  quiet; try apply wait_for_response_no_peer_reply; apply text_lower_quiet.
Qed.

Lemma peer_selection_loop_peer_replies env u fuel prompt :
  emits_at_most is_peer_reply 3 (peer_selection_loop env u fuel 0 prompt).
Proof.
  apply (emits_weaken _ _ (1 + (1 + 0 + 0 + 0) * (max_retries - 0))); [reflexivity |].
  apply peer_selection_loop_budget; piece_budget.
Qed.

(** A selection that went through made one attempt and one structured
    reply. *)
Lemma selection_rejected_events env u prompt h response h' :
  selection_rejected env u prompt h response h' ->
  exists evs,
    h' = evs ++ h /\
    count_events is_selection_attempt evs = 1 /\
    count_events is_peer_reply evs = 1.
Proof.
  intros [Hsel _].
  destruct (handle_user_selection_ok_inv _ _ _ _ _ _ Hsel)
    as (id & target & bot & _ & _ & _ & _ & _ & Hh').
  cbv zeta in Hh'. subst h'.
  exists [EvGetResponse 30;
          EvSendBotRequestedPeer bot (msg_id prompt) id (ent_id target) (access_hash target);
          EvGetEntity STACCERBOT_USERNAME; EvGetEntity (lstrip_at u);
          EvLog (LogHandlingSelection u)].
  repeat split.
Qed.

(** A recovery makes neither. *)
Lemma retried_events env u response h next h' :
  retried env u response h next h' ->
  exists evs,
    h' = evs ++ h /\
    count_events is_selection_attempt evs = 0 /\
    count_events is_peer_reply evs = 0.
Proof.
  intros (clicked & Hclick & Hwait).
  destruct (establish_contact_no_attempt env u h) as (e1 & He1 & Ha1).
  pose proof (emits_count is_peer_reply _ _ h e1
                (establish_contact_no_peer_reply env u) He1) as Hp1.
  rewrite He1 in Hclick.
  destruct (click_try_again_no_attempt env response (e1 ++ h)) as (e2 & He2 & Ha2).
  pose proof (emits_count is_peer_reply _ _ (e1 ++ h) e2
                (click_try_again_no_peer_reply env response) He2) as Hp2.
  rewrite Hclick in He2. simpl in He2. subst clicked.
  destruct (wait_for_response_no_attempt env 30 (e2 ++ e1 ++ h)) as (e3 & He3 & Ha3).
  pose proof (emits_count is_peer_reply _ _ (e2 ++ e1 ++ h) e3
                (wait_for_response_no_peer_reply env 30) He3) as Hp3.
  rewrite Hwait in He3. simpl in He3. subst h'.
  exists (e3 ++ e2 ++ e1). split; [rewrite <- !app_assoc; reflexivity |].
  rewrite !count_events_app. lia.
Qed.

(** With [k] retries left, [S k] rejected selections exhaust the loop. *)
Lemma rejected_rounds_exhaust env u k :
  forall rc prompt h h_end,
    rc + k = max_retries ->
    rejected_rounds env u k prompt h h_end ->
    peer_selection_loop env u (S k) rc prompt h = (Raise contact_not_established, h_end) /\
    exists evs,
      h_end = evs ++ h /\
      count_events is_selection_attempt evs = S k /\
      count_events is_peer_reply evs = S k.
Proof.
  induction k as [| k IH]; intros rc prompt h h_end Hrc Hrounds.
  - destruct Hrounds as (response & Hrej).
    split; [| exact (selection_rejected_events _ _ _ _ _ _ Hrej)].
    destruct Hrej as (Hsel & t & Ht & Hmark).
    cbn [peer_selection_loop]. destruct (Nat.leb_spec rc max_retries); [| lia].
    rewrite (bind_ok _ _ _ _ _ Hsel).
    unfold text_lower. rewrite Ht. unfold bind at 1, ret at 1. rewrite Hmark.
    destruct (Nat.ltb_spec max_retries (rc + 1)); [reflexivity | lia].
  - destruct Hrounds as (response & h1 & next & h2 & Hrej & Hretry & Hrest).
    assert (Hnext : rc + 1 + k = max_retries) by lia.
    destruct (IH (rc + 1) next h2 h_end Hnext Hrest) as (Hloop & evs3 & -> & Ha3 & Hp3).
    destruct (selection_rejected_events _ _ _ _ _ _ Hrej) as (evs1 & -> & Ha1 & Hp1).
    destruct (retried_events _ _ _ _ _ _ Hretry) as (evs2 & -> & Ha2 & Hp2).
    split.
    + destruct Hrej as (Hsel & t & Ht & Hmark).
      assert (Hlt : rc < max_retries) by lia.
      rewrite (peer_selection_loop_rejected _ _ _ _ _ _ _ _ _ Hlt Hsel Ht Hmark).
      destruct Hretry as (clicked & Hclick & Hwait).
      destruct (establish_contact_total env u (evs1 ++ h)) as (e & Hest).
      rewrite (bind_ok _ _ _ _ _ Hest). rewrite Hest in Hclick. simpl in Hclick.
      rewrite (bind_ok _ _ _ _ _ Hclick), (bind_ok _ _ _ _ _ Hwait).
      exact Hloop.
    + exists (evs3 ++ evs2 ++ evs1). split; [rewrite <- !app_assoc; reflexivity |].
      rewrite !count_events_app. lia.
Qed.

Lemma send_ppv_rejected_rounds env url u n h prompt h0 h_end :
  steps_1_to_4 env url n h = (Ok prompt, h0) ->
  rejected_rounds env u max_retries prompt h0 h_end ->
  send_ppv env url u n h = (Raise contact_not_established, h_end) /\
  exists evs,
    h_end = evs ++ h0 /\
    count_events is_selection_attempt evs = 3 /\
    count_events is_peer_reply evs = 3.
Proof.
  intros Hsteps Hrounds.
  destruct (rejected_rounds_exhaust env u max_retries 0 prompt h0 h_end eq_refl Hrounds)
    as (Hloop & Hevs).
  split; [| exact Hevs].
  unfold send_ppv. rewrite (bind_ok _ _ _ _ _ Hsteps).
  apply bind_raise. exact Hloop.
Qed.

(** A transport that rejects every selection gives such rounds, from any
    prompt that offers the peer request. *)
Lemma rejects_selections_rounds env u k :
  rejects_selections env ->
  forall prompt h,
    find_request_peer prompt <> None ->
    exists h_end, rejected_rounds env u k prompt h h_end.
Proof.
  intros (Hentity & Hreply & Hrejected & Hclick & Hprompt).
  assert (Hsel : forall prompt h,
             find_request_peer prompt <> None ->
             exists response h1, selection_rejected env u prompt h response h1).
  { intros prompt h Hpeer.
    pose proof (find_request_peer_rows_present _ Hpeer) as Hrows.
    destruct (find_request_peer prompt) as [id |] eqn:Hid; [| contradiction].
    destruct (Hentity (lstrip_at u) (EvLog (LogHandlingSelection u) :: h))
      as (target & Htarget).
    destruct (Hentity STACCERBOT_USERNAME
                (EvGetEntity (lstrip_at u) :: EvLog (LogHandlingSelection u) :: h))
      as (bot & Hbot).
    pose proof (Hreply bot (msg_id prompt) id (ent_id target) (access_hash target)
                  (EvGetEntity STACCERBOT_USERNAME :: EvGetEntity (lstrip_at u)
                   :: EvLog (LogHandlingSelection u) :: h)) as Hsent.
    destruct (Hrejected bot (msg_id prompt) id (ent_id target) (access_hash target)
                (EvGetEntity STACCERBOT_USERNAME :: EvGetEntity (lstrip_at u)
                 :: EvLog (LogHandlingSelection u) :: h))
      as (response & t & Hresponse & Ht & Hmark).
    exists response. eexists.
    split; [| exists t; split; assumption].
    unfold handle_user_selection. rewrite Hrows, Hid.
    unfold wait_for_response, bind, log, catch, call, any_exception.
    cbv beta iota zeta. rewrite Htarget. cbv beta iota.
    rewrite Hbot. cbv beta iota. rewrite Hsent. cbv beta iota.
    rewrite Hresponse. reflexivity. }
  induction k as [| k IH]; intros prompt h Hpeer;
    destruct (Hsel prompt h Hpeer) as (response & h1 & Hrej).
  - exists h1, response. exact Hrej.
  - set (h_est := snd (establish_contact env u h1)).
    set (clicked := EvMessageClick (msg_id response) "sell_refresh"
                    :: EvLog LogClickingTryAgain :: h_est).
    destruct (Hprompt (msg_id response) (EvLog LogClickingTryAgain :: h_est))
      as (next & Hnext & Hpeer').
    destruct (IH next (EvGetResponse 30 :: clicked) Hpeer') as (h_end & Hrounds).
    exists h_end, response, h1, next, (EvGetResponse 30 :: clicked).
    split; [assumption |]. split; [| assumption].
    exists clicked. fold h_est. split.
    + unfold click_try_again, bind, log, catch, call.
      rewrite Hclick. reflexivity.
    + unfold wait_for_response, catch, call. unfold clicked at 1.
      rewrite Hnext. reflexivity.
Qed.

Lemma always_rejects_selections env : always_rejects env -> rejects_selections env.
Proof.
  intros (Hmessage & Hentity & _ & Hunit).
  split; [intros name h; apply Hentity |].
  split; [intros; apply Hunit; reflexivity |].
  split.
  { intros bot mid bid uid uh h.
    destruct (Hmessage (EvGetResponse 30 :: EvSendBotRequestedPeer bot mid bid uid uh :: h))
      as (m & t & Hm & Ht & Hmark & _).
    exists m, t. repeat split; assumption. }
  split; [intros; apply Hunit; reflexivity |].
  intros mid h.
  destruct (Hmessage (EvGetResponse 30 :: EvMessageClick mid "sell_refresh" :: h))
    as (m & t & Hm & _ & _ & Hpeer).
  exists m. split; assumption.
Qed.


Lemma selection_rejecting_env_rejects : rejects_selections selection_rejecting_env.
Proof.
  split; [intros name h; eexists; reflexivity |].
  split; [reflexivity |].
  split; [intros; exists (rejection_notice 5), "No exchange in 48h with this user"%string;
          repeat split |].
  split; [reflexivity |].
  intros mid h. exists (selection_prompt 6). split; [reflexivity | discriminate].
Qed.


(** X3.  A result of [send_ppv] is only ever returned after the transport
    accepted a structured peer reply and the bot answered it with a text
    carrying no rejection marker; the result has the status "success", the
    username the flow was given and one of the three messages.  A failure is
    never a returned result. *)
Theorem success_only_after_accepted_selection env url u n h r :
  fst (send_ppv env url u n h) = Ok r ->
  (status r = "success"%string /\ username_of r = u /\
   (message r = "PPV sent successfully"%string \/
    message r = "PPV submitted for sending"%string \/
    message r = "PPV flow completed"%string)) /\
  exists response t asked bot id uid uhash hsel final_evs,
    let reply := EvSendBotRequestedPeer bot (msg_id asked) id uid uhash :: hsel in
    snd (send_ppv env url u n h) = final_evs ++ EvGetResponse 30 :: reply /\
    ext_unit env reply = Ok tt /\
    ext_message env (EvGetResponse 30 :: reply) = Ok response /\
    msg_text response = Some t /\
    is_rejection (lower t) = false.
Proof.
  intros Hok. unfold send_ppv in *.
  destruct (bind_fst_ok _ _ _ _ Hok) as (prompt & h0 & Hsteps & Hrest).
  rewrite Hrest in *. clear Hrest.
  destruct (bind_fst_ok _ _ _ _ Hok) as (response & h1 & Hloop & Hrest).
  rewrite Hrest in *. clear Hrest.
  destruct (final_confirmation env u response h1) as [r' h'] eqn:Hfinal.
  simpl in Hok. subst r'.
  destruct (final_confirmation_ok_inv _ _ _ _ _ _ Hfinal) as (Hr & Hh').
  split.
  - destruct Hr as [-> | [-> | ->]]; simpl; auto.
  - destruct (peer_selection_loop_ok_inv env u (S max_retries) 0 prompt h0
                response h1 (le_n _) (Nat.le_0_l _) Hloop)
      as (t & asked & hsel & Htext & Hrej & Hsel).
    destruct (handle_user_selection_ok_inv _ _ _ _ _ _ Hsel)
      as (id & target & bot & _ & _ & _ & Hsent & Hgot & ->).
    exists response, t, asked, bot, id, (ent_id target), (access_hash target).
    eexists.
    destruct Hh' as [-> | ->].
    + exists [EvGetResponse 60]. repeat split; eassumption.
    + exists [EvLog (LogTimeout 60); EvGetResponse 60]. repeat split; eassumption.
Qed.

Lemma success_only_after_accepted_selection_witness :
  let run := send_ppv (scripted no_faults scenario_script)
               (photo_url alice_request) "@alice" 100 [] in
  status (sent_successfully "@alice") = "success"%string /\
  exists response t asked bot id uid uhash hsel final_evs,
    let reply := EvSendBotRequestedPeer bot (msg_id asked) id uid uhash :: hsel in
    snd run = final_evs ++ EvGetResponse 30 :: reply /\
    ext_unit (scripted no_faults scenario_script) reply = Ok tt /\
    ext_message (scripted no_faults scenario_script) (EvGetResponse 30 :: reply)
    = Ok response /\
    msg_text response = Some t /\
    is_rejection (lower t) = false.
Proof.
  intros run.
  destruct (success_only_after_accepted_selection
              (scripted no_faults scenario_script)
              (photo_url alice_request) "@alice" 100 []
              (sent_successfully "@alice") eq_refl) as ((Hstatus & _) & Hreply).
  split; [exact Hstatus | exact Hreply].
Defined.

(** *** The Contact Establisher against the selection attempts *)

Ltac tally_done :=
  match goal with
  | Hrun : _ = (_, _) |- _ => injection Hrun as <- <-
  end;
  repeat split; try lia; congruence.

Section Tally.

Variable env : Env.

Let attempts := count_events is_selection_attempt.
Let entries := count_events is_establishing.
Let greetings := count_events is_greeting.

Lemma handle_user_selection_tally m u h :
  let h' := snd (handle_user_selection env m u h) in
  attempts h' = attempts h + 1 /\ entries h' = entries h /\ greetings h' = greetings h.
Proof.
  unfold handle_user_selection.
  match goal with
  | |- context [bind (log ?l) ?f h] =>
      change (bind (log l) f h) with (f tt (EvLog l :: h));
      assert (Ha : emits_at_most is_selection_attempt 0 (f tt))
        by (cbv beta zeta; unfold wait_for_response; quiet);
      assert (He : emits_at_most is_establishing 0 (f tt))
        by (cbv beta zeta; unfold wait_for_response; quiet);
      assert (Hg : emits_at_most is_greeting 0 (f tt))
        by (cbv beta zeta; unfold wait_for_response; quiet)
  end.
  cbv zeta. unfold attempts, entries, greetings.
  rewrite (emits_zero_count _ _ _ Ha), (emits_zero_count _ _ _ He),
          (emits_zero_count _ _ _ Hg), !count_events_cons.
  simpl. lia.
Qed.

Lemma establish_contact_tally u h :
  let h' := snd (establish_contact env u h) in
  attempts h' = attempts h /\ entries h' = entries h + 1 /\
  greetings h' <= greetings h + 1.
Proof.
  unfold establish_contact.
  match goal with
  | |- context [bind (log ?l) ?f h] =>
      change (bind (log l) f h) with (f tt (EvLog l :: h));
      assert (Ha : emits_at_most is_selection_attempt 0 (f tt))
        by (cbv beta zeta; quiet);
      assert (He : emits_at_most is_establishing 0 (f tt))
        by (cbv beta zeta; quiet);
      assert (Hg : emits_at_most is_greeting 1 (f tt))
        by (cbv beta zeta; within_budget)
  end.
  cbv zeta. unfold attempts, entries, greetings.
  rewrite (emits_zero_count _ _ _ Ha), (emits_zero_count _ _ _ He).
  pose proof (emits_le_count _ _ _ (EvLog (LogEstablishing u) :: h) Hg) as Hle.
  rewrite !count_events_cons in *. simpl in *. lia.
Qed.

Lemma neutral_tally {A} (m : M A) h :
  emits_at_most is_selection_attempt 0 m ->
  emits_at_most is_establishing 0 m ->
  emits_at_most is_greeting 0 m ->
  attempts (snd (m h)) = attempts h /\ entries (snd (m h)) = entries h /\
  greetings (snd (m h)) = greetings h.
Proof.
  intros Ha He Hg. unfold attempts, entries, greetings.
  rewrite (emits_zero_count _ _ _ Ha), (emits_zero_count _ _ _ He),
          (emits_zero_count _ _ _ Hg).
  repeat split.
Qed.

Lemma click_try_again_tally m h :
  attempts (snd (click_try_again env m h)) = attempts h /\
  entries (snd (click_try_again env m h)) = entries h /\
  greetings (snd (click_try_again env m h)) = greetings h.
Proof. apply neutral_tally; unfold click_try_again; quiet. Qed.

Lemma wait_for_response_tally t h :
  attempts (snd (wait_for_response env t h)) = attempts h /\
  entries (snd (wait_for_response env t h)) = entries h /\
  greetings (snd (wait_for_response env t h)) = greetings h.
Proof. apply neutral_tally; unfold wait_for_response; quiet. Qed.

(** Entries into the Establisher trail the attempts by at most one, and by
    exactly one when the loop returns. *)
Lemma peer_selection_loop_tally u fuel :
  forall rc prompt h,
    S max_retries - rc <= fuel ->
    rc <= max_retries ->
    let run := peer_selection_loop env u fuel rc prompt h in
    entries (snd run) + attempts h <= attempts (snd run) + entries h /\
    attempts (snd run) + entries h <= entries (snd run) + attempts h + 1 /\
    greetings (snd run) + entries h <= entries (snd run) + greetings h /\
    (forall r, fst run = Ok r ->
               attempts (snd run) + entries h = entries (snd run) + attempts h + 1).
Proof.
  induction fuel as [| fuel IH]; intros rc prompt h Hfuel Hrc; [lia |].
  cbv zeta.
  destruct (peer_selection_loop env u (S fuel) rc prompt h) as [r h'] eqn:Hrun.
  cbn [fst snd]. cbn [peer_selection_loop] in Hrun.
  destruct (Nat.leb_spec rc max_retries); [| lia].
  pose proof (handle_user_selection_tally prompt u h) as Hsel. cbv zeta in Hsel.
  unfold bind at 1 in Hrun.
  destruct (handle_user_selection env prompt u h) as [[got | e] hs];
    cbn [fst snd] in Hsel; [| tally_done].
  unfold text_lower in Hrun.
  destruct (msg_text got) as [t |]; [| tally_done].
  unfold bind at 1, ret at 1 in Hrun.
  destruct (is_rejection (lower t)); [| tally_done].
  destruct (Nat.ltb_spec max_retries (rc + 1)); [tally_done |].
  pose proof (establish_contact_tally u hs) as Hest. cbv zeta in Hest.
  unfold bind at 1 in Hrun.
  destruct (establish_contact env u hs) as [[[] | e] h2];
    cbn [fst snd] in Hest; [| tally_done].
  pose proof (click_try_again_tally got h2) as Hclick.
  unfold bind at 1 in Hrun.
  destruct (click_try_again env got h2) as [[[] | e] h3];
    cbn [fst snd] in Hclick; [| tally_done].
  pose proof (wait_for_response_tally 30 h3) as Hwait.
  unfold bind at 1 in Hrun.
  destruct (wait_for_response env 30 h3) as [[next | e] h4];
    cbn [fst snd] in Hwait; [| tally_done].
  pose proof (IH (rc + 1) next h4 ltac:(lia) ltac:(lia)) as Hrec.
  cbv zeta in Hrec. rewrite Hrun in Hrec. cbn [fst snd] in Hrec.
  destruct Hrec as (H1 & H2 & H3 & H4).
  repeat split; try lia.
  intros r' Hr. specialize (H4 r' Hr). lia.
Qed.

End Tally.

(** X4.  In every run of the flow the Contact Establisher is entered only
    after a selection attempt was rejected: its entries never exceed the
    attempts and trail them by at most one, and no more greetings are sent
    than it has entries.  When the flow returns a result there was exactly
    one entry fewer than attempts, so a selection accepted at the first
    attempt never writes to the target. *)
Theorem establisher_trails_attempts env url u n h :
  exists evs,
    snd (send_ppv env url u n h) = evs ++ h /\
    count_events is_establishing evs <= count_events is_selection_attempt evs /\
    count_events is_selection_attempt evs <= count_events is_establishing evs + 1 /\
    count_events is_greeting evs <= count_events is_establishing evs /\
    (forall r, fst (send_ppv env url u n h) = Ok r ->
               count_events is_selection_attempt evs
               = count_events is_establishing evs + 1).
Proof.
  destruct (send_ppv_attempts env url u n h) as (evs & Hevs & _).
  exists evs. split; [assumption |].
  assert (Hcount : forall P, count_events P (snd (send_ppv env url u n h))
                             = count_events P evs + count_events P h)
    by (intros P; rewrite Hevs; apply count_events_app).
  pose proof (Hcount is_selection_attempt) as Ca.
  pose proof (Hcount is_establishing) as Ce.
  pose proof (Hcount is_greeting) as Cg.
  clear Hcount Hevs.
  destruct (send_ppv env url u n h) as [r h'] eqn:Hrun.
  cbn [fst snd] in *. unfold send_ppv in Hrun.
  pose proof (neutral_tally (steps_1_to_4 env url n) h
                ltac:(piece_budget) ltac:(piece_budget) ltac:(piece_budget))
    as Hsteps.
  cbv zeta in Hsteps.
  unfold bind at 1 in Hrun.
  destruct (steps_1_to_4 env url n h) as [[prompt | e] h0];
    cbn [fst snd] in Hsteps; [| tally_done].
  pose proof (peer_selection_loop_tally env u (S max_retries) 0 prompt h0
                (le_n _) (Nat.le_0_l _)) as Hloop.
  cbv zeta in Hloop. unfold bind at 1 in Hrun.
  destruct (peer_selection_loop env u (S max_retries) 0 prompt h0)
    as [[response | e] h1]; cbn [fst snd] in Hloop;
    destruct Hloop as (H1 & H2 & H3 & H4); [| tally_done].
  pose proof (neutral_tally (final_confirmation env u response) h1
                ltac:(piece_budget) ltac:(piece_budget) ltac:(piece_budget))
    as Hfinal.
  cbv zeta in Hfinal.
  rewrite Hrun in Hfinal. cbn [fst snd] in Hfinal.
  specialize (H4 response eq_refl).
  repeat split; lia.
Qed.

Lemma establisher_trails_attempts_witness :
  let run := send_ppv (scripted no_faults retry_script)
               (photo_url alice_request) "@alice" 100 [] in
  fst run = Ok (sent_successfully "@alice") /\
  count_events is_selection_attempt (snd run)
  = count_events is_establishing (snd run) + 1 /\
  count_events is_establishing (snd run) = 1.
Proof.
  intros run.
  destruct (establisher_trails_attempts (scripted no_faults retry_script)
              (photo_url alice_request) "@alice" 100 [])
    as (evs & Hevs & _ & _ & _ & Hok).
  rewrite app_nil_r in Hevs. rewrite <- Hevs in Hok.
  split; [reflexivity |].
  split; [apply (Hok (sent_successfully "@alice")); reflexivity | reflexivity].
Defined.

(** *** The service around the flow *)

Lemma ensure_connected_no_switch env :
  emits_at_most is_switching 0 (ensure_connected env).
Proof. unfold ensure_connected. quiet. Qed.

(** X5.  When [ensure_connected] raises, the endpoint answers with that
    failure and has done nothing else: the business bot is not switched and
    the flow is not run.  A client that is not authorized gives the 500
    "Client is not authorized...", after a [connect] exactly when the client
    reported that it was not connected. *)
Theorem endpoint_requires_connected_client env request h :
  (forall e h1,
      ensure_connected env h = (Raise e, h1) ->
      send_ppv_endpoint env request h = (respond (Raise e), h1) /\
      count_events is_switching h1 = count_events is_switching h) /\
  (ext_bool env (EvIsConnected :: h) = Ok true ->
   ext_bool env (EvIsUserAuthorized :: EvIsConnected :: h) = Ok false ->
   send_ppv_endpoint env request h
   = (Http500 not_authorized, EvIsUserAuthorized :: EvIsConnected :: h)) /\
  (ext_bool env (EvIsConnected :: h) = Ok false ->
   ext_unit env (EvConnect :: EvIsConnected :: h) = Ok tt ->
   ext_bool env (EvIsUserAuthorized :: EvConnect :: EvIsConnected :: h) = Ok false ->
   send_ppv_endpoint env request h
   = (Http500 not_authorized,
      EvIsUserAuthorized :: EvConnect :: EvIsConnected :: h)).
Proof.
  assert (Hstop : forall e h1,
             ensure_connected env h = (Raise e, h1) ->
             send_ppv_endpoint env request h = (respond (Raise e), h1)).
  { intros e h1 Hfail. unfold send_ppv_endpoint.
    rewrite (bind_raise _ _ _ _ _ Hfail). reflexivity. }
  split; [| split].
  - intros e h1 Hfail. split; [apply Hstop; assumption |].
    pose proof (emits_zero_count _ _ h (ensure_connected_no_switch env)) as Hcount.
    rewrite Hfail in Hcount. exact Hcount.
  - intros Hconn Hauth. apply (Hstop (RuntimeError not_authorized)).
    unfold ensure_connected, bind, call. rewrite Hconn. simpl. rewrite Hauth.
    reflexivity.
  - intros Hconn Hconnect Hauth. apply (Hstop (RuntimeError not_authorized)).
    unfold ensure_connected, bind, call. rewrite Hconn. simpl.
    rewrite Hconnect, Hauth. reflexivity.
Qed.

Lemma endpoint_requires_connected_client_witness :
  send_ppv_endpoint not_connected_unauthorized alice_request []
  = (Http500 not_authorized, [EvIsUserAuthorized; EvConnect; EvIsConnected]) /\
  count_events is_switching [EvIsUserAuthorized; EvConnect; EvIsConnected] = 0.
Proof.
  destruct (endpoint_requires_connected_client not_connected_unauthorized
              alice_request []) as (Hany & _ & Hunauthorized).
  split; [apply Hunauthorized; reflexivity |].
  apply (Hany (RuntimeError not_authorized)). reflexivity.
Defined.

(** X6.  [_switch_business_bot] returns [True] or raises; it never returns
    [False].  It returns only when the bot resolved and the update request
    for that entity went through; when the lookup fails no update request is
    sent, and in both failures the exception raised is the one of the call
    that failed. *)
Theorem switch_business_bot_contract env name h :
  let asked := EvGetEntity name :: EvLog (LogSwitching name) :: h in
  (forall b,
      fst (_switch_business_bot env name h) = Ok b ->
      b = true /\
      exists bot,
        ext_entity env asked = Ok bot /\
        ext_unit env (EvUpdateConnectedBot bot :: asked) = Ok tt /\
        snd (_switch_business_bot env name h) = EvUpdateConnectedBot bot :: asked) /\
  (forall e,
      ext_entity env asked = Raise e ->
      _switch_business_bot env name h = (Raise e, asked)) /\
  (forall bot e,
      ext_entity env asked = Ok bot ->
      ext_unit env (EvUpdateConnectedBot bot :: asked) = Raise e ->
      _switch_business_bot env name h
      = (Raise e, EvUpdateConnectedBot bot :: asked)).
Proof.
  intros asked. unfold _switch_business_bot.
  unfold bind, log, catch, call, any_exception, raise, ret. fold asked.
  split; [| split].
  - intros b. destruct (ext_entity env asked) as [bot | e]; [| discriminate].
    destruct (ext_unit env (EvUpdateConnectedBot bot :: asked)) as [[] | e] eqn:Hupd;
      [| discriminate].
    simpl. intros H. injection H as <-. split; [reflexivity |].
    exists bot. repeat split. assumption.
  - intros e ->. reflexivity.
  - intros bot e -> ->. reflexivity.
Qed.

Lemma switch_business_bot_contract_witness :
  _switch_business_bot (scripted update_fails []) KIMFEETGURU_BOT_USERNAME []
  = (Raise (OtherException "BOT_BUSINESS_MISSING"),
     [EvUpdateConnectedBot (mkEntity 42 4242);
      EvGetEntity KIMFEETGURU_BOT_USERNAME;
      EvLog (LogSwitching KIMFEETGURU_BOT_USERNAME)]) /\
  _switch_business_bot (scripted restore_fails []) KIMFEETGURU_BOT_USERNAME []
  = (Raise (OtherException "FLOOD_WAIT"),
     [EvGetEntity KIMFEETGURU_BOT_USERNAME;
      EvLog (LogSwitching KIMFEETGURU_BOT_USERNAME)]) /\
  (true = true /\
   exists bot,
     ext_entity (scripted no_faults [])
       [EvGetEntity KIMFEETGURU_BOT_USERNAME;
        EvLog (LogSwitching KIMFEETGURU_BOT_USERNAME)] = Ok bot /\
     ext_unit (scripted no_faults [])
       [EvUpdateConnectedBot bot; EvGetEntity KIMFEETGURU_BOT_USERNAME;
        EvLog (LogSwitching KIMFEETGURU_BOT_USERNAME)] = Ok tt /\
     snd (_switch_business_bot (scripted no_faults []) KIMFEETGURU_BOT_USERNAME [])
     = [EvUpdateConnectedBot bot; EvGetEntity KIMFEETGURU_BOT_USERNAME;
        EvLog (LogSwitching KIMFEETGURU_BOT_USERNAME)]).
Proof.
  split; [| split].
  - apply (proj2 (proj2 (switch_business_bot_contract (scripted update_fails [])
                           KIMFEETGURU_BOT_USERNAME []))
             (mkEntity 42 4242)); reflexivity.
  - apply (proj1 (proj2 (switch_business_bot_contract (scripted restore_fails [])
                           KIMFEETGURU_BOT_USERNAME []))).
    reflexivity.
  - apply (proj1 (switch_business_bot_contract (scripted no_faults [])
                    KIMFEETGURU_BOT_USERNAME []) true).
    reflexivity.
Defined.

(** X7.  When the switch to the flow's bot fails, the endpoint answers with
    that failure; the flow is not run and the switch back is not attempted,
    also when it was the update request itself that failed. *)
Theorem failed_activation_skips_flow_and_restore env request h h0 e h1 :
  ensure_connected env h = (Ok tt, h0) ->
  switch_to_staccerbot env h0 = (Raise e, h1) ->
  send_ppv_endpoint env request h = (respond (Raise e), h1) /\
  exists evs,
    h1 = evs ++ h0 /\
    count_events is_restore evs = 0 /\
    (evs = [EvGetEntity STACCERBOT_USERNAME; EvLog (LogSwitching STACCERBOT_USERNAME)]
     \/ exists bot,
         evs = [EvUpdateConnectedBot bot; EvGetEntity STACCERBOT_USERNAME;
                EvLog (LogSwitching STACCERBOT_USERNAME)]).
Proof.
  intros Hconn Hswitch. split.
  - unfold send_ppv_endpoint.
    rewrite (bind_ok _ _ _ _ _ Hconn), (bind_raise _ _ _ _ _ Hswitch). reflexivity.
  - revert Hswitch. unfold switch_to_staccerbot, _switch_business_bot.
    unfold bind, log, catch, call, any_exception, raise, ret.
    destruct (ext_entity env _) as [bot | e'].
    + destruct (ext_unit env _) as [[] | e'']; [discriminate |].
      intros H. injection H as <- <-.
      exists [EvUpdateConnectedBot bot; EvGetEntity STACCERBOT_USERNAME;
              EvLog (LogSwitching STACCERBOT_USERNAME)].
      split; [reflexivity |]. split; [reflexivity |].
      right. exists bot. reflexivity.
    + intros H. injection H as <- <-.
      exists [EvGetEntity STACCERBOT_USERNAME; EvLog (LogSwitching STACCERBOT_USERNAME)].
      split; [reflexivity |]. split; [reflexivity |].
      left. reflexivity.
Qed.

Lemma failed_activation_skips_flow_and_restore_witness :
  send_ppv_endpoint (scripted update_fails scenario_script) alice_request []
  = (Http500 "Unexpected error: BOT_BUSINESS_MISSING",
     [EvUpdateConnectedBot (mkEntity 42 4242); EvGetEntity STACCERBOT_USERNAME;
      EvLog (LogSwitching STACCERBOT_USERNAME); EvIsUserAuthorized; EvIsConnected]).
Proof.
  apply (proj1 (failed_activation_skips_flow_and_restore
                  (scripted update_fails scenario_script) alice_request []
                  [EvIsUserAuthorized; EvIsConnected]
                  (OtherException "BOT_BUSINESS_MISSING") _ eq_refl eq_refl)).
Defined.

Lemma switch_business_bot_true env name h b :
  fst (_switch_business_bot env name h) = Ok b -> b = true.
Proof.
  unfold _switch_business_bot, bind, log, catch, call, any_exception, raise, ret.
  destruct (ext_entity env _) as [bot | e]; [| discriminate].
  destruct (ext_unit env _) as [[] | e]; [| discriminate].
  simpl. intros H. injection H as <-. reflexivity.
Qed.

Lemma send_ppv_result_shape env url u n h r :
  fst (send_ppv env url u n h) = Ok r ->
  status r = "success"%string /\ username_of r = u.
Proof.
  intros Hok. unfold send_ppv in *.
  destruct (bind_fst_ok _ _ _ _ Hok) as (prompt & h0 & _ & Hrest).
  rewrite Hrest in *. clear Hrest.
  destruct (bind_fst_ok _ _ _ _ Hok) as (response & h1 & _ & Hrest).
  rewrite Hrest in *. clear Hrest.
  destruct (final_confirmation env u response h1) as [r' h'] eqn:Hfinal.
  simpl in Hok. subst r'.
  destruct (final_confirmation_ok_inv _ _ _ _ _ _ Hfinal) as ([-> | [-> | ->]] & _);
    split; reflexivity.
Qed.

(** X8.  The endpoint answers 200 only with the result of a flow that
    returned, after the client was found connected and authorized and the
    switch to the flow's bot went through; the body then has the status
    "success" and the username of the request. *)
Theorem endpoint_200_is_a_returned_flow env request h body h' :
  send_ppv_endpoint env request h = (Http200 body, h') ->
  status body = "success"%string /\
  username_of body = username request /\
  exists h0 h1 h2,
    ensure_connected env h = (Ok tt, h0) /\
    switch_to_staccerbot env h0 = (Ok true, h1) /\
    send_ppv env (photo_url request) (username request) (stars request) h1
    = (Ok body, h2).
Proof.
  unfold send_ppv_endpoint. unfold bind at 1.
  destruct (ensure_connected env h) as [[[] | e] h0] eqn:Hconn;
    [| destruct e; discriminate].
  unfold bind at 1.
  destruct (switch_to_staccerbot env h0) as [[b | e] h1] eqn:Hswitch;
    [| destruct e; discriminate].
  assert (b = true) as ->.
  { apply (switch_business_bot_true env STACCERBOT_USERNAME h0).
    unfold switch_to_staccerbot in Hswitch. rewrite Hswitch. reflexivity. }
  unfold try_finally.
  destruct (send_ppv env (photo_url request) (username request) (stars request) h1)
    as [r h2] eqn:Hflow.
  destruct (switch_back_once env h2) as (evs & -> & _).
  destruct r as [result | e]; [| destruct e; discriminate].
  intros H. injection H as <- <-.
  destruct (send_ppv_result_shape env _ _ _ h1 result
              ltac:(rewrite Hflow; reflexivity)) as (Hstatus & Huser).
  split; [assumption |]. split; [assumption |].
  exists h0, h1, h2. repeat split; assumption.
Qed.

Lemma endpoint_200_is_a_returned_flow_witness :
  let env := scripted no_faults scenario_script in
  status (sent_successfully "@alice") = "success"%string /\
  username_of (sent_successfully "@alice") = "@alice"%string /\
  exists h0 h1 h2,
    ensure_connected env [] = (Ok tt, h0) /\
    switch_to_staccerbot env h0 = (Ok true, h1) /\
    send_ppv env (photo_url alice_request) "@alice" 100 h1
    = (Ok (sent_successfully "@alice"), h2).
Proof.
  intros env.
  apply (endpoint_200_is_a_returned_flow env alice_request []
           (sent_successfully "@alice")
           (snd (send_ppv_endpoint env alice_request []))).
  reflexivity.
Defined.

(** *** Failures before and inside the dialogue *)

(** X9.  When the download of the photo fails, the flow raises "Failed to
    download photo: ..." with the text of the failure and has made no
    Telegram call; when the bot's entity cannot be resolved it raises
    "Failed to find @staccerbot: ..." and no conversation is opened. *)
Theorem flow_fails_before_the_dialogue env url u n h :
  (forall e,
      ext_bytes env (EvHttpGet url :: h) = Raise e ->
      send_ppv env url u n h
      = (Raise (PPVFlowError ("Failed to download photo: " ++ str_exc e)%string),
         EvHttpGet url :: h)) /\
  (forall photo e,
      ext_bytes env (EvHttpGet url :: h) = Ok photo ->
      ext_entity env (EvGetEntity STACCERBOT_USERNAME :: EvHttpGet url :: h) = Raise e ->
      send_ppv env url u n h
      = (Raise (PPVFlowError ("Failed to find @staccerbot: " ++ str_exc e)%string),
         EvGetEntity STACCERBOT_USERNAME :: EvHttpGet url :: h)).
Proof.
  split.
  - intros e Hfail. unfold send_ppv, steps_1_to_4, download_photo.
    unfold bind at 1 2. unfold catch at 1. unfold call at 1. rewrite Hfail.
    reflexivity.
  - intros photo e Hphoto Hfail. unfold send_ppv, steps_1_to_4, download_photo.
    unfold bind at 1 2. unfold catch at 1. unfold call at 1. rewrite Hphoto.
    unfold bind at 1. unfold catch at 1. unfold call at 1. rewrite Hfail.
    reflexivity.
Qed.

Lemma flow_fails_before_the_dialogue_witness :
  send_ppv (scripted download_fails scenario_script) "https://x/y.jpg" "@alice" 100 []
  = (Raise (PPVFlowError "Failed to download photo: 404 Not Found"),
     [EvHttpGet "https://x/y.jpg"]) /\
  send_ppv (scripted bot_unknown scenario_script) "https://x/y.jpg" "@alice" 100 []
  = (Raise (PPVFlowError
              "Failed to find @staccerbot: No user has staccerbot as username"),
     [EvGetEntity STACCERBOT_USERNAME; EvHttpGet "https://x/y.jpg"]).
Proof.
  split.
  - apply (proj1 (flow_fails_before_the_dialogue (scripted download_fails scenario_script)
                    "https://x/y.jpg" "@alice" 100 [])
             (OtherException "404 Not Found")).
    reflexivity.
  - apply (proj2 (flow_fails_before_the_dialogue (scripted bot_unknown scenario_script)
                    "https://x/y.jpg" "@alice" 100 [])
             "JFIF"%string (OtherException "No user has staccerbot as username"));
      reflexivity.
Defined.

(** X10.  After the RequestPeer button was found and the target resolved,
    [handle_user_selection] still fails in two ways: a failure to resolve
    the bot is raised as it is, not as a flow error, and no reply is sent;
    a failure of the structured reply is raised as "Failed to select user:
    ..." and the response is not waited for. *)
Theorem handle_user_selection_late_failures env m u h id target :
  let lookup := EvGetEntity (lstrip_at u) :: EvLog (LogHandlingSelection u) :: h in
  let asked := EvGetEntity STACCERBOT_USERNAME :: lookup in
  find_request_peer m = Some id ->
  ext_entity env lookup = Ok target ->
  (forall e,
      ext_entity env asked = Raise e ->
      handle_user_selection env m u h = (Raise e, asked)) /\
  (forall bot e,
      ext_entity env asked = Ok bot ->
      let reply := EvSendBotRequestedPeer bot (msg_id m) id (ent_id target)
                     (access_hash target) :: asked in
      ext_unit env reply = Raise e ->
      handle_user_selection env m u h
      = (Raise (PPVFlowError ("Failed to select user: " ++ str_exc e)%string), reply)).
Proof.
  intros lookup asked Hfound Htarget. subst lookup asked.
  assert (Hstart : forall k : Entity -> M Message,
             (target_user <-
                catch (call env (EvGetEntity (lstrip_at u)) ext_entity)
                  (any_exception (fun e =>
                     raise (PPVFlowError
                       ("Could not find user @" ++ lstrip_at u ++ ": "
                        ++ str_exc e)%string))) ;;
              k target_user) (EvLog (LogHandlingSelection u) :: h)
             = k target (EvGetEntity (lstrip_at u)
                         :: EvLog (LogHandlingSelection u) :: h)).
  { intros k. unfold bind, catch, call. rewrite Htarget. reflexivity. }
  split; [intros e He | intros bot e Hbot reply Hreply; subst reply];
    unfold handle_user_selection;
    rewrite (find_request_peer_some_rows_present _ _ Hfound), Hfound; cbv zeta;
    unfold bind at 1; unfold log; rewrite Hstart;
    unfold bind at 1; unfold call at 1.
  - rewrite He. reflexivity.
  - rewrite Hbot. unfold bind at 1. unfold catch at 1. unfold call at 1.
    rewrite Hreply. reflexivity.
Qed.

Lemma handle_user_selection_late_failures_witness :
  handle_user_selection (scripted bot_unknown []) select_user_prompt "@alice" []
  = (Raise (OtherException "No user has staccerbot as username"),
     [EvGetEntity STACCERBOT_USERNAME; EvGetEntity "alice";
      EvLog (LogHandlingSelection "@alice")]).
Proof.
  apply (proj1 (handle_user_selection_late_failures (scripted bot_unknown [])
                  select_user_prompt "@alice" [] 7%Z (mkEntity 42 4242)
                  eq_refl eq_refl)).
  reflexivity.
Defined.

(** X11.  The greeting is withdrawn with the id its sending returned: when
    the target resolves, the greeting is sent and the sleep returns, the
    Contact Establisher's next call deletes exactly that message, and it
    makes no call after it. *)
Theorem greeting_is_withdrawn env u h target quick_msg :
  let lookup := EvGetEntity (lstrip_at u) :: EvLog (LogEstablishing u) :: h in
  let greeted := EvClientSendMessage target "Hey! ðŸ‘‹" :: lookup in
  ext_entity env lookup = Ok target ->
  ext_sent env greeted = Ok quick_msg ->
  ext_unit env (EvSleep 2 :: greeted) = Ok tt ->
  exists logged,
    establish_contact env u h
    = (Ok tt, logged ++ EvDelete quick_msg :: EvSleep 2 :: greeted) /\
    (logged = [] \/ logged = [EvLog LogQuickMessageFailed]).
Proof.
  intros lookup greeted Htarget Hsent Hsleep. subst lookup greeted.
  unfold establish_contact, bind, log, catch, call, any_exception.
  rewrite Htarget, Hsent, Hsleep.
  match goal with
  | |- context [ext_unit env (EvDelete quick_msg :: ?before)] =>
      destruct (ext_unit env (EvDelete quick_msg :: before)) as [[] | e]
  end.
  - exists []. split; [reflexivity | left; reflexivity].
  - exists [EvLog LogQuickMessageFailed]. split; [reflexivity | right; reflexivity].
Qed.

Lemma greeting_is_withdrawn_witness :
  exists logged,
    establish_contact (scripted no_faults []) "@alice" []
    = (Ok tt,
       logged ++
       [EvDelete 1001; EvSleep 2;
        EvClientSendMessage (mkEntity 42 4242) "Hey! ðŸ‘‹";
        EvGetEntity "alice"; EvLog (LogEstablishing "@alice")]) /\
    (logged = [] \/ logged = [EvLog LogQuickMessageFailed]).
Proof.
  apply (greeting_is_withdrawn (scripted no_faults []) "@alice" []
           (mkEntity 42 4242) 1001%Z eq_refl eq_refl eq_refl).
Defined.

(** X12.  The wait for the final confirmation never ends in a flow error or
    a timeout: its own timeout is caught, so whatever it raises is an
    exception the endpoint reports as unexpected or a RuntimeError. *)
Theorem final_confirmation_raises_no_flow_error env u response h :
  (forall msg, fst (final_confirmation env u response h) <> Raise (PPVFlowError msg)) /\
  fst (final_confirmation env u response h) <> Raise TimeoutError.
Proof.
  unfold final_confirmation, wait_for_response.
  unfold bind, catch, call, only_TimeoutError, only_PPVFlowError, log, raise, ret,
    text_lower.
  destruct (ext_message env (EvGetResponse 60 :: h)) as [final | e].
  - destruct (msg_text final) as [t |]; unfold ret, raise;
      [destruct (str_in "done" (lower t) || str_in "sent" (lower t))%bool |];
      split; try intros msg; discriminate.
  - destruct e; simpl;
      repeat match goal with
             | |- context [match msg_text ?m with _ => _ end] =>
                 destruct (msg_text m); unfold ret, raise
             | |- context [if ?b then _ else _] => destruct b
             end;
      split; try intros msg'; discriminate.
Qed.

(** X13.  The retry control is clicked by its payload first; the search by
    label is only the fallback.  When the payload click goes through no
    button is clicked; when it fails and a control whose label contains
    "try again" exists, the first such control is clicked and the recovery
    goes on. *)
Theorem retry_control_payload_then_label env response h :
  let clicked := EvMessageClick (msg_id response) "sell_refresh"
                 :: EvLog LogClickingTryAgain :: h in
  (ext_unit env clicked = Ok tt ->
   click_try_again env response h = (Ok tt, clicked)) /\
  (forall e rows i j b,
      ext_unit env clicked = Raise e ->
      buttons response = Some rows ->
      first_control (label_matches "Try again") rows i j b ->
      ext_unit env (EvButtonClick (msg_id response) i j b :: clicked) = Ok tt ->
      click_try_again env response h
      = (Ok tt, EvButtonClick (msg_id response) i j b :: clicked)).
Proof.
  intros clicked. subst clicked.
  split; [intros Hclick | intros e rows i j b Hfail Hrows Hfirst Hclick];
    unfold click_try_again; unfold bind at 1, log at 1;
    unfold catch, call at 1, any_exception.
  - rewrite Hclick. reflexivity.
  - rewrite Hfail. unfold bind at 1.
    rewrite (find_and_click_button_found _ _ _ _ _ _ _ _ Hrows Hfirst).
    unfold bind, call, ret. rewrite Hclick. reflexivity.
Qed.

Lemma retry_control_payload_then_label_witness :
  click_try_again (scripted retry_click_fails []) rejecting_message []
  = (Ok tt,
     [EvButtonClick 9 1 0 try_again_button;
      EvMessageClick 9 "sell_refresh"; EvLog LogClickingTryAgain]) /\
  click_try_again (scripted no_faults []) rejecting_message []
  = (Ok tt, [EvMessageClick 9 "sell_refresh"; EvLog LogClickingTryAgain]).
Proof.
  split.
  - apply (proj2 (retry_control_payload_then_label (scripted retry_click_fails [])
                    rejecting_message [])
             (OtherException "DATA_INVALID") _ 1 0 try_again_button eq_refl eq_refl);
      [apply first_in_rows_first_control; reflexivity | reflexivity].
  - apply (proj1 (retry_control_payload_then_label (scripted no_faults [])
                    rejecting_message [])).
    reflexivity.
Defined.

(** *** Texts *)

Lemma prefix_app a s : prefix a (a ++ s) = true.
Proof.
  induction a as [| c a IH]; simpl; [destruct s; reflexivity |].
  destruct (ascii_dec c c) as [_ | Hne]; [apply IH | contradiction].
Qed.

Lemma prefix_split a s : prefix a s = true -> exists post, s = (a ++ post)%string.
Proof.
  revert s. induction a as [| c a IH]; intros s H.
  - exists s. reflexivity.
  - destruct s as [| d s]; simpl in H; [discriminate |].
    destruct (ascii_dec c d) as [-> | _]; [| discriminate].
    destruct (IH _ H) as (post & ->). exists post. reflexivity.
Qed.

Lemma str_in_prefix needle hay : prefix needle hay = true -> str_in needle hay = true.
Proof. intros H. destruct hay; cbn [str_in]; rewrite H; reflexivity. Qed.

Lemma str_in_app needle pre post :
  str_in needle (pre ++ needle ++ post) = true.
Proof.
  induction pre as [| c pre IH]; simpl.
  - apply str_in_prefix, prefix_app.
  - rewrite IH. apply orb_true_r.
Qed.

Lemma str_in_split needle hay :
  str_in needle hay = true ->
  exists pre post, hay = (pre ++ needle ++ post)%string.
Proof.
  induction hay as [| c hay IH]; cbn [str_in]; intros H.
  - rewrite orb_false_r in H. destruct (prefix_split _ _ H) as (post & Hpost).
    exists EmptyString, post. assumption.
  - apply orb_true_iff in H. destruct H as [H | H].
    + destruct (prefix_split _ _ H) as (post & Hpost).
      exists EmptyString, post. assumption.
    + destruct (IH H) as (pre & post & ->).
      exists (String c pre), post. reflexivity.
Qed.

Lemma lower_app a b : lower (a ++ b) = (lower a ++ lower b)%string.
Proof. induction a as [| c a IH]; simpl; [reflexivity | rewrite IH; reflexivity]. Qed.

Lemma lower_ascii_idempotent c : lower_ascii (lower_ascii c) = lower_ascii c.
Proof.
  destruct c as [[|] [|] [|] [|] [|] [|] [|] [|]]; reflexivity.
Qed.

Lemma lower_idempotent s : lower (lower s) = lower s.
Proof.
  induction s as [| c s IH]; simpl; [reflexivity |].
  rewrite lower_ascii_idempotent, IH. reflexivity.
Qed.

Lemma str_in_lower needle hay :
  str_in needle hay = true -> str_in (lower needle) (lower hay) = true.
Proof.
  intros H. destruct (str_in_split _ _ H) as (pre & post & ->).
  rewrite !lower_app. apply str_in_app.
Qed.

(** X14.  The rejection test is containment of a marker, whatever the case
    of its ASCII letters: the lowered text is a rejection exactly when it
    contains "no exchange" or "48h" as a contiguous piece, and every text
    that embeds a marker in any letter case is one. *)
Theorem rejection_is_marker_containment t :
  (is_rejection (lower t) = true <->
   exists pre post,
     lower t = (pre ++ "no exchange" ++ post)%string \/
     lower t = (pre ++ "48h" ++ post)%string) /\
  (forall pre marker post,
      lower marker = "no exchange"%string \/ lower marker = "48h"%string ->
      is_rejection (lower (pre ++ marker ++ post)) = true).
Proof.
  split.
  - unfold is_rejection. rewrite orb_true_iff. split.
    + intros [H | H]; destruct (str_in_split _ _ H) as (pre & post & Heq);
        exists pre, post; [left | right]; assumption.
    + intros (pre & post & [-> | ->]); [left | right]; apply str_in_app.
  - intros pre marker post Hmarker. unfold is_rejection.
    rewrite !lower_app. apply orb_true_iff.
    destruct Hmarker as [-> | ->]; [left | right]; apply str_in_app.
Qed.

Lemma rejection_is_marker_containment_witness :
  is_rejection (lower "Sorry: NO Exchange with this user in 48H") = true.
Proof.
  apply (proj2 (rejection_is_marker_containment EmptyString)
           "Sorry: " "NO Exchange" " with this user in 48H").
  left. reflexivity.
Defined.

Lemma lstrip_at_no_at s : forall rest, lstrip_at s <> String "@"%char rest.
Proof.
  induction s as [| c s IH]; intros rest; simpl; [discriminate |].
  destruct c as [[|] [|] [|] [|] [|] [|] [|] [|]]; try (intros H; discriminate H).
  apply IH.
Qed.

Lemma lstrip_at_split s : exists k, s = (at_signs k ++ lstrip_at s)%string.
Proof.
  induction s as [| c s IH]; [exists 0; reflexivity |].
  destruct IH as (k & Hk).
  destruct (ascii_dec c "@"%char) as [-> | Hne].
  - exists (S k). simpl. rewrite <- Hk. reflexivity.
  - exists 0. simpl.
    destruct c as [[|] [|] [|] [|] [|] [|] [|] [|]]; try reflexivity.
    contradiction Hne. reflexivity.
Qed.

Lemma lstrip_at_at_signs k s :
  lstrip_at (at_signs k ++ s) = lstrip_at s.
Proof. induction k as [| k IH]; simpl; [reflexivity | apply IH]. Qed.

(** X15.  The username is looked up without its leading at-signs, however
    many there are: [lstrip_at] removes exactly the leading at-signs, its
    result never starts with one, and usernames that differ only in leading
    at-signs give the same lookup name. *)
Theorem lookup_name_ignores_leading_at_signs s :
  (exists k, s = (at_signs k ++ lstrip_at s)%string) /\
  (forall rest, lstrip_at s <> String "@"%char rest) /\
  (forall k, lstrip_at (at_signs k ++ s) = lstrip_at s) /\
  lstrip_at (lstrip_at s) = lstrip_at s.
Proof.
  split; [apply lstrip_at_split |].
  split; [apply lstrip_at_no_at |].
  split; [intros k; apply lstrip_at_at_signs |].
  destruct (lstrip_at s) as [| c rest] eqn:Hs; [reflexivity |].
  simpl. destruct c as [[|] [|] [|] [|] [|] [|] [|] [|]]; try reflexivity.
  exfalso. apply (lstrip_at_no_at s rest). assumption.
Qed.

(** X16.  The script's test for a sign-in that needs the password accepts
    every failure that the test of telegram_client.py accepts, and more: a
    failure that only says "2FA" is asked for the password by the script and
    raised again by telegram_client.py. *)
Theorem password_tests_compared :
  (forall error,
      needs_password_client error = true -> needs_password_script error = true) /\
  needs_password_script "2FA is enabled" = true /\
  needs_password_client "2FA is enabled" = false.
Proof.
  split; [| split; reflexivity].
  intros error. unfold needs_password_client, needs_password_script. cbv zeta.
  rewrite !orb_true_iff. intros [H | H]; left; [left | right]; [| assumption].
  apply (str_in_lower "Two-steps verification" error H).
Qed.

Lemma password_tests_compared_witness :
  needs_password_script "Two-steps verification is enabled" = true.
Proof.
  apply (proj1 password_tests_compared "Two-steps verification is enabled").
  reflexivity.
Defined.

(** *** Edges of the button search and of the texts *)

Lemma empty_text_matches b : label_matches "" b = true.
Proof.
  unfold label_matches, label_matches_with. simpl.
  destruct (lower (btn_text b)); reflexivity.
Qed.

(** X17.  With an empty search text every label matches, so
    [find_and_click_button] clicks the first control of the first row that
    has one, whatever its label. *)
Theorem empty_search_text_clicks_first_control env m h rows i b rest :
  buttons m = Some rows ->
  (forall i', i' < i -> nth_error rows i' = Some []) ->
  nth_error rows i = Some (b :: rest) ->
  snd (find_and_click_button env m "" h) = EvButtonClick (msg_id m) i 0 b :: h.
Proof.
  intros Hrows Hempty Hrow.
  assert (Hfirst : first_control (label_matches "") rows i 0 b).
  { repeat split.
    - unfold control_at. rewrite Hrow. reflexivity.
    - apply empty_text_matches.
    - intros i' j' b' [Hlt | [_ Hlt]] Hat; [| lia].
      unfold control_at in Hat. rewrite (Hempty i' Hlt) in Hat.
      destruct j'; discriminate. }
  rewrite (find_and_click_button_found _ _ _ _ _ _ _ _ Hrows Hfirst).
  unfold bind, call, ret.
  destruct (ext_unit env (EvButtonClick (msg_id m) i 0 b :: h)); reflexivity.
Qed.

Lemma empty_search_text_clicks_first_control_witness :
  snd (find_and_click_button (scripted no_faults [])
         (keyboard_message 9 "Pick" [[]; [try_again_button; select_user_button]]) "" [])
  = [EvButtonClick 9 1 0 try_again_button].
Proof.
  apply (empty_search_text_clicks_first_control (scripted no_faults [])
           (keyboard_message 9 "Pick" [[]; [try_again_button; select_user_button]]) []
           [[]; [try_again_button; select_user_button]] 1 try_again_button
           [select_user_button] eq_refl).
  - intros [| i'] Hlt; [reflexivity | lia].
  - reflexivity.
Defined.

(** X18.  A response without text ends the flow with the AttributeError of
    [None.lower()], not with a flow error: at step 1 right after the wait,
    before the photo is sent, and at the final confirmation, where the
    [except PPVFlowError] clause does not catch it. *)
Theorem response_without_text_aborts env url u n h :
  (forall photo bot m,
      let opened := EvConvSendMessage "/sell" :: EvConversation bot
                    :: EvGetEntity STACCERBOT_USERNAME :: EvHttpGet url :: h in
      ext_bytes env (EvHttpGet url :: h) = Ok photo ->
      ext_entity env (EvGetEntity STACCERBOT_USERNAME :: EvHttpGet url :: h) = Ok bot ->
      ext_unit env (EvConversation bot
                    :: EvGetEntity STACCERBOT_USERNAME :: EvHttpGet url :: h) = Ok tt ->
      ext_unit env opened = Ok tt ->
      ext_message env (EvGetResponse 30 :: opened) = Ok m ->
      msg_text m = None ->
      send_ppv env url u n h = (Raise no_lower, EvGetResponse 30 :: opened)) /\
  (forall response final h1,
      ext_message env (EvGetResponse 60 :: h1) = Ok final ->
      msg_text final = None ->
      final_confirmation env u response h1 = (Raise no_lower, EvGetResponse 60 :: h1)).
Proof.
  split.
  - intros photo bot m opened Hphoto Hbot Hconv Hsell Hgot Htext. subst opened.
    unfold send_ppv, steps_1_to_4, download_photo, wait_for_response.
    unfold bind, catch, call, any_exception, only_TimeoutError.
    rewrite Hphoto, Hbot, Hconv, Hsell, Hgot.
    unfold text_lower. rewrite Htext. reflexivity.
  - intros response final h1 Hfinal Htext.
    unfold final_confirmation, wait_for_response.
    unfold bind, catch, call, only_TimeoutError. rewrite Hfinal.
    unfold text_lower. rewrite Htext. reflexivity.
Qed.

Lemma response_without_text_aborts_witness :
  let env := scripted no_faults [Ok (mkMessage 1 None None)] in
  send_ppv env "https://x/y.jpg" "@alice" 100 []
  = (Raise no_lower,
     [EvGetResponse 30; EvConvSendMessage "/sell"; EvConversation (mkEntity 42 4242);
      EvGetEntity STACCERBOT_USERNAME; EvHttpGet "https://x/y.jpg"]) /\
  respond (fst (send_ppv env "https://x/y.jpg" "@alice" 100 []))
  = Http500 "Unexpected error: 'NoneType' object has no attribute 'lower'".
Proof.
  intros env. split; [| reflexivity].
  apply (proj1 (response_without_text_aborts env "https://x/y.jpg" "@alice" 100 [])
           "JFIF"%string (mkEntity 42 4242) (mkMessage 1 None None));
    reflexivity.
Defined.

(** X19.  The startup of the service never fails: whatever
    [ensure_connected] raises (the client is not authorized, the connection
    fails) is caught, and the startup has made the calls of
    [ensure_connected] and no other. *)
Theorem lifespan_startup_never_fails env h :
  lifespan_startup env h = (Ok tt, snd (ensure_connected env h)).
Proof.
  unfold lifespan_startup, catch.
  destruct (ensure_connected env h) as [[[] | e] h']; [reflexivity |].
  destruct e; reflexivity.
Qed.

(** *** The client singleton and the session generators *)

Lemma sbind_ok_inv {A B} (m : Setup A) (f : A -> Setup B) w b w' :
  sbind m f w = (Ok b, w') ->
  exists a w1, m w = (Ok a, w1) /\ f a w1 = (Ok b, w').
Proof.
  unfold sbind. destruct (m w) as [[a | e] w1]; intros H; [| discriminate].
  exists a, w1. split; [reflexivity | assumption].
Qed.

Lemma session_saved_inv senv w0 r w' :
  (session_string <- scall senv ScSessionSave su_text ;;
   scall senv ScDisconnect su_unit ;;
   sret session_string)%setup w0 = (Ok r, w') ->
  calls w' = ScDisconnect :: ScSessionSave :: calls w0 /\
  su_text senv (ScSessionSave :: calls w0) = Ok r /\
  su_unit senv (ScDisconnect :: ScSessionSave :: calls w0) = Ok tt.
Proof.
  unfold sbind, scall, sret. simpl.
  destruct (su_text senv (ScSessionSave :: calls w0)) as [saved | e];
    [| discriminate].
  destruct (su_unit senv (ScDisconnect :: ScSessionSave :: calls w0)) as [[] | e];
    [| discriminate].
  intros H. injection H as <- <-. repeat split.
Qed.

(** X20.  Whenever either session generator returns, the string it returns
    is the one [session.save()] gave, and saving and a successful
    [disconnect] were its last two calls. *)
Theorem generated_session_is_the_saved_one senv session session_error str_strip w r w' :
  generate_session_client senv session session_error w = (Ok r, w') \/
  generate_session_script senv str_strip w = (Ok r, w') ->
  exists before,
    calls w' = ScDisconnect :: ScSessionSave :: before /\
    su_text senv (ScSessionSave :: before) = Ok r /\
    su_unit senv (ScDisconnect :: ScSessionSave :: before) = Ok tt.
Proof.
  intros [Hrun | Hrun].
  - unfold generate_session_client in Hrun.
    destruct (sbind_ok_inv _ _ _ _ _ Hrun) as (client & w1 & _ & H1).
    destruct (sbind_ok_inv _ _ _ _ _ H1) as ([] & w2 & _ & H2).
    destruct (sbind_ok_inv _ _ _ _ _ H2) as (authorized & w3 & _ & H3).
    destruct (sbind_ok_inv _ _ _ _ _ H3) as ([] & w4 & _ & H4).
    exists (calls w4). apply session_saved_inv. assumption.
  - unfold generate_session_script in Hrun.
    destruct (sbind_ok_inv _ _ _ _ _ Hrun) as ([] & w2 & _ & H2).
    destruct (sbind_ok_inv _ _ _ _ _ H2) as (authorized & w3 & _ & H3).
    destruct (sbind_ok_inv _ _ _ _ _ H3) as ([] & w4 & _ & H4).
    exists (calls w4). apply session_saved_inv. assumption.
Qed.

Lemma generated_session_is_the_saved_one_witness :
  let senv := scripted_setup false (Some (OtherException "2FA needed"))
                [" +1555 "; "12345 "; "hunter2"; "1BQAN"] in
  exists before,
    calls (snd (generate_session_script senv strip fresh_world))
    = ScDisconnect :: ScSessionSave :: before /\
    su_text senv (ScSessionSave :: before) = Ok "1BQAN"%string /\
    su_unit senv (ScDisconnect :: ScSessionSave :: before) = Ok tt.
Proof.
  intros senv.
  apply (generated_session_is_the_saved_one senv "" any_session strip fresh_world "1BQAN"
           (snd (generate_session_script senv strip fresh_world))).
  right. reflexivity.
Defined.

(** A client that [get_client] returns is in [_client] from then on, and
    getting it made no call. *)
Lemma get_client_ok session session_error w client :
  fst (get_client session session_error w) = Ok client ->
  get_client session session_error w = (Ok client, mkWorld (Some client) (calls w)).
Proof.
  unfold get_client. destruct w as [[existing |] cs]; simpl.
  - intros H. injection H as <-. reflexivity.
  - destruct session as [| c rest]; simpl.
    + intros H. injection H as <-. reflexivity.
    + destruct (session_error (String c rest)); simpl; intros H; [discriminate |].
      injection H as <-. reflexivity.
Qed.

(** When [get_client] raises, nothing has changed. *)
Lemma get_client_raise session session_error w e :
  fst (get_client session session_error w) = Raise e ->
  get_client session session_error w = (Raise e, w).
Proof.
  unfold get_client. destruct w as [[existing |] cs]; simpl; [discriminate |].
  destruct session as [| c rest]; simpl; [discriminate |].
  destruct (session_error (String c rest)); simpl; intros H; [| discriminate].
  injection H as <-. reflexivity.
Qed.

(** X21.  With a client that is already authorized, neither generator
    prompts for anything or requests a code: the calls are [connect],
    [is_user_authorized], [session.save] and [disconnect], in this order.
    The script builds its client from an empty session; for
    telegram_client.py the client is the one [get_client] returns, and
    when [get_client] raises instead, the generator raises the same error
    and has made no call. *)
Theorem authorized_client_is_not_prompted senv session session_error str_strip w saved :
  let checked := ScIsUserAuthorized :: ScConnect :: calls w in
  su_unit senv (ScConnect :: calls w) = Ok tt ->
  su_bool senv checked = Ok true ->
  su_text senv (ScSessionSave :: checked) = Ok saved ->
  su_unit senv (ScDisconnect :: ScSessionSave :: checked) = Ok tt ->
  generate_session_script senv str_strip w
  = (Ok saved, mkWorld (slot w) (ScDisconnect :: ScSessionSave :: checked)) /\
  (forall client,
      fst (get_client session session_error w) = Ok client ->
      fst (generate_session_client senv session session_error w) = Ok saved /\
      calls (snd (generate_session_client senv session session_error w))
      = ScDisconnect :: ScSessionSave :: checked) /\
  (forall e,
      fst (get_client session session_error w) = Raise e ->
      generate_session_client senv session session_error w = (Raise e, w)).
Proof.
  intros checked Hconnect Hauth Hsave Hdisc. subst checked.
  split; [| split];
    [| | intros e Hraise; unfold generate_session_client, sbind;
         rewrite (get_client_raise _ _ _ _ Hraise); reflexivity].
  - unfold generate_session_script, sbind, scall, sret. simpl.
    rewrite Hconnect, Hauth. simpl. rewrite Hsave, Hdisc. reflexivity.
  - intros client Hclient.
    unfold generate_session_client, sbind, scall, sret.
    rewrite (get_client_ok _ _ _ _ Hclient). simpl.
    rewrite Hconnect, Hauth. simpl. rewrite Hsave, Hdisc. split; reflexivity.
Qed.

Lemma authorized_client_is_not_prompted_witness :
  generate_session_script (scripted_setup true None ["1BQAN"]) strip fresh_world
  = (Ok "1BQAN"%string,
     mkWorld None [ScDisconnect; ScSessionSave; ScIsUserAuthorized; ScConnect]) /\
  calls (snd (generate_session_client (scripted_setup true None ["1BQAN"]) "" by_length
                fresh_world))
  = [ScDisconnect; ScSessionSave; ScIsUserAuthorized; ScConnect] /\
  count_occ Bool.bool_dec
    (map is_prompt [ScDisconnect; ScSessionSave; ScIsUserAuthorized; ScConnect]) true = 0.
Proof.
  destruct (authorized_client_is_not_prompted (scripted_setup true None ["1BQAN"])
              "" by_length strip fresh_world "1BQAN" eq_refl eq_refl eq_refl eq_refl)
    as (Hscript & Hclient & _).
  split; [exact Hscript |]. split; [| reflexivity].
  apply (Hclient (mkClient None)). reflexivity.
Defined.

(** X22.  A failure of [sign_in] that the generator's test does not take
    for a password request is raised again as it is, and the client is left
    connected: [sign_in] is the last call, no [disconnect] follows.  The
    script signs in with the stripped phone number and code, whatever
    [str.strip] removes; telegram_client.py does the same with its own
    test, its own prompts and no stripping, on the client that [get_client]
    returns. *)
Theorem unrecognised_sign_in_failure_is_raised
    senv session session_error str_strip w phone code e :
  let asked := ScInput "Enter your phone number (with country code, e.g., +1234567890): "
               :: ScIsUserAuthorized :: ScConnect :: calls w in
  let sent := ScSendCodeRequest (str_strip phone) :: asked in
  let typed := ScInput "Enter the verification code you received: " :: sent in
  let asked' := ScInput "Enter your phone number (with country code): "
                :: ScIsUserAuthorized :: ScConnect :: calls w in
  let sent' := ScSendCodeRequest phone :: asked' in
  let typed' := ScInput "Enter the code you received: " :: sent' in
  su_unit senv (ScConnect :: calls w) = Ok tt ->
  su_bool senv (ScIsUserAuthorized :: ScConnect :: calls w) = Ok false ->
  (su_text senv asked = Ok phone ->
   su_unit senv sent = Ok tt ->
   su_text senv typed = Ok code ->
   su_unit senv (ScSignIn (str_strip phone) (str_strip code) :: typed) = Raise e ->
   needs_password_script (str_exc e) = false ->
   generate_session_script senv str_strip w
   = (Raise e, mkWorld (slot w) (ScSignIn (str_strip phone) (str_strip code) :: typed))) /\
  (forall client,
   fst (get_client session session_error w) = Ok client ->
   su_text senv asked' = Ok phone ->
   su_unit senv sent' = Ok tt ->
   su_text senv typed' = Ok code ->
   su_unit senv (ScSignIn phone code :: typed') = Raise e ->
   needs_password_client (str_exc e) = false ->
   fst (generate_session_client senv session session_error w) = Raise e /\
   calls (snd (generate_session_client senv session session_error w))
   = ScSignIn phone code :: typed').
Proof.
  intros asked sent typed asked' sent' typed' Hconnect Hauth.
  subst asked sent typed asked' sent' typed'. split.
  - intros Hphone Hsent Hcode Hsign Htest.
    unfold generate_session_script, sbind, scatch, scall, sret, sraise. simpl.
    rewrite Hconnect, Hauth. simpl. rewrite Hphone, Hsent, Hcode, Hsign, Htest.
    reflexivity.
  - intros client Hclient Hphone Hsent Hcode Hsign Htest.
    unfold generate_session_client, sbind, scatch, scall, sret, sraise.
    rewrite (get_client_ok _ _ _ _ Hclient). simpl.
    rewrite Hconnect, Hauth. simpl.
    rewrite Hphone, Hsent, Hcode, Hsign, Htest. split; reflexivity.
Qed.

Lemma unrecognised_sign_in_failure_is_raised_witness :
  let senv := scripted_setup false (Some (OtherException "2FA needed"))
                [" +1555 "; "12345 "; "hunter2"; "1BQAN"] in
  fst (generate_session_client senv "" by_length fresh_world)
  = Raise (OtherException "2FA needed") /\
  calls (snd (generate_session_client senv "" by_length fresh_world))
  = [ScSignIn " +1555 " "12345 "; ScInput "Enter the code you received: ";
     ScSendCodeRequest " +1555 ";
     ScInput "Enter your phone number (with country code): ";
     ScIsUserAuthorized; ScConnect] /\
  generate_session_script
    (scripted_setup false (Some (OtherException "PHONE_CODE_INVALID"))
       [" +1555 "; "12345 "]) strip fresh_world
  = (Raise (OtherException "PHONE_CODE_INVALID"),
     mkWorld None
       [ScSignIn "+1555" "12345";
        ScInput "Enter the verification code you received: ";
        ScSendCodeRequest "+1555";
        ScInput "Enter your phone number (with country code, e.g., +1234567890): ";
        ScIsUserAuthorized; ScConnect]).
Proof.
  intros senv.
  destruct (proj2 (unrecognised_sign_in_failure_is_raised senv "" by_length strip
                     fresh_world " +1555 " "12345 " (OtherException "2FA needed")
                     eq_refl eq_refl)
              (mkClient None) eq_refl eq_refl eq_refl eq_refl eq_refl eq_refl)
    as (Hraised & Hcalls).
  split; [exact Hraised |]. split; [exact Hcalls |].
  apply (proj1 (unrecognised_sign_in_failure_is_raised
                  (scripted_setup false (Some (OtherException "PHONE_CODE_INVALID"))
                     [" +1555 "; "12345 "])
                  "" by_length strip fresh_world " +1555 " "12345 "
                  (OtherException "PHONE_CODE_INVALID") eq_refl eq_refl));
    reflexivity.
Defined.

(** X23.  [_client] is a singleton.  A first [get_client] builds the
    client from SESSION_STRING (an empty string gives an empty session)
    unless the string does not decode: then the decoder's error is raised
    and [_client] stays unset.  Once a client was returned, every later
    call returns that same client, whatever SESSION_STRING has become and
    without decoding anything, and [disconnect] never clears it.  Without a
    client [disconnect] makes no call; with one it calls
    [client.disconnect()] exactly when the client reports that it is
    connected. *)
Theorem client_is_a_singleton senv session session' session_error session_error' w :
  (forall e,
      slot w = None -> session <> EmptyString -> session_error session = Some e ->
      get_client session session_error w = (Raise e, w)) /\
  (slot w <> None \/ session = EmptyString \/ session_error session = None ->
   exists client, fst (get_client session session_error w) = Ok client) /\
  (slot w = None -> disconnect senv w = (Ok tt, w)) /\
  (forall client w1,
      get_client session session_error w = (Ok client, w1) ->
      slot w1 = Some client /\ calls w1 = calls w /\
      (slot w = None ->
       client_session client
       = match session with EmptyString => None | _ => Some session end) /\
      get_client session' session_error' w1 = (Ok client, w1) /\
      slot (snd (disconnect senv w1)) = Some client /\
      get_client session' session_error' (snd (disconnect senv w1))
      = (Ok client, snd (disconnect senv w1)) /\
      (su_bool senv (ScIsConnected :: calls w1) = Ok false ->
       disconnect senv w1 = (Ok tt, mkWorld (Some client) (ScIsConnected :: calls w1))) /\
      (su_bool senv (ScIsConnected :: calls w1) = Ok true ->
       calls (snd (disconnect senv w1)) = ScDisconnect :: ScIsConnected :: calls w1)).
Proof.
  split; [| split; [| split]].
  - intros e Hslot Hsession Herror. unfold get_client. rewrite Hslot.
    destruct session as [| c rest]; [contradiction Hsession; reflexivity |].
    rewrite Herror. reflexivity.
  - intros Hcase. unfold get_client.
    destruct (slot w) as [existing |]; [exists existing; reflexivity |].
    destruct session as [| c rest]; [eexists; reflexivity |].
    destruct Hcase as [Hslot | [Hempty | Hdecodes]];
      [contradiction Hslot; reflexivity | discriminate |].
    rewrite Hdecodes. eexists. reflexivity.
  - intros Hslot. unfold disconnect. rewrite Hslot. reflexivity.
  - intros client w1 Hget.
    assert (Hfst : fst (get_client session session_error w) = Ok client)
      by (rewrite Hget; reflexivity).
    rewrite (get_client_ok _ _ _ _ Hfst) in Hget. injection Hget as <-.
    assert (Hbuilt : slot w = None ->
                     client_session client
                     = match session with EmptyString => None | _ => Some session end).
    { intros Hslot. revert Hfst. unfold get_client. rewrite Hslot.
      destruct session as [| c rest]; simpl.
      - intros H. injection H as <-. reflexivity.
      - destruct (session_error (String c rest)); simpl; intros H; [discriminate |].
        injection H as <-. reflexivity. }
    unfold get_client, disconnect, sbind, scall, sret. simpl.
    destruct (su_bool senv (ScIsConnected :: calls w)) as [[|] | e]; simpl;
      try (destruct (su_unit senv (ScDisconnect :: ScIsConnected :: calls w)));
      repeat split; try reflexivity; try discriminate; assumption.
Qed.

Lemma client_is_a_singleton_witness :
  (* a string that does not decode: no client, and [_client] stays unset *)
  get_client "1BQAN" by_length fresh_world
  = (Raise (OtherException "unpack requires a buffer of 275 bytes"), fresh_world) /\
  (* no SESSION_STRING: a client with an empty session, kept from then on *)
  get_client "" by_length fresh_world
  = (Ok (mkClient None), mkWorld (Some (mkClient None)) []) /\
  get_client "1BQAN" by_length (mkWorld (Some (mkClient None)) [])
  = (Ok (mkClient None), mkWorld (Some (mkClient None)) []) /\
  disconnect (scripted_setup true None []) fresh_world = (Ok tt, fresh_world).
Proof.
  destruct (client_is_a_singleton (scripted_setup true None []) "1BQAN" "" by_length
              by_length fresh_world) as (Hfails & _ & Hnone & _).
  destruct (client_is_a_singleton (scripted_setup true None []) "" "1BQAN" by_length
              by_length fresh_world) as (_ & _ & _ & Hkept).
  destruct (Hkept (mkClient None) (mkWorld (Some (mkClient None)) []) eq_refl)
    as (_ & _ & _ & Hagain & _).
  split; [apply Hfails; [reflexivity | discriminate | reflexivity] |].
  split; [reflexivity |]. split; [exact Hagain |].
  apply Hnone. reflexivity.
Defined.

(** *** What the flow says to the bot *)

Lemma price_text_allowed n : is_foreign_text n (EvConvSendMessage (str_int n)) = false.
Proof. simpl. rewrite String.eqb_refl, orb_true_r. reflexivity. Qed.

Lemma count_zero_in P evs ev :
  count_events P evs = 0 -> In ev evs -> P ev = false.
Proof.
  intros Hcount Hin. destruct (P ev) eqn:Hev; [| reflexivity].
  exfalso. unfold count_events in Hcount.
  assert (Hmem : In ev (filter P evs)) by (apply filter_In; split; assumption).
  destruct (filter P evs); [contradiction | discriminate].
Qed.

(** The search clicks nothing but a control that matches. *)
Lemma emits_click_matching P env str_lower m button_text :
  (forall message_id i j b,
      label_matches_with str_lower button_text b = true ->
      P (EvButtonClick message_id i j b) = false) ->
  emits_at_most P 0 (find_and_click_button_with env str_lower m button_text).
Proof.
  intros Hmatching.
  assert (Hrow : forall message_id i row j,
             emits_at_most P 0 (click_in_row env str_lower message_id button_text i j row)).
  { intros message_id i row. induction row as [| b rest IH]; intros j; simpl.
    - apply emits_ret.
    - destruct (label_matches_with str_lower button_text b) eqn:Hlabel; [| apply IH].
      apply emits_bind0; [apply emits_call, Hmatching; exact Hlabel |].
      intros _. apply emits_ret. }
  assert (Hrows : forall message_id rows i,
             emits_at_most P 0 (click_in_rows env str_lower message_id button_text i rows)).
  { intros message_id rows. induction rows as [| row rest IH]; intros i; simpl.
    - apply emits_ret.
    - apply emits_bind0; [apply Hrow |].
      intros [|]; [apply emits_ret | apply IH]. }
  unfold find_and_click_button_with. destruct (buttons m) as [[| row rows] |].
  - apply emits_ret.
  - apply Hrows.
  - apply emits_ret.
Qed.

Lemma send_ppv_no_foreign_click env url u n :
  emits_at_most is_foreign_click 0 (send_ppv env url u n).
Proof.
  replace 0 with (0 + (0 + (0 + 0 + 0 + 0) * max_retries + 0)) by reflexivity.
  apply send_ppv_budget;
    intros;
    unfold steps_1_to_4, caption_step, download_photo, handle_user_selection,
      establish_contact, click_try_again, final_confirmation, wait_for_response;
    quiet; try apply text_lower_quiet;
    apply emits_click_matching; intros message_id i j b Hlabel;
    unfold is_foreign_click;
    first [ change (str_in "empty" (lower (btn_text b)) = true) in Hlabel
          | change (str_in "try again" (lower (btn_text b)) = true) in Hlabel ];
    rewrite Hlabel, ?orb_true_r; reflexivity.
Qed.

(** X24.  The only texts the flow passes to [conv.send_message] are
    "/sell", "Empty" and the price in decimal: the username, the URL and
    the bot's own texts are never sent that way.  [button.click()] is only
    called on controls whose label contains "empty" or "try again", in any
    letter case; so whatever such a click sends to the bot (a plain
    keyboard button sends its label as a text message), it is the click of
    such a control of the bot's own keyboard. *)
Theorem flow_sends_only_its_three_texts env url u n h :
  exists evs,
    snd (send_ppv env url u n h) = evs ++ h /\
    (forall text,
        In (EvConvSendMessage text) evs ->
        text = "/sell"%string \/ text = "Empty"%string \/ text = str_int n) /\
    (forall message_id i j b,
        In (EvButtonClick message_id i j b) evs ->
        str_in "empty" (lower (btn_text b)) = true \/
        str_in "try again" (lower (btn_text b)) = true).
Proof.
  assert (Hquiet : emits_at_most (is_foreign_text n) 0 (send_ppv env url u n)).
  { replace 0 with (0 + (0 + (0 + 0 + 0 + 0) * max_retries + 0)) by reflexivity.
    apply send_ppv_budget;
      intros;
      unfold steps_1_to_4, caption_step, download_photo, handle_user_selection,
        establish_contact, click_try_again, final_confirmation, wait_for_response;
      quiet; try apply text_lower_quiet.
    apply emits_call, price_text_allowed. }
  destruct (Hquiet h) as (evs & Hevs & Hcount).
  pose proof (emits_count is_foreign_click _ _ h evs
                (send_ppv_no_foreign_click env url u n) Hevs) as Hclicks.
  exists evs. split; [assumption |]. split.
  - intros text Hin.
    assert (Hcount0 : count_events (is_foreign_text n) evs = 0) by lia.
    pose proof (count_zero_in _ _ _ Hcount0 Hin) as Hallowed.
    simpl in Hallowed. apply negb_false_iff in Hallowed.
    rewrite !orb_true_iff in Hallowed.
    destruct Hallowed as [[H | H] | H]; apply String.eqb_eq in H; auto.
  - intros message_id i j b Hin.
    assert (Hclicks0 : count_events is_foreign_click evs = 0) by lia.
    pose proof (count_zero_in _ _ _ Hclicks0 Hin) as Hallowed.
    simpl in Hallowed. apply negb_false_iff in Hallowed.
    apply orb_true_iff in Hallowed. exact Hallowed.
Qed.

Lemma flow_sends_only_its_three_texts_witness :
  ("100"%string = "/sell"%string \/ "100"%string = "Empty"%string
   \/ "100"%string = str_int 100) /\
  (str_in "empty" (lower "Empty") = true \/ str_in "try again" (lower "Empty") = true).
Proof.
  destruct (flow_sends_only_its_three_texts (scripted no_faults scenario_script)
              (photo_url alice_request) "@alice" 100 []) as (evs & Hevs & Hall & Hclicks).
  rewrite app_nil_r in Hevs. split.
  - apply (Hall "100"%string).
    rewrite <- Hevs. vm_compute.
    repeat (try (left; reflexivity); right).
  - apply (Hclicks 2%Z 0 0 (mkButton "Empty" (KeyboardButtonCallback "sell_empty"))).
    rewrite <- Hevs. vm_compute.
    repeat (try (left; reflexivity); right).
Defined.

